(** * N-Attune: signal fusion and commit state machine of [script.js]

    A shallow embedding of the parts of [src/script.js] that turn per-frame
    face and sound measurements into debounced, rate-limited commits:
    the signal extractor ([processResults], [detectSmileFromLandmarks],
    [detectHeadGesture]), the rule engine ([generateSuggestion]), the commit
    state machine ([updateSuggestion], [commitMessage]), the conversation
    log ([addToLog], [savePatientLog], [clearLog]) and the cancellation
    paths ([stopCamera], [stopMic]); further on, the microphone poll
    ([monitorMic]), the session start ([startSession]) and the events that
    drive the state.

    Modelling conventions.
    - Times are the integer milliseconds returned by [Date.now()]: [Z].
      Every call of [Date.now()] is a separate reading, passed in explicitly.
    - Scores and landmark coordinates are JavaScript numbers.  They are
      modelled as exact rationals [Q], the decimal literals of the source
      included: the rounding of IEEE doubles is not modelled.  A value agrees
      with the code's up to rounding, and a comparison can differ from the
      code's for a value within one rounding error of its threshold.
    - A landmark array is a list whose entries may be [undefined]:
      [landmarks[i]] is [undefined] past the end and where the entry is.
      Reading a coordinate of [undefined] throws.
    - [null] is [None]; the coercions JavaScript applies to [null] in
      arithmetic, comparisons and [||] are written out where the source
      relies on them.
    - The DOM, the Web Audio graph and the speech synthesiser are outside:
      what the code asks of them is recorded in a trace of effects. *)

From Stdlib Require Import ZArith QArith Qminmax Qabs Lia Lqa String List.
From stdpp Require Import gmap strings list.

Open Scope string_scope.
Open Scope Z_scope.

(** ** Configuration: the [CONFIG] object *)

Module CONFIG.
Definition STABILITY_TIME : Z := 800.
Definition LOCK_TIME : Z := 4000.
Definition TTS_COOLDOWN : Z := 4000.
Definition REPEAT_COOLDOWN : Z := 10000.
Definition SMILE_THRESHOLD : Q := 0.3.
Definition MOUTH_OPEN_THRESHOLD : Q := 0.15.
Definition SOUND_SPIKE_THRESHOLD : Q := 0.4.
Definition NOD_THRESHOLD : Q := 0.015.
Definition SHAKE_THRESHOLD : Q := 0.02.
Definition GESTURE_FRAMES : nat := 10.
Definition MAX_LOG_ITEMS : nat := 50.
Definition STORAGE_PREFIX : string := "nattune_".
End CONFIG.

(** ** Numbers *)

(** [a > b] on numbers. *)
Definition Qgtb (a b : Q) : bool := negb (Qle_bool a b).
(** [a < b] on numbers. *)
Definition Qltb (a b : Q) : bool := Qgtb b a.

(** [Math.max(0, Math.min(1, v))]. *)
Definition clamp01 (v : Q) : Q := Qmax 0 (Qmin 1 v).

(** A time that may be [null], used as a number: [null] coerces to [0]. *)
Definition num_of (t : option Z) : Z := default 0 t.

(** ** Data model *)

(** The values [state.headGesture] takes: ['still'], ['nod'], ['shake']. *)
Inductive Gesture := still | nod | shake.

(** The values [state.currentEmotion] takes. *)
Inductive Emotion := happy_e | sad_e | surprised_e | neutral_e.

(** The values [state.signalTone] takes. *)
Inductive Tone := tone_neutral | tone_positive | tone_sad | tone_surprised | tone_distress.

Record EmotionScores := {
  happy : Q;
  sad : Q;
  surprised : Q;
  neutral : Q
}.

(** A normalised landmark: the [x] and [y] the code reads. *)
Record Point := { px : Q; py : Q }.

(** An entry of [state.noseHistory]: [{x, y, time}]. *)
Record NoseSample := { nx : Q; ny : Q; ntime : Z }.

(** An entry of [state.conversationLog]. *)
Record LogEntry := {
  entry_id : Z;
  entry_message : string;
  entry_type : string;
  entry_timestamp : string;
  entry_patient : option string
}.

(** The [state] object.  Left out: the media handles ([audioContext],
    [analyser], [micStream]), the two debug flags, [lastCommitTime] (never
    written) and [currentOutput]/[outputTime] (written only by the timer
    callback that [commitMessage] schedules).  [faceLandmarker] records
    whether the landmarker has been created. *)
Record State := {
  currentPatient : option string;
  cameraRunning : bool;
  faceLandmarker : bool;
  lastVideoTime : Q;
  micRunning : bool;
  soundLevel : Q;
  smileScore : Q;
  mouthOpenScore : Q;
  movementScore : Q;
  headGesture : Gesture;
  noseHistory : list NoseSample;
  currentEmotion : Emotion;
  emotionScores : EmotionScores;
  browScore : Q;
  eyeOpenScore : Q;
  currentSuggestion : option string;
  suggestionStartTime : option Z;
  isLocked : bool;
  lockEndTime : option Z;
  lastTTSTime : Z;
  lastTTSMessage : option string;
  signalTone : Tone;
  conversationLog : list LogEntry;
  soundEnabled : bool
}.

(** The initial value of [state]. *)
Definition initial_state : State :=
  {| currentPatient := None; cameraRunning := false; faceLandmarker := false;
     lastVideoTime := -1; micRunning := false; soundLevel := 0;
     smileScore := 0; mouthOpenScore := 0; movementScore := 0;
     headGesture := still; noseHistory := [];
     currentEmotion := neutral_e;
     emotionScores := {| happy := 0; sad := 0; surprised := 0; neutral := 0 |};
     browScore := 0; eyeOpenScore := 0;
     currentSuggestion := None; suggestionStartTime := None;
     isLocked := false; lockEndTime := None;
     lastTTSTime := 0; lastTTSMessage := None;
     signalTone := tone_neutral; conversationLog := []; soundEnabled := true |}.

(** Assignments [state.f = v], one per field. *)
Definition set_currentPatient v (s : State) : State :=
  {| currentPatient := v; cameraRunning := cameraRunning s; faceLandmarker := faceLandmarker s;
     lastVideoTime := lastVideoTime s; micRunning := micRunning s; soundLevel := soundLevel s;
     smileScore := smileScore s; mouthOpenScore := mouthOpenScore s;
     movementScore := movementScore s; headGesture := headGesture s;
     noseHistory := noseHistory s; currentEmotion := currentEmotion s;
     emotionScores := emotionScores s; browScore := browScore s;
     eyeOpenScore := eyeOpenScore s; currentSuggestion := currentSuggestion s;
     suggestionStartTime := suggestionStartTime s; isLocked := isLocked s;
     lockEndTime := lockEndTime s; lastTTSTime := lastTTSTime s;
     lastTTSMessage := lastTTSMessage s; signalTone := signalTone s;
     conversationLog := conversationLog s; soundEnabled := soundEnabled s |}.
Definition set_cameraRunning v (s : State) : State :=
  {| currentPatient := currentPatient s; cameraRunning := v;
     faceLandmarker := faceLandmarker s; lastVideoTime := lastVideoTime s;
     micRunning := micRunning s; soundLevel := soundLevel s; smileScore := smileScore s;
     mouthOpenScore := mouthOpenScore s; movementScore := movementScore s;
     headGesture := headGesture s; noseHistory := noseHistory s;
     currentEmotion := currentEmotion s; emotionScores := emotionScores s;
     browScore := browScore s; eyeOpenScore := eyeOpenScore s;
     currentSuggestion := currentSuggestion s; suggestionStartTime := suggestionStartTime s;
     isLocked := isLocked s; lockEndTime := lockEndTime s; lastTTSTime := lastTTSTime s;
     lastTTSMessage := lastTTSMessage s; signalTone := signalTone s;
     conversationLog := conversationLog s; soundEnabled := soundEnabled s |}.
Definition set_faceLandmarker v (s : State) : State :=
  {| currentPatient := currentPatient s; cameraRunning := cameraRunning s; faceLandmarker := v;
     lastVideoTime := lastVideoTime s; micRunning := micRunning s; soundLevel := soundLevel s;
     smileScore := smileScore s; mouthOpenScore := mouthOpenScore s;
     movementScore := movementScore s; headGesture := headGesture s;
     noseHistory := noseHistory s; currentEmotion := currentEmotion s;
     emotionScores := emotionScores s; browScore := browScore s;
     eyeOpenScore := eyeOpenScore s; currentSuggestion := currentSuggestion s;
     suggestionStartTime := suggestionStartTime s; isLocked := isLocked s;
     lockEndTime := lockEndTime s; lastTTSTime := lastTTSTime s;
     lastTTSMessage := lastTTSMessage s; signalTone := signalTone s;
     conversationLog := conversationLog s; soundEnabled := soundEnabled s |}.
Definition set_lastVideoTime v (s : State) : State :=
  {| currentPatient := currentPatient s; cameraRunning := cameraRunning s;
     faceLandmarker := faceLandmarker s; lastVideoTime := v; micRunning := micRunning s;
     soundLevel := soundLevel s; smileScore := smileScore s;
     mouthOpenScore := mouthOpenScore s; movementScore := movementScore s;
     headGesture := headGesture s; noseHistory := noseHistory s;
     currentEmotion := currentEmotion s; emotionScores := emotionScores s;
     browScore := browScore s; eyeOpenScore := eyeOpenScore s;
     currentSuggestion := currentSuggestion s; suggestionStartTime := suggestionStartTime s;
     isLocked := isLocked s; lockEndTime := lockEndTime s; lastTTSTime := lastTTSTime s;
     lastTTSMessage := lastTTSMessage s; signalTone := signalTone s;
     conversationLog := conversationLog s; soundEnabled := soundEnabled s |}.
Definition set_micRunning v (s : State) : State :=
  {| currentPatient := currentPatient s; cameraRunning := cameraRunning s;
     faceLandmarker := faceLandmarker s; lastVideoTime := lastVideoTime s; micRunning := v;
     soundLevel := soundLevel s; smileScore := smileScore s;
     mouthOpenScore := mouthOpenScore s; movementScore := movementScore s;
     headGesture := headGesture s; noseHistory := noseHistory s;
     currentEmotion := currentEmotion s; emotionScores := emotionScores s;
     browScore := browScore s; eyeOpenScore := eyeOpenScore s;
     currentSuggestion := currentSuggestion s; suggestionStartTime := suggestionStartTime s;
     isLocked := isLocked s; lockEndTime := lockEndTime s; lastTTSTime := lastTTSTime s;
     lastTTSMessage := lastTTSMessage s; signalTone := signalTone s;
     conversationLog := conversationLog s; soundEnabled := soundEnabled s |}.
Definition set_soundLevel v (s : State) : State :=
  {| currentPatient := currentPatient s; cameraRunning := cameraRunning s;
     faceLandmarker := faceLandmarker s; lastVideoTime := lastVideoTime s;
     micRunning := micRunning s; soundLevel := v; smileScore := smileScore s;
     mouthOpenScore := mouthOpenScore s; movementScore := movementScore s;
     headGesture := headGesture s; noseHistory := noseHistory s;
     currentEmotion := currentEmotion s; emotionScores := emotionScores s;
     browScore := browScore s; eyeOpenScore := eyeOpenScore s;
     currentSuggestion := currentSuggestion s; suggestionStartTime := suggestionStartTime s;
     isLocked := isLocked s; lockEndTime := lockEndTime s; lastTTSTime := lastTTSTime s;
     lastTTSMessage := lastTTSMessage s; signalTone := signalTone s;
     conversationLog := conversationLog s; soundEnabled := soundEnabled s |}.
Definition set_smileScore v (s : State) : State :=
  {| currentPatient := currentPatient s; cameraRunning := cameraRunning s;
     faceLandmarker := faceLandmarker s; lastVideoTime := lastVideoTime s;
     micRunning := micRunning s; soundLevel := soundLevel s; smileScore := v;
     mouthOpenScore := mouthOpenScore s; movementScore := movementScore s;
     headGesture := headGesture s; noseHistory := noseHistory s;
     currentEmotion := currentEmotion s; emotionScores := emotionScores s;
     browScore := browScore s; eyeOpenScore := eyeOpenScore s;
     currentSuggestion := currentSuggestion s; suggestionStartTime := suggestionStartTime s;
     isLocked := isLocked s; lockEndTime := lockEndTime s; lastTTSTime := lastTTSTime s;
     lastTTSMessage := lastTTSMessage s; signalTone := signalTone s;
     conversationLog := conversationLog s; soundEnabled := soundEnabled s |}.
Definition set_mouthOpenScore v (s : State) : State :=
  {| currentPatient := currentPatient s; cameraRunning := cameraRunning s;
     faceLandmarker := faceLandmarker s; lastVideoTime := lastVideoTime s;
     micRunning := micRunning s; soundLevel := soundLevel s; smileScore := smileScore s;
     mouthOpenScore := v; movementScore := movementScore s; headGesture := headGesture s;
     noseHistory := noseHistory s; currentEmotion := currentEmotion s;
     emotionScores := emotionScores s; browScore := browScore s;
     eyeOpenScore := eyeOpenScore s; currentSuggestion := currentSuggestion s;
     suggestionStartTime := suggestionStartTime s; isLocked := isLocked s;
     lockEndTime := lockEndTime s; lastTTSTime := lastTTSTime s;
     lastTTSMessage := lastTTSMessage s; signalTone := signalTone s;
     conversationLog := conversationLog s; soundEnabled := soundEnabled s |}.
Definition set_movementScore v (s : State) : State :=
  {| currentPatient := currentPatient s; cameraRunning := cameraRunning s;
     faceLandmarker := faceLandmarker s; lastVideoTime := lastVideoTime s;
     micRunning := micRunning s; soundLevel := soundLevel s; smileScore := smileScore s;
     mouthOpenScore := mouthOpenScore s; movementScore := v; headGesture := headGesture s;
     noseHistory := noseHistory s; currentEmotion := currentEmotion s;
     emotionScores := emotionScores s; browScore := browScore s;
     eyeOpenScore := eyeOpenScore s; currentSuggestion := currentSuggestion s;
     suggestionStartTime := suggestionStartTime s; isLocked := isLocked s;
     lockEndTime := lockEndTime s; lastTTSTime := lastTTSTime s;
     lastTTSMessage := lastTTSMessage s; signalTone := signalTone s;
     conversationLog := conversationLog s; soundEnabled := soundEnabled s |}.
Definition set_headGesture v (s : State) : State :=
  {| currentPatient := currentPatient s; cameraRunning := cameraRunning s;
     faceLandmarker := faceLandmarker s; lastVideoTime := lastVideoTime s;
     micRunning := micRunning s; soundLevel := soundLevel s; smileScore := smileScore s;
     mouthOpenScore := mouthOpenScore s; movementScore := movementScore s; headGesture := v;
     noseHistory := noseHistory s; currentEmotion := currentEmotion s;
     emotionScores := emotionScores s; browScore := browScore s;
     eyeOpenScore := eyeOpenScore s; currentSuggestion := currentSuggestion s;
     suggestionStartTime := suggestionStartTime s; isLocked := isLocked s;
     lockEndTime := lockEndTime s; lastTTSTime := lastTTSTime s;
     lastTTSMessage := lastTTSMessage s; signalTone := signalTone s;
     conversationLog := conversationLog s; soundEnabled := soundEnabled s |}.
Definition set_noseHistory v (s : State) : State :=
  {| currentPatient := currentPatient s; cameraRunning := cameraRunning s;
     faceLandmarker := faceLandmarker s; lastVideoTime := lastVideoTime s;
     micRunning := micRunning s; soundLevel := soundLevel s; smileScore := smileScore s;
     mouthOpenScore := mouthOpenScore s; movementScore := movementScore s;
     headGesture := headGesture s; noseHistory := v; currentEmotion := currentEmotion s;
     emotionScores := emotionScores s; browScore := browScore s;
     eyeOpenScore := eyeOpenScore s; currentSuggestion := currentSuggestion s;
     suggestionStartTime := suggestionStartTime s; isLocked := isLocked s;
     lockEndTime := lockEndTime s; lastTTSTime := lastTTSTime s;
     lastTTSMessage := lastTTSMessage s; signalTone := signalTone s;
     conversationLog := conversationLog s; soundEnabled := soundEnabled s |}.
Definition set_currentEmotion v (s : State) : State :=
  {| currentPatient := currentPatient s; cameraRunning := cameraRunning s;
     faceLandmarker := faceLandmarker s; lastVideoTime := lastVideoTime s;
     micRunning := micRunning s; soundLevel := soundLevel s; smileScore := smileScore s;
     mouthOpenScore := mouthOpenScore s; movementScore := movementScore s;
     headGesture := headGesture s; noseHistory := noseHistory s; currentEmotion := v;
     emotionScores := emotionScores s; browScore := browScore s;
     eyeOpenScore := eyeOpenScore s; currentSuggestion := currentSuggestion s;
     suggestionStartTime := suggestionStartTime s; isLocked := isLocked s;
     lockEndTime := lockEndTime s; lastTTSTime := lastTTSTime s;
     lastTTSMessage := lastTTSMessage s; signalTone := signalTone s;
     conversationLog := conversationLog s; soundEnabled := soundEnabled s |}.
Definition set_emotionScores v (s : State) : State :=
  {| currentPatient := currentPatient s; cameraRunning := cameraRunning s;
     faceLandmarker := faceLandmarker s; lastVideoTime := lastVideoTime s;
     micRunning := micRunning s; soundLevel := soundLevel s; smileScore := smileScore s;
     mouthOpenScore := mouthOpenScore s; movementScore := movementScore s;
     headGesture := headGesture s; noseHistory := noseHistory s;
     currentEmotion := currentEmotion s; emotionScores := v; browScore := browScore s;
     eyeOpenScore := eyeOpenScore s; currentSuggestion := currentSuggestion s;
     suggestionStartTime := suggestionStartTime s; isLocked := isLocked s;
     lockEndTime := lockEndTime s; lastTTSTime := lastTTSTime s;
     lastTTSMessage := lastTTSMessage s; signalTone := signalTone s;
     conversationLog := conversationLog s; soundEnabled := soundEnabled s |}.
Definition set_browScore v (s : State) : State :=
  {| currentPatient := currentPatient s; cameraRunning := cameraRunning s;
     faceLandmarker := faceLandmarker s; lastVideoTime := lastVideoTime s;
     micRunning := micRunning s; soundLevel := soundLevel s; smileScore := smileScore s;
     mouthOpenScore := mouthOpenScore s; movementScore := movementScore s;
     headGesture := headGesture s; noseHistory := noseHistory s;
     currentEmotion := currentEmotion s; emotionScores := emotionScores s; browScore := v;
     eyeOpenScore := eyeOpenScore s; currentSuggestion := currentSuggestion s;
     suggestionStartTime := suggestionStartTime s; isLocked := isLocked s;
     lockEndTime := lockEndTime s; lastTTSTime := lastTTSTime s;
     lastTTSMessage := lastTTSMessage s; signalTone := signalTone s;
     conversationLog := conversationLog s; soundEnabled := soundEnabled s |}.
Definition set_eyeOpenScore v (s : State) : State :=
  {| currentPatient := currentPatient s; cameraRunning := cameraRunning s;
     faceLandmarker := faceLandmarker s; lastVideoTime := lastVideoTime s;
     micRunning := micRunning s; soundLevel := soundLevel s; smileScore := smileScore s;
     mouthOpenScore := mouthOpenScore s; movementScore := movementScore s;
     headGesture := headGesture s; noseHistory := noseHistory s;
     currentEmotion := currentEmotion s; emotionScores := emotionScores s;
     browScore := browScore s; eyeOpenScore := v; currentSuggestion := currentSuggestion s;
     suggestionStartTime := suggestionStartTime s; isLocked := isLocked s;
     lockEndTime := lockEndTime s; lastTTSTime := lastTTSTime s;
     lastTTSMessage := lastTTSMessage s; signalTone := signalTone s;
     conversationLog := conversationLog s; soundEnabled := soundEnabled s |}.
Definition set_currentSuggestion v (s : State) : State :=
  {| currentPatient := currentPatient s; cameraRunning := cameraRunning s;
     faceLandmarker := faceLandmarker s; lastVideoTime := lastVideoTime s;
     micRunning := micRunning s; soundLevel := soundLevel s; smileScore := smileScore s;
     mouthOpenScore := mouthOpenScore s; movementScore := movementScore s;
     headGesture := headGesture s; noseHistory := noseHistory s;
     currentEmotion := currentEmotion s; emotionScores := emotionScores s;
     browScore := browScore s; eyeOpenScore := eyeOpenScore s; currentSuggestion := v;
     suggestionStartTime := suggestionStartTime s; isLocked := isLocked s;
     lockEndTime := lockEndTime s; lastTTSTime := lastTTSTime s;
     lastTTSMessage := lastTTSMessage s; signalTone := signalTone s;
     conversationLog := conversationLog s; soundEnabled := soundEnabled s |}.
Definition set_suggestionStartTime v (s : State) : State :=
  {| currentPatient := currentPatient s; cameraRunning := cameraRunning s;
     faceLandmarker := faceLandmarker s; lastVideoTime := lastVideoTime s;
     micRunning := micRunning s; soundLevel := soundLevel s; smileScore := smileScore s;
     mouthOpenScore := mouthOpenScore s; movementScore := movementScore s;
     headGesture := headGesture s; noseHistory := noseHistory s;
     currentEmotion := currentEmotion s; emotionScores := emotionScores s;
     browScore := browScore s; eyeOpenScore := eyeOpenScore s;
     currentSuggestion := currentSuggestion s; suggestionStartTime := v;
     isLocked := isLocked s; lockEndTime := lockEndTime s; lastTTSTime := lastTTSTime s;
     lastTTSMessage := lastTTSMessage s; signalTone := signalTone s;
     conversationLog := conversationLog s; soundEnabled := soundEnabled s |}.
Definition set_isLocked v (s : State) : State :=
  {| currentPatient := currentPatient s; cameraRunning := cameraRunning s;
     faceLandmarker := faceLandmarker s; lastVideoTime := lastVideoTime s;
     micRunning := micRunning s; soundLevel := soundLevel s; smileScore := smileScore s;
     mouthOpenScore := mouthOpenScore s; movementScore := movementScore s;
     headGesture := headGesture s; noseHistory := noseHistory s;
     currentEmotion := currentEmotion s; emotionScores := emotionScores s;
     browScore := browScore s; eyeOpenScore := eyeOpenScore s;
     currentSuggestion := currentSuggestion s; suggestionStartTime := suggestionStartTime s;
     isLocked := v; lockEndTime := lockEndTime s; lastTTSTime := lastTTSTime s;
     lastTTSMessage := lastTTSMessage s; signalTone := signalTone s;
     conversationLog := conversationLog s; soundEnabled := soundEnabled s |}.
Definition set_lockEndTime v (s : State) : State :=
  {| currentPatient := currentPatient s; cameraRunning := cameraRunning s;
     faceLandmarker := faceLandmarker s; lastVideoTime := lastVideoTime s;
     micRunning := micRunning s; soundLevel := soundLevel s; smileScore := smileScore s;
     mouthOpenScore := mouthOpenScore s; movementScore := movementScore s;
     headGesture := headGesture s; noseHistory := noseHistory s;
     currentEmotion := currentEmotion s; emotionScores := emotionScores s;
     browScore := browScore s; eyeOpenScore := eyeOpenScore s;
     currentSuggestion := currentSuggestion s; suggestionStartTime := suggestionStartTime s;
     isLocked := isLocked s; lockEndTime := v; lastTTSTime := lastTTSTime s;
     lastTTSMessage := lastTTSMessage s; signalTone := signalTone s;
     conversationLog := conversationLog s; soundEnabled := soundEnabled s |}.
Definition set_lastTTSTime v (s : State) : State :=
  {| currentPatient := currentPatient s; cameraRunning := cameraRunning s;
     faceLandmarker := faceLandmarker s; lastVideoTime := lastVideoTime s;
     micRunning := micRunning s; soundLevel := soundLevel s; smileScore := smileScore s;
     mouthOpenScore := mouthOpenScore s; movementScore := movementScore s;
     headGesture := headGesture s; noseHistory := noseHistory s;
     currentEmotion := currentEmotion s; emotionScores := emotionScores s;
     browScore := browScore s; eyeOpenScore := eyeOpenScore s;
     currentSuggestion := currentSuggestion s; suggestionStartTime := suggestionStartTime s;
     isLocked := isLocked s; lockEndTime := lockEndTime s; lastTTSTime := v;
     lastTTSMessage := lastTTSMessage s; signalTone := signalTone s;
     conversationLog := conversationLog s; soundEnabled := soundEnabled s |}.
Definition set_lastTTSMessage v (s : State) : State :=
  {| currentPatient := currentPatient s; cameraRunning := cameraRunning s;
     faceLandmarker := faceLandmarker s; lastVideoTime := lastVideoTime s;
     micRunning := micRunning s; soundLevel := soundLevel s; smileScore := smileScore s;
     mouthOpenScore := mouthOpenScore s; movementScore := movementScore s;
     headGesture := headGesture s; noseHistory := noseHistory s;
     currentEmotion := currentEmotion s; emotionScores := emotionScores s;
     browScore := browScore s; eyeOpenScore := eyeOpenScore s;
     currentSuggestion := currentSuggestion s; suggestionStartTime := suggestionStartTime s;
     isLocked := isLocked s; lockEndTime := lockEndTime s; lastTTSTime := lastTTSTime s;
     lastTTSMessage := v; signalTone := signalTone s; conversationLog := conversationLog s;
     soundEnabled := soundEnabled s |}.
Definition set_signalTone v (s : State) : State :=
  {| currentPatient := currentPatient s; cameraRunning := cameraRunning s;
     faceLandmarker := faceLandmarker s; lastVideoTime := lastVideoTime s;
     micRunning := micRunning s; soundLevel := soundLevel s; smileScore := smileScore s;
     mouthOpenScore := mouthOpenScore s; movementScore := movementScore s;
     headGesture := headGesture s; noseHistory := noseHistory s;
     currentEmotion := currentEmotion s; emotionScores := emotionScores s;
     browScore := browScore s; eyeOpenScore := eyeOpenScore s;
     currentSuggestion := currentSuggestion s; suggestionStartTime := suggestionStartTime s;
     isLocked := isLocked s; lockEndTime := lockEndTime s; lastTTSTime := lastTTSTime s;
     lastTTSMessage := lastTTSMessage s; signalTone := v; conversationLog := conversationLog s;
     soundEnabled := soundEnabled s |}.
Definition set_conversationLog v (s : State) : State :=
  {| currentPatient := currentPatient s; cameraRunning := cameraRunning s;
     faceLandmarker := faceLandmarker s; lastVideoTime := lastVideoTime s;
     micRunning := micRunning s; soundLevel := soundLevel s; smileScore := smileScore s;
     mouthOpenScore := mouthOpenScore s; movementScore := movementScore s;
     headGesture := headGesture s; noseHistory := noseHistory s;
     currentEmotion := currentEmotion s; emotionScores := emotionScores s;
     browScore := browScore s; eyeOpenScore := eyeOpenScore s;
     currentSuggestion := currentSuggestion s; suggestionStartTime := suggestionStartTime s;
     isLocked := isLocked s; lockEndTime := lockEndTime s; lastTTSTime := lastTTSTime s;
     lastTTSMessage := lastTTSMessage s; signalTone := signalTone s; conversationLog := v;
     soundEnabled := soundEnabled s |}.
Definition set_soundEnabled v (s : State) : State :=
  {| currentPatient := currentPatient s; cameraRunning := cameraRunning s;
     faceLandmarker := faceLandmarker s; lastVideoTime := lastVideoTime s;
     micRunning := micRunning s; soundLevel := soundLevel s; smileScore := smileScore s;
     mouthOpenScore := mouthOpenScore s; movementScore := movementScore s;
     headGesture := headGesture s; noseHistory := noseHistory s;
     currentEmotion := currentEmotion s; emotionScores := emotionScores s;
     browScore := browScore s; eyeOpenScore := eyeOpenScore s;
     currentSuggestion := currentSuggestion s; suggestionStartTime := suggestionStartTime s;
     isLocked := isLocked s; lockEndTime := lockEndTime s; lastTTSTime := lastTTSTime s;
     lastTTSMessage := lastTTSMessage s; signalTone := signalTone s;
     conversationLog := conversationLog s; soundEnabled := v |}.

(** Assignments to the fields of [state.emotionScores]. *)
Definition set_happy v (e : EmotionScores) : EmotionScores :=
  {| happy := v; sad := sad e; surprised := surprised e; neutral := neutral e |}.
Definition set_sad v (e : EmotionScores) : EmotionScores :=
  {| happy := happy e; sad := v; surprised := surprised e; neutral := neutral e |}.
Definition set_surprised v (e : EmotionScores) : EmotionScores :=
  {| happy := happy e; sad := sad e; surprised := v; neutral := neutral e |}.
Definition set_neutral v (e : EmotionScores) : EmotionScores :=
  {| happy := happy e; sad := sad e; surprised := surprised e; neutral := v |}.

(** ** The outside world *)

(** What the code asks of the browser, in the order it asks. *)
Inductive Effect :=
| Chime                          (* playChime() *)
| Vibrate (ms : Z)               (* navigator.vibrate(ms) *)
| ShowOutput (message : string) (at_time : Z)
                                 (* the 200ms timer that shows the output *)
| Speak (text : string).         (* speak(text) *)

(** A value kept in [localStorage]: the patient name, or a serialised log.
    [JSON.stringify] and [JSON.parse] are inverse on logs and are not
    modelled. *)
Inductive Stored :=
| StoredText (s : string)
| StoredLog (entries : list LogEntry).

Record World := {
  state : State;
  localStorage : gmap string Stored;
  navigator_vibrate : bool;      (* whether [navigator.vibrate] exists *)
  effects : list Effect          (* oldest first *)
}.

Definition on_state (f : State -> State) (w : World) : World :=
  {| state := f (state w); localStorage := localStorage w;
     navigator_vibrate := navigator_vibrate w; effects := effects w |}.

Definition emit (e : Effect) (w : World) : World :=
  {| state := state w; localStorage := localStorage w;
     navigator_vibrate := navigator_vibrate w; effects := effects w ++ [e] |}.

Definition setItem (key : string) (v : Stored) (w : World) : World :=
  {| state := state w; localStorage := <[key := v]> (localStorage w);
     navigator_vibrate := navigator_vibrate w; effects := effects w |}.

(** ** Suggestion rule engine *)

#[global] Instance Gesture_eq_dec : EqDecision Gesture.
Proof. solve_decision. Defined.

#[global] Instance Emotion_eq_dec : EqDecision Emotion.
Proof. solve_decision. Defined.

(** [generateSuggestion()]: the first rule that matches decides. *)
Definition generateSuggestion (s : State) : option string :=
  let hasSound := Qgtb (soundLevel s) CONFIG.SOUND_SPIKE_THRESHOLD in
  if bool_decide (headGesture s = nod) then Some "Yes"
  else if bool_decide (headGesture s = shake) then Some "No"
  else if Qgtb (mouthOpenScore s) CONFIG.MOUTH_OPEN_THRESHOLD && hasSound
  then Some "Needs attention"
  else if Qgtb (movementScore s) 0.5 && hasSound
  then Some "Needs a break"
  else if Qgtb (smileScore s) 0.08
  then Some "Feeling happy"
  else if Qgtb (sad (emotionScores s)) 0.15
  then Some "Feeling sad"
  else if Qgtb (surprised (emotionScores s)) 0.2
  then Some "Surprised"
  else None.

(** [updateSignalTone()]. *)
Definition updateSignalTone (s : State) : State :=
  let hasSound := Qgtb (soundLevel s) CONFIG.SOUND_SPIKE_THRESHOLD in
  let tone :=
    if bool_decide (currentEmotion s = happy_e) && Qgtb (happy (emotionScores s)) 0.3
    then tone_positive
    else if bool_decide (currentEmotion s = sad_e) && Qgtb (sad (emotionScores s)) 0.3
    then tone_sad
    else if bool_decide (currentEmotion s = surprised_e)
            && Qgtb (surprised (emotionScores s)) 0.3
    then tone_surprised
    else if Qgtb (smileScore s) CONFIG.SMILE_THRESHOLD
    then tone_positive
    else if (Qgtb (movementScore s) 0.5 && hasSound)
            || (bool_decide (headGesture s = shake) && hasSound)
    then tone_distress
    else tone_neutral in
  set_signalTone tone s.

(** ** Conversation log *)

(** The string JavaScript concatenates for [state.currentPatient]. *)
Definition patient_str (p : option string) : string := default "null" p.

Definition log_key (s : State) : string :=
  (CONFIG.STORAGE_PREFIX ++ "log_" ++ patient_str (currentPatient s))%string.

(** [arr.slice(-n)]: the last [n] elements. *)
Definition slice_last {A} (n : nat) (l : list A) : list A :=
  drop (length l - n) l.

(** [savePatientLog()]. *)
Definition savePatientLog (w : World) : World :=
  setItem (log_key (state w))
          (StoredLog (slice_last CONFIG.MAX_LOG_ITEMS (conversationLog (state w)))) w.

(** [loadPatientLog()]. *)
Definition loadPatientLog (w : World) : World :=
  let saved := match localStorage w !! log_key (state w) with
               | Some (StoredLog l) => l
               | _ => []
               end in
  on_state (set_conversationLog saved) w.

(** The readings [addToLog] takes of the clock: [Date.now()] for the id and
    [new Date().toISOString()] for the timestamp. *)
Record LogClock := { log_now : Z; log_iso : string }.

(** [addToLog(message, type)]. *)
Definition addToLog (c : LogClock) (message type : string) (w : World) : World :=
  let entry := {| entry_id := log_now c; entry_message := message; entry_type := type;
                  entry_timestamp := log_iso c;
                  entry_patient := currentPatient (state w) |} in
  (* unshift *)
  let log := entry :: conversationLog (state w) in
  (* limit log size *)
  let log := if (CONFIG.MAX_LOG_ITEMS <? length log)%nat
             then take CONFIG.MAX_LOG_ITEMS log else log in
  savePatientLog (on_state (set_conversationLog log) w).

(** [clearLog()]; [confirmed] is the answer to the [confirm] dialog. *)
Definition clearLog (confirmed : bool) (w : World) : World :=
  if confirmed then savePatientLog (on_state (set_conversationLog []) w) else w.

(** ** Commit system *)

(** The readings a commit takes of the clock: [Date.now()] on entry of
    [commitMessage], then those of [addToLog]. *)
Record CommitClock := { commit_now : Z; commit_log : LogClock }.

Definition vibrate (ms : Z) (w : World) : World :=
  if navigator_vibrate w then emit (Vibrate ms) w else w.

(** The speech part of [commitMessage]. *)
Definition speakOnCommit (now : Z) (message : string) (w : World) : World :=
  let s := state w in
  if soundEnabled s then
    let timeSinceLastTTS := now - lastTTSTime s in
    let isSameMessage := bool_decide (Some message = lastTTSMessage s) in
    (* state.lastTTSTime || 0 *)
    let timeSinceRepeat := now - (if lastTTSTime s =? 0 then 0 else lastTTSTime s) in
    if (CONFIG.TTS_COOLDOWN <=? timeSinceLastTTS)
       && (negb isSameMessage || (CONFIG.REPEAT_COOLDOWN <=? timeSinceRepeat))
    then on_state (fun s => set_lastTTSMessage (Some message) (set_lastTTSTime now s))
                  (emit (Speak message) w)
    else w
  else w.

(** [commitMessage(message, type)]. *)
Definition commitMessage (c : CommitClock) (message type : string) (w : World) : World :=
  let now := commit_now c in
  (* lock output *)
  let w := on_state (fun s => set_lockEndTime (Some (now + CONFIG.LOCK_TIME))
                                (set_isLocked true s)) w in
  let w := emit Chime w in
  let w := vibrate 50 w in
  let w := emit (ShowOutput message now) w in
  let w := speakOnCommit now message w in
  let w := vibrate 50 w in
  addToLog (commit_log c) message type w.

(** A suggestion used as a condition: [null] and the empty string are falsy. *)
Definition truthy (o : option string) : option string :=
  match o with
  | Some m => if (m =? "")%string then None else Some m
  | None => None
  end.

(** The part of [updateSuggestion] below the lock check: ask the rule
    engine, then start, continue, commit or drop the candidate. *)
Definition evaluateSuggestion (now : Z) (c : CommitClock) (w : World) : World :=
  let suggestion := generateSuggestion (state w) in
  let w := on_state updateSignalTone w in
  match truthy suggestion with
  | Some message =>
    if bool_decide (suggestion <> currentSuggestion (state w)) then
      on_state (fun s => set_suggestionStartTime (Some now)
                           (set_currentSuggestion suggestion s)) w
    else
      let elapsed := now - num_of (suggestionStartTime (state w)) in
      if CONFIG.STABILITY_TIME <=? elapsed then
        let w := commitMessage c message "signal" w in
        on_state (fun s => set_suggestionStartTime None (set_currentSuggestion None s)) w
      else w
  | None =>
    on_state (fun s => set_suggestionStartTime None (set_currentSuggestion None s)) w
  end.

(** [updateSuggestion()]: one evaluation tick at time [now].  While the
    lock holds the function returns at once; a lock that has run out is
    lifted and the tick goes on. *)
Definition updateSuggestion (now : Z) (c : CommitClock) (w : World) : World :=
  if isLocked (state w) && (now <? num_of (lockEndTime (state w))) then w
  else
    let w := if isLocked (state w) then on_state (set_isLocked false) w else w in
    evaluateSuggestion now c w.

(** ** Perception samples *)

(** A blendshape category: [{categoryName, score}]. *)
Record Category := { categoryName : string; score : Q }.

(** An element of [results.faceBlendshapes]; [categories] may be missing. *)
Record Classifications := { categories : option (list Category) }.

(** [landmarks[i]]: [None] is [undefined], past the end of the array or at
    an entry that holds no point. *)
Definition landmark (landmarks : list (option Point)) (i : nat) : option Point :=
  mjoin (landmarks !! i).

(** What [detectForVideo] returns.  Either array may be missing. *)
Record FaceLandmarkerResult := {
  faceLandmarks : option (list (list (option Point)));
  faceBlendshapes : option (list Classifications)
}.

(** [results.faceBlendshapes?.[0]?.categories || []]. *)
Definition blendshapes_of (results : FaceLandmarkerResult) : list Category :=
  match faceBlendshapes results with
  | Some (c :: _) => default [] (categories c)
  | _ => []
  end.

(** [getBlendshape(name)]: the score of the first category of that name,
    [0] when there is none. *)
Definition getBlendshape (blendshapes : list Category) (name : string) : Q :=
  match List.find (fun b => (categoryName b =? name)%string) blendshapes with
  | Some shape => score shape
  | None => 0
  end.

(** ** Gesture tracker *)

Record GestureAcc := {
  xChanges : nat;
  yChanges : nat;
  lastXDir : Z;
  lastYDir : Z
}.

(** [d > t ? 1 : d < -t ? -1 : 0]. *)
Definition direction (d t : Q) : Z :=
  if Qgtb d t then 1 else if Qltb d (- t) then -1 else 0.

(** One iteration of the loop of [detectHeadGesture]. *)
Definition gesture_step (prev cur : NoseSample) (a : GestureAcc) : GestureAcc :=
  let dx := (nx cur - nx prev)%Q in
  let dy := (ny cur - ny prev)%Q in
  let xDir := direction dx CONFIG.SHAKE_THRESHOLD in
  let yDir := direction dy CONFIG.NOD_THRESHOLD in
  let flipped (dir last : Z) :=
    negb (dir =? 0) && negb (dir =? last) && negb (last =? 0) in
  {| xChanges := if flipped xDir (lastXDir a) then S (xChanges a) else xChanges a;
     yChanges := if flipped yDir (lastYDir a) then S (yChanges a) else yChanges a;
     lastXDir := if negb (xDir =? 0) then xDir else lastXDir a;
     lastYDir := if negb (yDir =? 0) then yDir else lastYDir a |}.

(** The loop [for (i = 1; i < points.length; i++)], [prev] being
    [points[i-1]]. *)
Fixpoint gesture_loop (prev : NoseSample) (rest : list NoseSample) (a : GestureAcc)
  : GestureAcc :=
  match rest with
  | [] => a
  | cur :: rest' => gesture_loop cur rest' (gesture_step prev cur a)
  end.

(** [detectHeadGesture()]. *)
Definition detectHeadGesture (s : State) : Gesture :=
  if (length (noseHistory s) <? CONFIG.GESTURE_FRAMES)%nat then still
  else
    let points := slice_last CONFIG.GESTURE_FRAMES (noseHistory s) in
    let a := match points with
             | [] => {| xChanges := 0; yChanges := 0; lastXDir := 0; lastYDir := 0 |}
             | p0 :: rest =>
               gesture_loop p0 rest
                 {| xChanges := 0; yChanges := 0; lastXDir := 0; lastYDir := 0 |}
             end in
    if (2 <=? yChanges a)%nat then nod
    else if (2 <=? xChanges a)%nat then shake
    else still.

(** ** Signal extractor *)

(** How a call ends: normally, or by a [TypeError] thrown on reading a
    property of [undefined]. *)
Inductive Completion := Normal | Thrown.

(** The readings one processed frame takes of the clock, in order: the time
    stored with the nose sample, the time the cutoff is computed from, the
    time [updateSuggestion] reads, and those of a commit. *)
Record FrameClock := {
  push_now : Z;
  cutoff_now : Z;
  suggest_now : Z;
  frame_commit : CommitClock
}.

(** The nose-history part shared by both extraction paths: push the sample,
    keep the last 500ms, and with enough samples classify the gesture and
    score the movement. *)
Definition trackNose (fc : FrameClock) (noseTip : Point) (s : State) : State :=
  let pushed := (noseHistory s
                 ++ [{| nx := px noseTip; ny := py noseTip; ntime := push_now fc |}])%list in
  let cutoff := cutoff_now fc - 500 in
  let s := set_noseHistory (List.filter (fun p => cutoff <? ntime p) pushed) s in
  if (CONFIG.GESTURE_FRAMES <=? length (noseHistory s))%nat then
    let s := set_headGesture (detectHeadGesture s) s in
    match noseHistory s, last (noseHistory s) with
    | first :: _, Some lst =>
      let dx := Qabs (nx lst - nx first)%Q in
      let dy := Qabs (ny lst - ny first)%Q in
      set_movementScore (Qmin 1 ((dx + dy) * 5)) s
    | _, _ => s
    end
  else s.

(** The mouth measurements both paths take from the four mouth landmarks. *)
Definition mouthWidth (leftCorner rightCorner : Point) : Q :=
  Qabs (px rightCorner - px leftCorner).
Definition mouthHeight (upperLip lowerLip : Point) : Q :=
  Qabs (py lowerLip - py upperLip).
Definition mouthRatio (leftCorner rightCorner upperLip lowerLip : Point) : Q :=
  mouthWidth leftCorner rightCorner / (mouthHeight upperLip lowerLip + 0.001).
Definition avgCornerLift (leftCorner rightCorner upperLip lowerLip : Point) : Q :=
  let mouthCenterY := ((py upperLip + py lowerLip) / 2)%Q in
  ((mouthCenterY - py leftCorner) + (mouthCenterY - py rightCorner)) / 2.

(** [detectSmileFromLandmarks(landmarks)]: the fallback used when there are
    no blendshapes. *)
Definition detectSmileFromLandmarks (fc : FrameClock) (landmarks : list (option Point))
  (w : World) : World * Completion :=
  match landmark landmarks 291, landmark landmarks 61,
        landmark landmarks 14, landmark landmarks 13 with
  | Some rightCorner, Some leftCorner, Some lowerLip, Some upperLip =>
    let ratio := mouthRatio leftCorner rightCorner upperLip lowerLip in
    let lift := avgCornerLift leftCorner rightCorner upperLip lowerLip in
    let w := on_state (fun s =>
      let s := set_smileScore (clamp01 ((ratio - 2) / 3 + lift * 10)) s in
      let s := set_mouthOpenScore (clamp01 (mouthHeight upperLip lowerLip * 5)) s in
      let s := set_emotionScores (set_happy (smileScore s) (emotionScores s)) s in
      let s := set_emotionScores (set_sad (Qmax 0 (- lift * 10)) (emotionScores s)) s in
      let s := set_emotionScores
                 (set_surprised (mouthOpenScore s * 0.5) (emotionScores s)) s in
      let s := set_emotionScores
                 (set_neutral (Qmax 0 (1 - smileScore s - sad (emotionScores s)))
                              (emotionScores s)) s in
      set_currentEmotion
        (if Qgtb (smileScore s) 0.2 then happy_e
         else if Qgtb (sad (emotionScores s)) 0.2 then sad_e
         else neutral_e) s) w in
    match landmark landmarks 4 with
    | Some noseTip =>
      let w := on_state (trackNose fc noseTip) w in
      (updateSuggestion (suggest_now fc) (frame_commit fc) w, Normal)
    | None => (w, Thrown)
    end
  | _, _, _, _ => (w, Thrown)
  end.

(** The state written when no face is found. *)
Definition no_face (s : State) : State :=
  let s := set_smileScore 0 s in
  let s := set_mouthOpenScore 0 s in
  let s := set_movementScore 0 s in
  let s := set_headGesture still s in
  let s := set_currentEmotion neutral_e s in
  set_emotionScores {| happy := 0; sad := 0; surprised := 0; neutral := 1 |} s.

(** [processResults(results)].  The flags [_loggedFirstResult] and
    [_loggedBlendshapes] guard console output only and are left out, with
    the output itself. *)
Definition processResults (fc : FrameClock) (results : option FaceLandmarkerResult)
  (w : World) : World * Completion :=
  match results with
  | None => (on_state no_face w, Normal)
  | Some r =>
    match faceLandmarks r with
    | None | Some [] => (on_state no_face w, Normal)
    | Some (landmarks :: _) =>
      let blendshapes := blendshapes_of r in
      if (length blendshapes =? 0)%nat then detectSmileFromLandmarks fc landmarks w
      else
        let blendshapeSmile := ((getBlendshape blendshapes "mouthSmileLeft"
                                 + getBlendshape blendshapes "mouthSmileRight") / 2)%Q in
        match landmark landmarks 291, landmark landmarks 61,
              landmark landmarks 14, landmark landmarks 13 with
        | Some rightCorner, Some leftCorner, Some lowerLip, Some upperLip =>
          let ratio := mouthRatio leftCorner rightCorner upperLip lowerLip in
          let lift := avgCornerLift leftCorner rightCorner upperLip lowerLip in
          let landmarkSmile := clamp01 ((ratio - 2.5) / 2 + lift * 15) in
          let frownScore := ((getBlendshape blendshapes "mouthFrownLeft"
                              + getBlendshape blendshapes "mouthFrownRight") / 2)%Q in
          let browDown := ((getBlendshape blendshapes "browDownLeft"
                            + getBlendshape blendshapes "browDownRight") / 2)%Q in
          let jawOpen := getBlendshape blendshapes "jawOpen" in
          let w := on_state (fun s =>
            let s := set_smileScore (Qmax blendshapeSmile landmarkSmile) s in
            let s := set_browScore
                       ((getBlendshape blendshapes "browInnerUp"
                         + getBlendshape blendshapes "browOuterUpLeft"
                         + getBlendshape blendshapes "browOuterUpRight") / 3) s in
            let s := set_eyeOpenScore
                       ((getBlendshape blendshapes "eyeWideLeft"
                         + getBlendshape blendshapes "eyeWideRight") / 2) s in
            let s := set_mouthOpenScore jawOpen s in
            let s := set_emotionScores
                       (set_happy (Qmin 1 (smileScore s * 2)) (emotionScores s)) s in
            let s := set_emotionScores
                       (set_sad (Qmin 1 (frownScore * 1.5 + browDown * 0.5))
                                (emotionScores s)) s in
            let s := set_emotionScores
                       (set_surprised
                          (Qmin 1 (browScore s * 0.8 + eyeOpenScore s * 0.8 + jawOpen * 0.4))
                          (emotionScores s)) s in
            let s := set_emotionScores
                       (set_neutral
                          (Qmax 0 (1 - happy (emotionScores s) - sad (emotionScores s)
                                   - surprised (emotionScores s)))
                          (emotionScores s)) s in
            set_currentEmotion
              (if Qgtb (smileScore s) 0.1 then happy_e
               else if Qgtb (sad (emotionScores s)) 0.15 then sad_e
               else if Qgtb (surprised (emotionScores s)) 0.2 then surprised_e
               else neutral_e) s) w in
          match landmark landmarks 4 with
          | Some noseTip =>
            let w := on_state (trackNose fc noseTip) w in
            (updateSuggestion (suggest_now fc) (frame_commit fc) w, Normal)
          | None => (w, Thrown)
          end
        | _, _, _, _ => (w, Thrown)
        end
    end
  end.

(** The video element, as [detectFace] reads it. *)
Record Video := { readyState : Z; currentTime : Q }.

(** What [detectForVideo] does on a frame: return a result (possibly
    [null]) or throw. *)
Inductive Detection :=
| Detected (results : option FaceLandmarkerResult)
| DetectionFailed.

(** [try { body } catch (error) { console.error(...) }]. *)
Definition try_catch (body : World -> World * Completion) (w : World)
  : World * Completion :=
  (fst (body w), Normal).

(** [detectFace()]: one animation frame.  The call schedules itself again;
    the next frame is the next call. *)
Definition detectFace (video : Video) (d : Detection) (fc : FrameClock) (w : World)
  : World * Completion :=
  if negb (cameraRunning (state w)) then (w, Normal)
  else if negb (faceLandmarker (state w)) then (w, Normal)
  else if (2 <=? readyState video)
          && negb (Qeq_bool (currentTime video) (lastVideoTime (state w))) then
    let w := on_state (set_lastVideoTime (currentTime video)) w in
    try_catch (fun w => match d with
                        | Detected results => processResults fc results w
                        | DetectionFailed => (w, Thrown)
                        end) w
  else (w, Normal).

(** ** Cancellation *)

(** [stopCamera()]. *)
Definition stopCamera (s : State) : State :=
  let s := set_cameraRunning false s in
  let s := set_smileScore 0 s in
  let s := set_mouthOpenScore 0 s in
  let s := set_movementScore 0 s in
  set_headGesture still s.

(** [stopMic()]. *)
Definition stopMic (s : State) : State :=
  let s := set_micRunning false s in
  set_soundLevel 0 s.

(** ** Concrete samples *)

(** A full face mesh of 478 landmarks with the five landmarks the code
    reads at the given places and every other one at the origin. *)
Definition mesh (leftCorner rightCorner upperLip lowerLip noseTip : Point)
  : list (option Point) :=
  List.map (fun i : nat =>
              Some (if (i =? 61)%nat then leftCorner
                    else if (i =? 291)%nat then rightCorner
                    else if (i =? 13)%nat then upperLip
                    else if (i =? 14)%nat then lowerLip
                    else if (i =? 4)%nat then noseTip
                    else {| px := 0; py := 0 |}))
           (seq 0 478).

(** The world in which the script starts. *)
Definition initial_world : World :=
  {| state := initial_state; localStorage := ∅;
     navigator_vibrate := true; effects := [] |}.

(** A clock on which every reading of one frame is [t]. *)
Definition clock_at (t : Z) : FrameClock :=
  {| push_now := t; cutoff_now := t; suggest_now := t;
     frame_commit := {| commit_now := t;
                        commit_log := {| log_now := t; log_iso := "" |} |} |}.

(** ** Vocabulary of the properties *)

(** The first rule of an ordered list whose condition holds. *)
Fixpoint first_match {A} (rules : list (bool * A)) : option A :=
  match rules with
  | [] => None
  | (cond, a) :: rest => if cond then Some a else first_match rest
  end.

(** The rule engine as the design document words it: an ordered priority
    list over the seven inputs, [soundSpike] being a sound level above 0.4. *)
Definition RuleEngine (g : Gesture) (mouthOpen movement smile sadness surprise sound : Q)
  : option string :=
  let soundSpike := Qgtb sound 0.4 in
  first_match
    [ (bool_decide (g = nod), "Yes");
      (bool_decide (g = shake), "No");
      (Qgtb mouthOpen 0.15 && soundSpike, "Needs attention");
      (Qgtb movement 0.5 && soundSpike, "Needs a break");
      (Qgtb smile 0.08, "Feeling happy");
      (Qgtb sadness 0.15, "Feeling sad");
      (Qgtb surprise 0.2, "Surprised") ].

(** Commits are counted by their chime: [playChime] is called by
    [commitMessage], once per call, and by nothing else. *)
Definition is_chime (e : Effect) : bool :=
  match e with Chime => true | _ => false end.
Definition commits_fired (w : World) : nat :=
  length (List.filter is_chime (effects w)).

(** The state a commit at [now] leaves: locked, until [now + LOCK_TIME]. *)
Definition locked_at (now : Z) (s : State) : State :=
  set_lockEndTime (Some (now + CONFIG.LOCK_TIME)) (set_isLocked true s).

(** The state [addToLog] leaves. *)
Definition logged (c : LogClock) (message type : string) (s : State) : State :=
  set_conversationLog
    (take CONFIG.MAX_LOG_ITEMS
       ({| entry_id := log_now c; entry_message := message; entry_type := type;
           entry_timestamp := log_iso c;
           entry_patient := currentPatient s |} :: conversationLog s)) s.

(** The texts handed to [speak], oldest first. *)
Definition spoken (w : World) : list string :=
  omap (fun e => match e with Speak m => Some m | _ => None end) (effects w).

(** The speech policy: the cooldown has passed, and the message is new or
    the repeat cooldown has passed too. *)
Definition speech_due (now : Z) (message : string) (s : State) : Prop :=
  CONFIG.TTS_COOLDOWN <= now - lastTTSTime s
  /\ (Some message <> lastTTSMessage s \/ CONFIG.REPEAT_COOLDOWN <= now - lastTTSTime s).

(** What the camera and microphone loops write between two evaluation
    ticks: the detection and emotion fields and the sound level. *)
Record Signals := {
  sg_soundLevel : Q;
  sg_smileScore : Q;
  sg_mouthOpenScore : Q;
  sg_movementScore : Q;
  sg_headGesture : Gesture;
  sg_noseHistory : list NoseSample;
  sg_currentEmotion : Emotion;
  sg_emotionScores : EmotionScores;
  sg_browScore : Q;
  sg_eyeOpenScore : Q
}.

Definition signals_of (s : State) : Signals :=
  {| sg_soundLevel := soundLevel s; sg_smileScore := smileScore s;
     sg_mouthOpenScore := mouthOpenScore s; sg_movementScore := movementScore s;
     sg_headGesture := headGesture s; sg_noseHistory := noseHistory s;
     sg_currentEmotion := currentEmotion s; sg_emotionScores := emotionScores s;
     sg_browScore := browScore s; sg_eyeOpenScore := eyeOpenScore s |}.

Definition feed (g : Signals) (s : State) : State :=
  let s := set_soundLevel (sg_soundLevel g) s in
  let s := set_smileScore (sg_smileScore g) s in
  let s := set_mouthOpenScore (sg_mouthOpenScore g) s in
  let s := set_movementScore (sg_movementScore g) s in
  let s := set_headGesture (sg_headGesture g) s in
  let s := set_noseHistory (sg_noseHistory g) s in
  let s := set_currentEmotion (sg_currentEmotion g) s in
  let s := set_emotionScores (sg_emotionScores g) s in
  let s := set_browScore (sg_browScore g) s in
  set_eyeOpenScore (sg_eyeOpenScore g) s.

(** What the rule engine answers on given signals. *)
Definition suggestion_of (g : Signals) : option string :=
  generateSuggestion (feed g initial_state).

(** One evaluation tick: the signals of the frame are in place and
    [updateSuggestion] runs. *)
Record Tick := {
  tick_signals : Signals;
  tick_now : Z;
  tick_commit : CommitClock
}.

Definition tick (tk : Tick) (w : World) : World :=
  updateSuggestion (tick_now tk) (tick_commit tk) (on_state (feed (tick_signals tk)) w).

Definition run (ticks : list Tick) (w : World) : World :=
  fold_left (fun w tk => tick tk w) ticks w.

(** The machine is stabilising on [sug] since [since]. *)
Definition stabilizing (sug : string) (since : Z) (w : World) : Prop :=
  isLocked (state w) = false
  /\ currentSuggestion (state w) = Some sug
  /\ suggestionStartTime (state w) = Some since.

(** What the commit state machine keeps and has done: candidate, start of
    the candidate, lock, end of the lock, commits fired, log. *)
Definition commit_view (w : World)
  : option string * option Z * bool * option Z * nat * list LogEntry :=
  (currentSuggestion (state w), suggestionStartTime (state w), isLocked (state w),
   lockEndTime (state w), commits_fired w, conversationLog (state w)).

(** Insertions into the log. *)
Record Insertion := { ins_clock : LogClock; ins_message : string; ins_type : string }.

Definition insert_all (ins : list Insertion) (w : World) : World :=
  fold_left (fun w i => addToLog (ins_clock i) (ins_message i) (ins_type i) w) ins w.

(** The entry [addToLog] builds for an insertion. *)
Definition entry_of (patient : option string) (i : Insertion) : LogEntry :=
  {| entry_id := log_now (ins_clock i); entry_message := ins_message i;
     entry_type := ins_type i; entry_timestamp := log_iso (ins_clock i);
     entry_patient := patient |}.

(** The copy of the current patient's log in [localStorage]. *)
Definition persisted_log (w : World) : option Stored :=
  localStorage w !! log_key (state w).

(** A score within [[0,1]]. *)
Definition in01 (q : Q) : Prop := (0 <= q /\ q <= 1)%Q.

(** The scalar signal fields. *)
Definition scalar_fields (s : State) : list Q :=
  [ smileScore s; mouthOpenScore s; movementScore s;
    happy (emotionScores s); sad (emotionScores s);
    surprised (emotionScores s); neutral (emotionScores s) ].

(** The zero signal frame: all scores zero, gesture still, emotion fully
    neutral. *)
Definition zero_frame (s : State) : Prop :=
  (smileScore s == 0)%Q /\ (mouthOpenScore s == 0)%Q /\ (movementScore s == 0)%Q
  /\ headGesture s = still /\ currentEmotion s = neutral_e
  /\ (happy (emotionScores s) == 0)%Q /\ (sad (emotionScores s) == 0)%Q
  /\ (surprised (emotionScores s) == 0)%Q /\ (neutral (emotionScores s) == 1)%Q.

(** A landmark sequence that lacks one of the five landmarks the code
    reads. *)
Definition malformed (landmarks : list (option Point)) : Prop :=
  exists i : nat, i ∈ [61; 291; 13; 14; 4]%nat /\ landmark landmarks i = None.

(** The four landmarks the mouth is measured from: the corners and the
    lips. *)
Definition mouth_landmarks : list nat := [61; 291; 13; 14]%nat.

(** The sample with the nose tip of its first face put at [noseTip]. *)
Definition with_nose (noseTip : Point) (r : FaceLandmarkerResult) : FaceLandmarkerResult :=
  {| faceLandmarks := match faceLandmarks r with
                      | Some (landmarks :: others) =>
                        Some (<[4%nat := Some noseTip]> landmarks :: others)
                      | other => other
                      end;
     faceBlendshapes := faceBlendshapes r |}.

Definition pt (x y : Q) : Point := {| px := x; py := y |}.

(** The world once the landmarker is created and the camera started. *)
Definition camera_on : World :=
  on_state (fun s => set_faceLandmarker true (set_cameraRunning true s)) initial_world.

(** A decoded video frame at media time [t]. *)
Definition video_at (t : Q) : Video := {| readyState := 4; currentTime := t |}.

(** A face at rest: lips a tenth of the frame apart, mouth corners level
    with the mouth centre. *)
Definition resting_mesh : list (option Point) :=
  mesh (pt 0.4 0.5) (pt 0.6 0.5) (pt 0.5 0.45) (pt 0.5 0.55) (pt 0.5 0.4).

(** A sample with blendshapes: both smile intensities at one half. *)
Definition smiling : FaceLandmarkerResult :=
  {| faceLandmarks := Some [resting_mesh];
     faceBlendshapes :=
       Some [{| categories :=
                  Some [{| categoryName := "mouthSmileLeft"; score := 0.5 |};
                        {| categoryName := "mouthSmileRight"; score := 0.5 |}] |}] |}.

(** A sample without blendshapes whose mouth corners lie a quarter of the
    frame below the mouth centre. *)
Definition drooping : FaceLandmarkerResult :=
  {| faceLandmarks :=
       Some [mesh (pt 0.4 0.75) (pt 0.6 0.75) (pt 0.5 0.45) (pt 0.5 0.55) (pt 0.5 0.4)];
     faceBlendshapes := None |}.

(** A sample without blendshapes whose mouth is three times as wide as
    [mouthHeight + 0.001], corners level with the mouth centre. *)
Definition wide_mouth : FaceLandmarkerResult :=
  {| faceLandmarks :=
       Some [mesh (pt 0.35 0.5495) (pt 0.65 0.5495) (pt 0.5 0.5) (pt 0.5 0.599)
                  (pt 0.5 0.4)];
     faceBlendshapes := None |}.

(** A sample with the blendshapes of [smiling] whose nose tip alone is
    undefined. *)
Definition noseless : FaceLandmarkerResult :=
  {| faceLandmarks := Some [<[4%nat := None]> resting_mesh];
     faceBlendshapes := faceBlendshapes smiling |}.

(** A sample whose landmark sequence stops after five points. *)
Definition truncated : FaceLandmarkerResult :=
  {| faceLandmarks := Some [take 5 resting_mesh];
     faceBlendshapes := faceBlendshapes smiling |}.

(** Signals of a steady smile in silence. *)
Definition smile_signals : Signals :=
  {| sg_soundLevel := 0; sg_smileScore := 0.5; sg_mouthOpenScore := 0;
     sg_movementScore := 0; sg_headGesture := still; sg_noseHistory := [];
     sg_currentEmotion := happy_e;
     sg_emotionScores := {| happy := 1; sad := 0; surprised := 0; neutral := 0 |};
     sg_browScore := 0; sg_eyeOpenScore := 0 |}.

(** A tick on signals [g] all of whose clock readings are [t]. *)
Definition tick_at (g : Signals) (t : Z) : Tick :=
  {| tick_signals := g; tick_now := t; tick_commit := frame_commit (clock_at t) |}.

(** Fifty-one insertions: the first is evicted. *)
Definition fifty_one : list Insertion :=
  List.map (fun n : nat => {| ins_clock := {| log_now := Z.of_nat n; log_iso := "" |};
                              ins_message := "Yes"; ins_type := "signal" |})
           (seq 1 51).

(** ** Further vocabulary: gestures, frames, events *)

(** Along an axis with sense [sense] (1 or -1), no step of the window
    goes against the sense by more than the threshold. *)
Fixpoint one_way (sx sy : Z) (prev : NoseSample) (rest : list NoseSample) : Prop :=
  match rest with
  | [] => True
  | cur :: rest' =>
    (- CONFIG.SHAKE_THRESHOLD <= inject_Z sx * (nx cur - nx prev))%Q
    /\ (- CONFIG.NOD_THRESHOLD <= inject_Z sy * (ny cur - ny prev))%Q
    /\ one_way sx sy cur rest'
  end.

(** Over the window the vertical steps alternate, each beyond the nod
    threshold; [up] tells whether the next step goes down the frame
    (increasing [y]). *)
Fixpoint zigzag (up : bool) (prev : NoseSample) (rest : list NoseSample) : Prop :=
  match rest with
  | [] => True
  | cur :: rest' =>
    (if up then (CONFIG.NOD_THRESHOLD < ny cur - ny prev)%Q
     else (ny cur - ny prev < - CONFIG.NOD_THRESHOLD)%Q)
    /\ zigzag (negb up) cur rest'
  end.

(** Ten samples 40ms apart whose height moves by [step] each time. *)
Definition sliding (step : Q) : list NoseSample :=
  List.map (fun i : nat => {| nx := 0.5; ny := 0.1 + inject_Z (Z.of_nat i) * step;
                              ntime := 100000 + 40 * Z.of_nat i |})
           (seq 0 10).

(** Ten samples 40ms apart whose height alternates between 0.4 and
    [0.4 + swing]. *)
Definition nodding (swing : Q) : list NoseSample :=
  List.map (fun i : nat => {| nx := 0.5;
                              ny := if Nat.even i then 0.4 else 0.4 + swing;
                              ntime := 100000 + 40 * Z.of_nat i |})
           (seq 0 10).

(** Ticks in the order of their clock readings, none before [from]. *)
Fixpoint chronological (from : Z) (ticks : list Tick) : Prop :=
  match ticks with
  | [] => True
  | tk :: rest => from <= tick_now tk /\ chronological (tick_now tk) rest
  end.

(** The world left by the automatic commit of a smile at 100800. *)
Definition after_smile_commit : World :=
  run [tick_at smile_signals 100000; tick_at smile_signals 100800] camera_on.

(** A perception result without a face: [null], no [faceLandmarks], or an
    empty [faceLandmarks]. *)
Definition faceless (results : option FaceLandmarkerResult) : Prop :=
  match results with
  | None => True
  | Some r => faceLandmarks r = None \/ faceLandmarks r = Some []
  end.

(** Frames fed to [processResults] one after the other. *)
Definition process_all (frames : list (FrameClock * option FaceLandmarkerResult))
  (w : World) : World :=
  fold_left (fun w fr => fst (processResults (fst fr) (snd fr) w)) frames w.

(** [monitorMic()]: one poll of the analyser.  [dataArray] is the
    [Uint8Array] the analyser fills; it has [frequencyBinCount] elements,
    128 for the [fftSize] of 256 the code sets.  On an empty array JavaScript
    would compute [NaN]; the rational quotient is 0 there. *)
Definition monitorMic (dataArray : list Byte.byte) (s : State) : State :=
  if negb (micRunning s) then s
  else
    let total := fold_left (fun a b => a + Z.of_N (Byte.to_N b)) dataArray 0 in
    let average := (inject_Z total / inject_Z (Z.of_nat (length dataArray)))%Q in
    set_soundLevel (average / 255) s.

(** [startSession(patientName)]. *)
Definition startSession (patientName : string) (w : World) : World :=
  let w := on_state (set_currentPatient (Some patientName)) w in
  let w := setItem (CONFIG.STORAGE_PREFIX ++ "currentPatient")%string
                   (StoredText patientName) w in
  loadPatientLog w.

(** What can happen to the world, one event at a time: a camera frame, a
    mood or need button, the sound switch, a microphone poll, the landmarker
    becoming ready, the camera and microphone switches, a session start, a
    log clearing. *)
Inductive event :=
| ev_frame (video : Video) (d : Detection) (fc : FrameClock)
| ev_button (c : CommitClock) (message type : string)
| ev_sound (enabled : bool)
| ev_mic_poll (dataArray : list Byte.byte)
| ev_landmarker_ready
| ev_camera_started
| ev_camera_stopped
| ev_mic_started
| ev_mic_stopped
| ev_session (patientName : string)
| ev_clear (confirmed : bool).

Definition handle (e : event) (w : World) : World :=
  match e with
  | ev_frame video d fc => fst (detectFace video d fc w)
  | ev_button c message type => commitMessage c message type w
  | ev_sound enabled => on_state (set_soundEnabled enabled) w
  | ev_mic_poll dataArray => on_state (monitorMic dataArray) w
  | ev_landmarker_ready => on_state (set_faceLandmarker true) w
  | ev_camera_started => on_state (set_cameraRunning true) w
  | ev_camera_stopped => on_state stopCamera w
  | ev_mic_started => on_state (set_micRunning true) w
  | ev_mic_stopped => on_state stopMic w
  | ev_session patientName => startSession patientName w
  | ev_clear confirmed => clearLog confirmed w
  end.

Definition handle_all (events : list event) (w : World) : World :=
  fold_left (fun w e => handle e w) events w.

(** What holds of the commit system and the log in every state the events
    can reach: candidate and stamp are null together, a lock has an end, the
    log is within its bound. *)
Definition well_formed (s : State) : Prop :=
  (currentSuggestion s = None <-> suggestionStartTime s = None)
  /\ (isLocked s = true -> lockEndTime s <> None)
  /\ (length (conversationLog s) <= CONFIG.MAX_LOG_ITEMS)%nat.

(** Every log kept in [localStorage] is within the bound. *)
Definition storage_bounded (w : World) : Prop :=
  forall key entries, localStorage w !! key = Some (StoredLog entries) ->
                      (length entries <= CONFIG.MAX_LOG_ITEMS)%nat.

(** The world one tick into a steady smile: stabilising since 100000. *)
Definition smile_started : World := tick (tick_at smile_signals 100000) camera_on.

(** Two frames without a face: a [null] result and an empty one. *)
Definition two_blank_frames : list (FrameClock * option FaceLandmarkerResult) :=
  [(clock_at 100400, None);
   (clock_at 100700, Some {| faceLandmarks := Some []; faceBlendshapes := None |})].

(** * Properties *)


(** ** Numbers *)

Lemma Qgtb_spec (a b : Q) : Qgtb a b = true <-> (b < a)%Q.
Proof.
  unfold Qgtb. rewrite negb_true_iff, <- not_true_iff_false, Qle_bool_iff.
  split; [apply Qnot_le_lt | apply Qlt_not_le].
Qed.

(** ** Rule engine *)

Lemma generateSuggestion_feed (g : Signals) (s : State) :
  generateSuggestion (feed g s) = suggestion_of g.
Proof. reflexivity. Qed.

Lemma generateSuggestion_truthy (s : State) (m : string) :
  generateSuggestion s = Some m -> truthy (Some m) = Some m.
Proof.
  unfold generateSuggestion.
  repeat case_match; intros [= <-]; reflexivity.
Qed.

(** C3.  [generateSuggestion] is the ordered first-match list of the seven
    rules over the gesture, the three scores, the two emotion scores and the
    sound level, and reads nothing else; a nod answers "Yes" whatever the
    other fields hold. *)
Theorem generateSuggestion_priority (s : State) :
  generateSuggestion s
  = RuleEngine (headGesture s) (mouthOpenScore s) (movementScore s) (smileScore s)
               (sad (emotionScores s)) (surprised (emotionScores s)) (soundLevel s)
  /\ (headGesture s = nod -> generateSuggestion s = Some "Yes").
Proof.
  split.
  - reflexivity.
  - intros Hnod. unfold generateSuggestion. rewrite Hnod. reflexivity.
Qed.

Lemma generateSuggestion_priority_witness :
  let s := set_soundLevel 1 (set_mouthOpenScore 1 (set_headGesture nod initial_state)) in
  headGesture s = nod /\ generateSuggestion s = Some "Yes".
Proof.
  cbn zeta. split; [reflexivity|].
  apply (generateSuggestion_priority
           (set_soundLevel 1 (set_mouthOpenScore 1 (set_headGesture nod initial_state)))).
  reflexivity.
Defined.


(** ** Commit *)

Lemma commits_fired_emit (e : Effect) (w : World) :
  commits_fired (emit e w) = (commits_fired w + (if is_chime e then 1 else 0))%nat.
Proof.
  unfold commits_fired, emit; cbn.
  rewrite List.filter_app, length_app. cbn. destruct (is_chime e); reflexivity.
Qed.

Lemma commits_fired_on_state (f : State -> State) (w : World) :
  commits_fired (on_state f w) = commits_fired w.
Proof. reflexivity. Qed.

Lemma commits_fired_setItem (k : string) (v : Stored) (w : World) :
  commits_fired (setItem k v w) = commits_fired w.
Proof. reflexivity. Qed.

Lemma state_vibrate (ms : Z) (w : World) : state (vibrate ms w) = state w.
Proof. unfold vibrate. destruct (navigator_vibrate w); reflexivity. Qed.

Lemma commits_fired_vibrate (ms : Z) (w : World) :
  commits_fired (vibrate ms w) = commits_fired w.
Proof.
  unfold vibrate. destruct (navigator_vibrate w); [|reflexivity].
  rewrite commits_fired_emit. cbn. lia.
Qed.

Lemma spoken_emit (e : Effect) (w : World) :
  spoken (emit e w)
  = (spoken w ++ match e with Speak m => [m] | _ => [] end)%list.
Proof.
  unfold spoken, emit; cbn. rewrite omap_app. destruct e; reflexivity.
Qed.

Lemma spoken_vibrate (ms : Z) (w : World) : spoken (vibrate ms w) = spoken w.
Proof.
  unfold vibrate. destruct (navigator_vibrate w); [|reflexivity].
  rewrite spoken_emit. apply app_nil_r.
Qed.

(** [addToLog] touches the log and its stored copy only. *)
Lemma state_addToLog (c : LogClock) (message type : string) (w : World) :
  state (addToLog c message type w)
  = set_conversationLog
      (take CONFIG.MAX_LOG_ITEMS
         ({| entry_id := log_now c; entry_message := message; entry_type := type;
             entry_timestamp := log_iso c;
             entry_patient := currentPatient (state w) |} :: conversationLog (state w)))
      (state w).
Proof.
  unfold addToLog, savePatientLog. cbn -[take CONFIG.MAX_LOG_ITEMS Nat.ltb].
  case_match; [reflexivity|].
  rewrite firstn_all2; [reflexivity|].
  apply Nat.ltb_ge in H. exact H.
Qed.

Lemma effects_addToLog (c : LogClock) (message type : string) (w : World) :
  effects (addToLog c message type w) = effects w.
Proof. reflexivity. Qed.

(** The speech step decides by [speech_due]. *)
Lemma speakOnCommit_due (now : Z) (message : string) (w : World) :
  soundEnabled (state w) = true ->
  speech_due now message (state w) ->
  speakOnCommit now message w
  = on_state (fun s => set_lastTTSMessage (Some message) (set_lastTTSTime now s))
             (emit (Speak message) w).
Proof.
  intros Hsound [Hcool Hrep]. unfold speakOnCommit. rewrite Hsound.
  replace (if lastTTSTime (state w) =? 0 then 0 else lastTTSTime (state w))
    with (lastTTSTime (state w)) by (case_match; lia).
  rewrite (proj2 (Z.leb_le _ _) Hcool). cbn [andb].
  destruct Hrep as [Hnew | Hlong].
  - rewrite bool_decide_eq_false_2 by exact Hnew. reflexivity.
  - rewrite (proj2 (Z.leb_le _ _) Hlong), orb_true_r. reflexivity.
Qed.

Lemma speakOnCommit_not_due (now : Z) (message : string) (w : World) :
  ~ speech_due now message (state w) ->
  speakOnCommit now message w = w.
Proof.
  intros Hnot. unfold speakOnCommit. destruct (soundEnabled (state w)); [|reflexivity].
  replace (if lastTTSTime (state w) =? 0 then 0 else lastTTSTime (state w))
    with (lastTTSTime (state w)) by (case_match; lia).
  case_match eqn:Hc; [|reflexivity].
  exfalso. apply Hnot. apply andb_true_iff in Hc as [Hcool Hrep].
  apply Z.leb_le in Hcool. split; [exact Hcool|].
  apply orb_true_iff in Hrep as [Hnew | Hlong].
  - left. apply negb_true_iff, bool_decide_eq_false in Hnew. exact Hnew.
  - right. apply Z.leb_le in Hlong. exact Hlong.
Qed.

Lemma speakOnCommit_muted (now : Z) (message : string) (w : World) :
  soundEnabled (state w) = false -> speakOnCommit now message w = w.
Proof. intros H. unfold speakOnCommit. rewrite H. reflexivity. Qed.

Lemma speech_due_dec (now : Z) (message : string) (s : State) :
  {speech_due now message s} + {~ speech_due now message s}.
Proof.
  unfold speech_due.
  destruct (Z_le_dec CONFIG.TTS_COOLDOWN (now - lastTTSTime s)) as [Hc|Hc];
    [|right; tauto].
  destruct (decide (Some message = lastTTSMessage s)) as [Hm|Hm]; [|left; tauto].
  destruct (Z_le_dec CONFIG.REPEAT_COOLDOWN (now - lastTTSTime s)) as [Hr|Hr];
    [left; tauto | right; tauto].
Qed.

Lemma commitMessage_speaking (c : CommitClock) (message type : string) (w : World) :
  soundEnabled (state w) = true ->
  speech_due (commit_now c) message (state w) ->
  let w' := commitMessage c message type w in
  state w'
  = logged (commit_log c) message type
      (set_lastTTSMessage (Some message)
         (set_lastTTSTime (commit_now c) (locked_at (commit_now c) (state w))))
  /\ spoken w' = (spoken w ++ [message])%list.
Proof.
  intros Hsound Hdue w'. subst w'. unfold commitMessage.
  set (w1 := vibrate 50 (emit Chime (on_state _ w))).
  set (w2 := emit (ShowOutput message (commit_now c)) w1).
  assert (Hw2 : state w2 = locked_at (commit_now c) (state w)).
  { subst w2 w1. cbn. rewrite state_vibrate. reflexivity. }
  assert (Hs2 : spoken w2 = spoken w).
  { subst w2 w1. rewrite spoken_emit, spoken_vibrate, spoken_emit.
    cbn. rewrite !app_nil_r. reflexivity. }
  rewrite speakOnCommit_due; [| rewrite Hw2; exact Hsound | rewrite Hw2; exact Hdue].
  split.
  - rewrite state_addToLog, state_vibrate. cbn [state on_state emit]. rewrite Hw2.
    reflexivity.
  - unfold spoken. rewrite effects_addToLog. fold (spoken (vibrate 50
      (on_state (fun s => set_lastTTSMessage (Some message) (set_lastTTSTime (commit_now c) s))
                (emit (Speak message) w2)))).
    rewrite spoken_vibrate. unfold spoken at 1. cbn [effects on_state].
    fold (spoken (emit (Speak message) w2)). rewrite spoken_emit, Hs2. reflexivity.
Qed.

Lemma commitMessage_silent (c : CommitClock) (message type : string) (w : World) :
  soundEnabled (state w) = false \/ ~ speech_due (commit_now c) message (state w) ->
  let w' := commitMessage c message type w in
  state w' = logged (commit_log c) message type (locked_at (commit_now c) (state w))
  /\ spoken w' = spoken w.
Proof.
  intros Hsilent w'. subst w'. unfold commitMessage.
  set (w1 := vibrate 50 (emit Chime (on_state _ w))).
  set (w2 := emit (ShowOutput message (commit_now c)) w1).
  assert (Hw2 : state w2 = locked_at (commit_now c) (state w)).
  { subst w2 w1. cbn. rewrite state_vibrate. reflexivity. }
  assert (Hs2 : spoken w2 = spoken w).
  { subst w2 w1. rewrite spoken_emit, spoken_vibrate, spoken_emit.
    cbn. rewrite !app_nil_r. reflexivity. }
  assert (Hspeak : speakOnCommit (commit_now c) message w2 = w2).
  { destruct Hsilent as [Hmute | Hnot].
    - apply speakOnCommit_muted. rewrite Hw2. exact Hmute.
    - apply speakOnCommit_not_due. rewrite Hw2. exact Hnot. }
  rewrite Hspeak. split.
  - rewrite state_addToLog, state_vibrate, Hw2. reflexivity.
  - unfold spoken. rewrite effects_addToLog.
    fold (spoken (vibrate 50 w2)). rewrite spoken_vibrate. exact Hs2.
Qed.

Lemma commits_fired_speakOnCommit (now : Z) (message : string) (w : World) :
  commits_fired (speakOnCommit now message w) = commits_fired w.
Proof.
  unfold speakOnCommit. repeat case_match; try reflexivity.
  all: rewrite commits_fired_on_state, commits_fired_emit; cbn; lia.
Qed.

Lemma commits_fired_commitMessage (c : CommitClock) (message type : string) (w : World) :
  commits_fired (commitMessage c message type w) = S (commits_fired w).
Proof.
  unfold commitMessage, addToLog, savePatientLog.
  rewrite commits_fired_setItem, commits_fired_on_state, commits_fired_vibrate,
    commits_fired_speakOnCommit, commits_fired_emit, commits_fired_vibrate,
    commits_fired_emit, commits_fired_on_state.
  cbn. lia.
Qed.

(** What every commit does to the state, whether it speaks or not. *)
Lemma commitMessage_state (c : CommitClock) (message type : string) (w : World) :
  let s' := state (commitMessage c message type w) in
  isLocked s' = true
  /\ lockEndTime s' = Some (commit_now c + CONFIG.LOCK_TIME)
  /\ currentSuggestion s' = currentSuggestion (state w)
  /\ suggestionStartTime s' = suggestionStartTime (state w)
  /\ soundEnabled s' = soundEnabled (state w)
  /\ signals_of s' = signals_of (state w)
  /\ conversationLog s'
     = take CONFIG.MAX_LOG_ITEMS
         ({| entry_id := log_now (commit_log c); entry_message := message;
             entry_type := type; entry_timestamp := log_iso (commit_log c);
             entry_patient := currentPatient (state w) |}
          :: conversationLog (state w)).
Proof.
  destruct (soundEnabled (state w)) eqn:Hsound;
    [destruct (speech_due_dec (commit_now c) message (state w)) as [Hdue|Hnot]|].
  - destruct (commitMessage_speaking c message type w Hsound Hdue) as [-> _].
    repeat split; exact Hsound.
  - destruct (commitMessage_silent c message type w (or_intror Hnot)) as [-> _].
    repeat split; exact Hsound.
  - destruct (commitMessage_silent c message type w (or_introl Hsound)) as [-> _].
    repeat split; exact Hsound.
Qed.

(** C10.  Every call of [commitMessage], whatever the state it finds (also
    a lock still running, as when a mood or need button is pressed), locks
    until its own time plus 4000ms, which lies after that time, counts as a
    commit and puts its entry at the head of the log. *)
Theorem commitMessage_always_locks (c : CommitClock) (message type : string) (w : World) :
  let w' := commitMessage c message type w in
  isLocked (state w') = true
  /\ lockEndTime (state w') = Some (commit_now c + 4000)
  /\ commit_now c < num_of (lockEndTime (state w'))
  /\ commits_fired w' = S (commits_fired w)
  /\ head (conversationLog (state w'))
     = Some {| entry_id := log_now (commit_log c); entry_message := message;
               entry_type := type; entry_timestamp := log_iso (commit_log c);
               entry_patient := currentPatient (state w) |}.
Proof.
  intros w'. subst w'.
  destruct (commitMessage_state c message type w)
    as (Hlock & Hend & _ & _ & _ & _ & Hlog).
  rewrite Hlock, Hend, Hlog, commits_fired_commitMessage.
  unfold CONFIG.LOCK_TIME. cbn [num_of default]. repeat split. cbn. lia.
Qed.

(** C6.  A commit with sound enabled speaks exactly when the speech policy
    allows it, and only then moves [lastTTSTime] and [lastTTSMessage]; so
    after a commit that spoke, the same message committed again less than
    10000ms later is silent, and committed 10000ms later or more it is
    spoken again. *)
Theorem speech_on_commit (c : CommitClock) (message type : string) (w : World) :
  soundEnabled (state w) = true ->
  let now := commit_now c in
  let w' := commitMessage c message type w in
  (speech_due now message (state w) ->
     spoken w' = (spoken w ++ [message])%list
     /\ lastTTSTime (state w') = now
     /\ lastTTSMessage (state w') = Some message)
  /\ (~ speech_due now message (state w) ->
     spoken w' = spoken w
     /\ lastTTSTime (state w') = lastTTSTime (state w)
     /\ lastTTSMessage (state w') = lastTTSMessage (state w))
  /\ (speech_due now message (state w) ->
      forall (c2 c3 : CommitClock) (type2 type3 : string),
        commit_now c2 - now < CONFIG.REPEAT_COOLDOWN ->
        CONFIG.REPEAT_COOLDOWN <= commit_now c3 - now ->
        let w2 := commitMessage c2 message type2 w' in
        let w3 := commitMessage c3 message type3 w2 in
        spoken w2 = spoken w' /\ spoken w3 = (spoken w2 ++ [message])%list).
Proof.
  intros Hsound now w'. subst now w'. split; [|split].
  - intros Hdue.
    destruct (commitMessage_speaking c message type w Hsound Hdue) as [Hst Hsp].
    rewrite Hst, Hsp. repeat split.
  - intros Hnot.
    destruct (commitMessage_silent c message type w (or_intror Hnot)) as [Hst Hsp].
    rewrite Hst, Hsp. repeat split.
  - intros Hdue c2 c3 type2 type3 Hsoon Hlate w2 w3. subst w2 w3.
    destruct (commitMessage_speaking c message type w Hsound Hdue) as [Hst1 _].
    set (w1 := commitMessage c message type w) in *.
    assert (Hsilent2 : ~ speech_due (commit_now c2) message (state w1)).
    { rewrite Hst1. unfold speech_due. cbn. unfold CONFIG.REPEAT_COOLDOWN in *.
      intros [_ [Hne | Hge]]; [congruence | lia]. }
    destruct (commitMessage_silent c2 message type2 w1 (or_intror Hsilent2))
      as [Hst2 Hsp2].
    set (w2 := commitMessage c2 message type2 w1) in *.
    split; [exact Hsp2|].
    assert (Hsound2 : soundEnabled (state w2) = true).
    { rewrite Hst2, Hst1. exact Hsound. }
    assert (Hdue3 : speech_due (commit_now c3) message (state w2)).
    { rewrite Hst2, Hst1. unfold speech_due. cbn.
      unfold CONFIG.REPEAT_COOLDOWN, CONFIG.TTS_COOLDOWN in *. split; [lia | right; lia]. }
    destruct (commitMessage_speaking c3 message type3 w2 Hsound2 Hdue3) as [_ Hsp3].
    exact Hsp3.
Qed.

Lemma speech_on_commit_witness :
  let c1 := frame_commit (clock_at 100000) in
  let c2 := frame_commit (clock_at 109999) in
  let c3 := frame_commit (clock_at 110000) in
  let w1 := commitMessage c1 "Yes" "signal" camera_on in
  let w2 := commitMessage c2 "Yes" "signal" w1 in
  let w3 := commitMessage c3 "Yes" "signal" w2 in
  soundEnabled (state camera_on) = true
  /\ spoken w1 = ["Yes"] /\ spoken w2 = ["Yes"] /\ spoken w3 = ["Yes"; "Yes"].
Proof.
  cbn zeta.
  assert (Hdue : speech_due 100000 "Yes" (state camera_on)).
  { split; [vm_compute; discriminate | left; discriminate]. }
  destruct (speech_on_commit (frame_commit (clock_at 100000)) "Yes" "signal" camera_on
              eq_refl) as (Hspeaks & _ & Hrepeat).
  destruct (Hspeaks Hdue) as (Hfirst & _ & _).
  destruct (Hrepeat Hdue (frame_commit (clock_at 109999)) (frame_commit (clock_at 110000))
              "signal" "signal"
              ltac:(vm_compute; reflexivity) ltac:(vm_compute; discriminate))
    as [Hsecond Hthird].
  split; [reflexivity|]. split; [exact Hfirst|].
  split; [rewrite Hsecond; exact Hfirst | rewrite Hthird, Hsecond, Hfirst; reflexivity].
Defined.

(** ** Conversation log *)

Lemma take_app_take {A} (n m : nat) (l1 l2 : list A) :
  (n <= m)%nat -> take n (l1 ++ take m l2) = take n (l1 ++ l2).
Proof.
  revert n. induction l1 as [|a l1 IH]; intros n Hle; cbn.
  - rewrite take_take. f_equal. lia.
  - destruct n as [|n]; [reflexivity|]. cbn. f_equal. apply IH. lia.
Qed.

Lemma currentPatient_addToLog (c : LogClock) (message type : string) (w : World) :
  currentPatient (state (addToLog c message type w)) = currentPatient (state w).
Proof. rewrite state_addToLog. reflexivity. Qed.

Lemma conversationLog_addToLog (c : LogClock) (message type : string) (w : World) :
  conversationLog (state (addToLog c message type w))
  = take CONFIG.MAX_LOG_ITEMS
      (entry_of (currentPatient (state w))
                {| ins_clock := c; ins_message := message; ins_type := type |}
       :: conversationLog (state w)).
Proof. rewrite state_addToLog. reflexivity. Qed.

(** The newest entries after a run of insertions, whatever the log held
    before. *)
Lemma take_conversationLog_insert_all (ins : list Insertion) (w : World) :
  take CONFIG.MAX_LOG_ITEMS (conversationLog (state (insert_all ins w)))
  = take CONFIG.MAX_LOG_ITEMS
      (rev (List.map (entry_of (currentPatient (state w))) ins)
       ++ conversationLog (state w)).
Proof.
  unfold insert_all. revert w.
  induction ins as [|[c message type] ins IH]; intros w; simpl fold_left.
  - reflexivity.
  - rewrite IH.
    rewrite currentPatient_addToLog, conversationLog_addToLog.
    rewrite take_app_take by reflexivity.
    cbn [List.map rev]. rewrite <- app_assoc. reflexivity.
Qed.

(** Saving a log within the bound stores that log. *)
Lemma persisted_savePatientLog (w : World) :
  (length (conversationLog (state w)) <= CONFIG.MAX_LOG_ITEMS)%nat ->
  persisted_log (savePatientLog w) = Some (StoredLog (conversationLog (state w))).
Proof.
  intros Hlen. unfold persisted_log, savePatientLog, setItem.
  cbn [state localStorage]. rewrite lookup_insert_eq. unfold slice_last.
  replace (length (conversationLog (state w)) - CONFIG.MAX_LOG_ITEMS)%nat with 0%nat by lia.
  reflexivity.
Qed.

(** After an insertion the stored copy is the log in memory. *)
Lemma persisted_addToLog (c : LogClock) (message type : string) (w : World) :
  persisted_log (addToLog c message type w)
  = Some (StoredLog (conversationLog (state (addToLog c message type w)))).
Proof.
  unfold addToLog at 1.
  set (w1 := on_state _ w).
  assert (Hlog : conversationLog (state (addToLog c message type w))
                 = conversationLog (state w1)) by reflexivity.
  rewrite Hlog. apply persisted_savePatientLog.
  rewrite <- Hlog, conversationLog_addToLog. apply firstn_le_length.
Qed.

Lemma persisted_clearLog (w : World) :
  persisted_log (clearLog true w)
  = Some (StoredLog (conversationLog (state (clearLog true w)))).
Proof.
  unfold persisted_log, clearLog, savePatientLog, setItem. cbn [state localStorage on_state].
  change (log_key (set_conversationLog [] (state w))) with (log_key (state w)).
  rewrite lookup_insert_eq. reflexivity.
Qed.

Lemma insert_all_snoc (ins : list Insertion) (i : Insertion) (w : World) :
  insert_all (ins ++ [i]) w
  = addToLog (ins_clock i) (ins_message i) (ins_type i) (insert_all ins w).
Proof. unfold insert_all. rewrite fold_left_app. reflexivity. Qed.

(** The log after a run of insertions that is not empty. *)
Lemma conversationLog_insert_all (ins : list Insertion) (w : World) :
  ins <> [] ->
  conversationLog (state (insert_all ins w))
  = take CONFIG.MAX_LOG_ITEMS
      (rev (List.map (entry_of (currentPatient (state w))) ins)
       ++ conversationLog (state w)).
Proof.
  intros Hne. rewrite <- take_conversationLog_insert_all.
  destruct (exists_last Hne) as (ins' & i & ->).
  rewrite insert_all_snoc, conversationLog_addToLog.
  rewrite take_take. reflexivity.
Qed.

(** C7.  Inserting any sequence of entries into any log, hence after each
    insertion of a sequence of more than 50, leaves the 50 newest of the
    entries inserted and held before, newest first: all of them while they
    are 50 or fewer, and entries inserted only once 50 or more were inserted,
    or fewer into an empty log.  After every insertion and every clearing the
    copy in [localStorage] is the log in memory. *)
Theorem log_keeps_newest (ins : list Insertion) (w : World) :
  let w' := insert_all ins w in
  let inserted := List.map (entry_of (currentPatient (state w))) ins in
  let before := conversationLog (state w) in
  (ins <> [] ->
     conversationLog (state w') = take CONFIG.MAX_LOG_ITEMS (rev inserted ++ before)
     /\ length (conversationLog (state w'))
        = Nat.min (length ins + length before) CONFIG.MAX_LOG_ITEMS
     /\ persisted_log w' = Some (StoredLog (conversationLog (state w'))))
  /\ (ins <> [] -> (length ins + length before <= CONFIG.MAX_LOG_ITEMS)%nat ->
      conversationLog (state w') = (rev inserted ++ before)%list)
  /\ (ins <> [] -> (CONFIG.MAX_LOG_ITEMS <= length ins \/ before = [])%nat ->
      conversationLog (state w')
      = rev (slice_last (Nat.min (length ins) CONFIG.MAX_LOG_ITEMS) inserted)
      /\ length (conversationLog (state w')) = Nat.min (length ins) CONFIG.MAX_LOG_ITEMS)
  /\ persisted_log (clearLog true w')
     = Some (StoredLog (conversationLog (state (clearLog true w')))).
Proof.
  intros w' inserted before. subst w'.
  assert (Hlen : length inserted = length ins) by apply length_map.
  assert (Hnewest : take CONFIG.MAX_LOG_ITEMS (rev inserted)
                    = rev (slice_last (Nat.min (length ins) CONFIG.MAX_LOG_ITEMS) inserted)).
  { rewrite firstn_rev. unfold slice_last. rewrite Hlen. do 2 f_equal. lia. }
  split; [|split; [|split]].
  - intros Hne.
    assert (Hstored : persisted_log (insert_all ins w)
                      = Some (StoredLog (conversationLog (state (insert_all ins w))))).
    { destruct (exists_last Hne) as (ins' & i & Heq).
      rewrite Heq, insert_all_snoc. apply persisted_addToLog. }
    split; [|split; [|exact Hstored]].
    + apply (conversationLog_insert_all ins w Hne).
    + rewrite (conversationLog_insert_all ins w Hne). fold inserted before.
      rewrite length_take, length_app, length_rev, Hlen. lia.
  - intros Hne Hfits. rewrite (conversationLog_insert_all ins w Hne).
    fold inserted before. apply firstn_all2.
    rewrite length_app, length_rev, Hlen. exact Hfits.
  - intros Hne Hfull. rewrite (conversationLog_insert_all ins w Hne).
    fold inserted before.
    assert (Hsame : take CONFIG.MAX_LOG_ITEMS (rev inserted ++ before)
                    = take CONFIG.MAX_LOG_ITEMS (rev inserted)).
    { destruct Hfull as [Hmany| ->]; [|rewrite app_nil_r; reflexivity].
      rewrite take_app_le; [reflexivity|]. rewrite length_rev, Hlen. exact Hmany. }
    rewrite Hsame. split; [exact Hnewest|].
    rewrite length_take, length_rev, Hlen. lia.
  - apply persisted_clearLog.
Qed.

(** Fifty-one insertions into a log that holds two entries: the two and
    the first entry inserted are evicted. *)
Lemma log_keeps_newest_witness :
  let w := insert_all (take 2 fifty_one) initial_world in
  List.length (conversationLog (state w)) = 2%nat
  /\ fifty_one <> []
  /\ List.map entry_id (conversationLog (state (insert_all fifty_one w)))
     = List.map Z.of_nat (rev (seq 2 50)).
Proof.
  cbn zeta.
  assert (Hne : fifty_one <> []) by discriminate.
  split; [vm_compute; reflexivity|]. split; [exact Hne|].
  destruct (log_keeps_newest fifty_one (insert_all (take 2 fifty_one) initial_world))
    as (_ & _ & Hfull & _).
  destruct (Hfull Hne) as [-> _]; [left; vm_compute; lia|].
  vm_compute. reflexivity.
Defined.

(** ** Signal extractor *)

(** An evaluation tick reads the signals and does not write them. *)
Lemma signals_evaluateSuggestion (now : Z) (c : CommitClock) (w : World) :
  signals_of (state (evaluateSuggestion now c w)) = signals_of (state w).
Proof.
  unfold evaluateSuggestion.
  destruct (truthy (generateSuggestion (state w))) as [message|]; [|reflexivity].
  case_bool_decide; [reflexivity|].
  case_match; [|reflexivity].
  cbn [state on_state].
  set (w1 := on_state updateSignalTone w).
  destruct (commitMessage_state c message "signal" w1) as (_ & _ & _ & _ & _ & Hsig & _).
  change (signals_of (state (commitMessage c message "signal" w1)) = signals_of (state w1)).
  exact Hsig.
Qed.

Lemma signals_updateSuggestion (now : Z) (c : CommitClock) (w : World) :
  signals_of (state (updateSuggestion now c w)) = signals_of (state w).
Proof.
  unfold updateSuggestion. case_match; [reflexivity|].
  rewrite signals_evaluateSuggestion. case_match; reflexivity.
Qed.

Lemma smileScore_updateSuggestion (now : Z) (c : CommitClock) (w : World) :
  smileScore (state (updateSuggestion now c w)) = smileScore (state w).
Proof. exact (f_equal sg_smileScore (signals_updateSuggestion now c w)). Qed.

Lemma mouthOpenScore_updateSuggestion (now : Z) (c : CommitClock) (w : World) :
  mouthOpenScore (state (updateSuggestion now c w)) = mouthOpenScore (state w).
Proof. exact (f_equal sg_mouthOpenScore (signals_updateSuggestion now c w)). Qed.

Lemma emotionScores_updateSuggestion (now : Z) (c : CommitClock) (w : World) :
  emotionScores (state (updateSuggestion now c w)) = emotionScores (state w).
Proof. exact (f_equal sg_emotionScores (signals_updateSuggestion now c w)). Qed.

(** Nose tracking writes the history, the gesture and the movement score. *)
Lemma trackNose_frame (fc : FrameClock) (noseTip : Point) (s : State) :
  let s' := trackNose fc noseTip s in
  smileScore s' = smileScore s /\ mouthOpenScore s' = mouthOpenScore s
  /\ emotionScores s' = emotionScores s /\ currentEmotion s' = currentEmotion s.
Proof. unfold trackNose. cbn zeta. repeat case_match; repeat split. Qed.

(** C8, as the code has it.  With the four mouth landmarks present, the
    path with blendshapes takes the larger of the blendshape smile and
    [clamp01((ratio - 2.5)/2 + lift * 15)] and reads the mouth opening from
    [jawOpen]; the fallback path, taken without blendshapes, computes
    [clamp01((ratio - 2)/3 + lift * 10)] and [clamp01(mouthHeight * 5)].
    [ratio] is the mouth width over the mouth height plus 0.001. *)
Theorem landmark_estimator (fc : FrameClock) (r : FaceLandmarkerResult) (w : World)
    (landmarks : list (option Point)) (rest : list (list (option Point)))
    (leftCorner rightCorner upperLip lowerLip : Point) :
  faceLandmarks r = Some (landmarks :: rest) ->
  landmark landmarks 61 = Some leftCorner ->
  landmark landmarks 291 = Some rightCorner ->
  landmark landmarks 13 = Some upperLip ->
  landmark landmarks 14 = Some lowerLip ->
  let s' := state (fst (processResults fc (Some r) w)) in
  let width := Qabs (px rightCorner - px leftCorner) in
  let height := Qabs (py lowerLip - py upperLip) in
  let ratio := (width / (height + 0.001))%Q in
  let centre := ((py upperLip + py lowerLip) / 2)%Q in
  let lift := (((centre - py leftCorner) + (centre - py rightCorner)) / 2)%Q in
  let shapes := blendshapes_of r in
  (shapes = [] ->
     smileScore s' = clamp01 ((ratio - 2) / 3 + lift * 10)
     /\ mouthOpenScore s' = clamp01 (height * 5))
  /\ (shapes <> [] ->
     smileScore s'
     = Qmax ((getBlendshape shapes "mouthSmileLeft"
              + getBlendshape shapes "mouthSmileRight") / 2)
            (clamp01 ((ratio - 2.5) / 2 + lift * 15))
     /\ mouthOpenScore s' = getBlendshape shapes "jawOpen").
Proof.
  intros Hface Hleft Hright Hupper Hlower. cbn zeta.
  unfold processResults. rewrite Hface. split.
  - intros ->. cbn [length Nat.eqb]. unfold detectSmileFromLandmarks.
    rewrite Hleft, Hright, Hupper, Hlower.
    destruct (landmark landmarks 4) as [noseTip|]; cbn [fst].
    + rewrite smileScore_updateSuggestion, mouthOpenScore_updateSuggestion.
      cbn [state on_state].
      split; [apply (trackNose_frame fc noseTip) | apply (trackNose_frame fc noseTip)].
    + split; reflexivity.
  - intros Hshapes.
    destruct (blendshapes_of r) as [|b shapes] eqn:Hb; [congruence|].
    cbn [length Nat.eqb]. rewrite Hleft, Hright, Hupper, Hlower.
    destruct (landmark landmarks 4) as [noseTip|]; cbn [fst].
    + rewrite smileScore_updateSuggestion, mouthOpenScore_updateSuggestion.
      cbn [state on_state].
      split; [apply (trackNose_frame fc noseTip) | apply (trackNose_frame fc noseTip)].
    + split; reflexivity.
Qed.

Lemma landmark_estimator_witness :
  let s' := state (fst (processResults (clock_at 100000) (Some wide_mouth) camera_on)) in
  (smileScore s' == 1 # 3)%Q /\ (mouthOpenScore s' == 0.495)%Q.
Proof.
  cbn zeta.
  destruct (landmark_estimator (clock_at 100000) wide_mouth camera_on
              (mesh (pt 0.35 0.5495) (pt 0.65 0.5495) (pt 0.5 0.5) (pt 0.5 0.599)
                    (pt 0.5 0.4)) []
              (pt 0.35 0.5495) (pt 0.65 0.5495) (pt 0.5 0.5) (pt 0.5 0.599)
              eq_refl eq_refl eq_refl eq_refl eq_refl) as [Hfallback _].
  destruct (Hfallback eq_refl) as [-> ->].
  split; vm_compute; reflexivity.
Defined.

(** C8, as stated, fails on the fallback path: on [wide_mouth] the ratio
    is 3 and the lift 0, the stated formula gives [(3 - 2.5)/2 = 1/4], and
    the code stores [(3 - 2)/3 = 1/3]. *)
Lemma fallback_smile_is_not_the_stated_formula :
  let leftCorner := pt 0.35 0.5495 in
  let rightCorner := pt 0.65 0.5495 in
  let upperLip := pt 0.5 0.5 in
  let lowerLip := pt 0.5 0.599 in
  let ratio := mouthRatio leftCorner rightCorner upperLip lowerLip in
  let lift := avgCornerLift leftCorner rightCorner upperLip lowerLip in
  let s' := state (fst (processResults (clock_at 100000) (Some wide_mouth) camera_on)) in
  blendshapes_of wide_mouth = []
  /\ (ratio == 3)%Q /\ (lift == 0)%Q
  /\ (clamp01 ((ratio - 2.5) / 2 + lift * 15) == 1 # 4)%Q
  /\ (smileScore s' == 1 # 3)%Q
  /\ ~ (smileScore s' == clamp01 ((ratio - 2.5) / 2 + lift * 15))%Q.
Proof.
  cbn zeta. repeat split; try (vm_compute; reflexivity).
  intros H. vm_compute in H. discriminate H.
Qed.

(** C5 on the fallback path: the sadness score is bounded below only.  On
    [drooping] the corners lie 0.25 below the mouth centre and the score
    stored is 2.5. *)
Theorem fallback_sad_exceeds_one :
  let w' := fst (detectFace (video_at 0) (Detected (Some drooping))
                            (clock_at 100000) camera_on) in
  (sad (emotionScores (state w')) == 5 # 2)%Q
  /\ ~ in01 (sad (emotionScores (state w'))).
Proof.
  cbn zeta. split; [vm_compute; reflexivity|].
  intros [_ Hle]. vm_compute in Hle. apply Hle. reflexivity.
Qed.

(** ** Cancellation *)

(** What the two stop operations write. *)
Lemma stop_resets (s : State) :
  smileScore (stopCamera s) = 0%Q
  /\ mouthOpenScore (stopCamera s) = 0%Q
  /\ movementScore (stopCamera s) = 0%Q
  /\ headGesture (stopCamera s) = still
  /\ cameraRunning (stopCamera s) = false
  /\ currentEmotion (stopCamera s) = currentEmotion s
  /\ emotionScores (stopCamera s) = emotionScores s
  /\ soundLevel (stopMic s) = 0%Q
  /\ micRunning (stopMic s) = false.
Proof. repeat split. Qed.

(** C9 on the camera: after a frame that read a smile, [stopCamera] zeroes
    the three scores and the gesture and leaves the emotion state as the
    frame set it, not neutral. *)
Theorem stopCamera_leaves_emotion :
  let w1 := fst (detectFace (video_at 0) (Detected (Some smiling))
                            (clock_at 100000) camera_on) in
  let s' := stopCamera (state w1) in
  smileScore s' = 0%Q /\ mouthOpenScore s' = 0%Q /\ movementScore s' = 0%Q
  /\ headGesture s' = still
  /\ currentEmotion s' = happy_e
  /\ (happy (emotionScores s') == 1)%Q
  /\ ~ zero_frame s'.
Proof.
  cbn zeta. repeat split; try (vm_compute; reflexivity).
  intros (_ & _ & _ & _ & Hneutral & _). vm_compute in Hneutral. discriminate Hneutral.
Qed.

(** ** Malformed samples *)

(** The branches of [processResults]. *)
Lemma processResults_no_face (fc : FrameClock) (r : FaceLandmarkerResult) (w : World) :
  faceLandmarks r = None \/ faceLandmarks r = Some [] ->
  processResults fc (Some r) w = (on_state no_face w, Normal).
Proof. intros [H|H]; unfold processResults; rewrite H; reflexivity. Qed.

Lemma processResults_fallback (fc : FrameClock) (r : FaceLandmarkerResult) (w : World)
    (landmarks : list (option Point)) (others : list (list (option Point))) :
  faceLandmarks r = Some (landmarks :: others) ->
  blendshapes_of r = [] ->
  processResults fc (Some r) w = detectSmileFromLandmarks fc landmarks w.
Proof. intros Hface Hnone. unfold processResults. rewrite Hface, Hnone. reflexivity. Qed.

Lemma processResults_incomplete (fc : FrameClock) (r : FaceLandmarkerResult) (w : World)
    (landmarks : list (option Point)) (others : list (list (option Point))) :
  faceLandmarks r = Some (landmarks :: others) ->
  landmark landmarks 291 = None \/ landmark landmarks 61 = None
  \/ landmark landmarks 14 = None \/ landmark landmarks 13 = None ->
  processResults fc (Some r) w = (w, Thrown).
Proof.
  intros Hface Hmissing. unfold processResults, detectSmileFromLandmarks.
  rewrite Hface. destruct (length (blendshapes_of r) =? 0)%nat.
  - destruct Hmissing as [H|[H|[H|H]]]; rewrite H; repeat case_match; reflexivity.
  - destruct Hmissing as [H|[H|[H|H]]]; rewrite H; repeat case_match; reflexivity.
Qed.

Lemma landmark_Some_lt (landmarks : list (option Point)) (i : nat) (p : Point) :
  landmark landmarks i = Some p -> (i < length landmarks)%nat.
Proof.
  unfold landmark. intros H. apply lookup_lt_is_Some.
  destruct (landmarks !! i); [eauto | discriminate H].
Qed.

Lemma landmark_insert_ne (landmarks : list (option Point)) (i j : nat) (v : option Point) :
  i <> j -> landmark (<[i := v]> landmarks) j = landmark landmarks j.
Proof. intros Hne. unfold landmark. rewrite list_lookup_insert_ne by exact Hne. reflexivity. Qed.

Lemma landmark_insert_eq (landmarks : list (option Point)) (i : nat) (v : option Point) :
  (i < length landmarks)%nat -> landmark (<[i := v]> landmarks) i = v.
Proof. intros Hlt. unfold landmark. rewrite list_lookup_insert_eq by exact Hlt. reflexivity. Qed.

Lemma processResults_without_nose (fc : FrameClock) (r : FaceLandmarkerResult)
    (landmarks : list (option Point)) (others : list (list (option Point)))
    (leftCorner rightCorner upperLip lowerLip noseTip : Point) (w : World) :
  faceLandmarks r = Some (landmarks :: others) ->
  landmark landmarks 61 = Some leftCorner ->
  landmark landmarks 291 = Some rightCorner ->
  landmark landmarks 13 = Some upperLip ->
  landmark landmarks 14 = Some lowerLip ->
  landmark landmarks 4 = None ->
  exists f : State -> State,
    processResults fc (Some r) w = (on_state f w, Thrown)
    /\ processResults fc (Some (with_nose noseTip r)) w
       = (updateSuggestion (suggest_now fc) (frame_commit fc)
            (on_state (trackNose fc noseTip) (on_state f w)), Normal)
    /\ commit_view (on_state f w) = commit_view w
    /\ noseHistory (f (state w)) = noseHistory (state w)
    /\ headGesture (f (state w)) = headGesture (state w)
    /\ movementScore (f (state w)) = movementScore (state w).
Proof.
  intros Hface Hleft Hright Hupper Hlower Hnose.
  pose proof (landmark_Some_lt _ _ _ Hleft) as Hlen.
  set (landmarks' := <[4%nat := Some noseTip]> landmarks).
  assert (Hleft' : landmark landmarks' 61 = Some leftCorner)
    by (subst landmarks'; rewrite landmark_insert_ne by lia; exact Hleft).
  assert (Hright' : landmark landmarks' 291 = Some rightCorner)
    by (subst landmarks'; rewrite landmark_insert_ne by lia; exact Hright).
  assert (Hupper' : landmark landmarks' 13 = Some upperLip)
    by (subst landmarks'; rewrite landmark_insert_ne by lia; exact Hupper).
  assert (Hlower' : landmark landmarks' 14 = Some lowerLip)
    by (subst landmarks'; rewrite landmark_insert_ne by lia; exact Hlower).
  assert (Hnose' : landmark landmarks' 4 = Some noseTip)
    by (subst landmarks'; apply landmark_insert_eq; lia).
  assert (Hface' : faceLandmarks (with_nose noseTip r) = Some (landmarks' :: others)).
  { unfold with_nose. cbn [faceLandmarks]. rewrite Hface. reflexivity. }
  assert (Hshapes' : blendshapes_of (with_nose noseTip r) = blendshapes_of r) by reflexivity.
  clearbody landmarks'.
  destruct (blendshapes_of r) as [|b shapes] eqn:Hb.
  - rewrite (processResults_fallback fc r w landmarks others Hface Hb).
    rewrite (processResults_fallback fc _ w landmarks' others Hface' Hshapes').
    unfold detectSmileFromLandmarks.
    rewrite Hright, Hleft, Hlower, Hupper, Hnose, Hright', Hleft', Hlower', Hupper', Hnose'.
    set (f := fun s : State => _).
    exists f. split; [reflexivity|]. split; [reflexivity|].
    unfold commit_view. rewrite commits_fired_on_state. cbn [state on_state].
    subst f. cbv beta. repeat split.
  - unfold processResults.
    rewrite Hface, Hface', Hshapes', Hb,
      Hright, Hleft, Hlower, Hupper, Hnose, Hright', Hleft', Hlower', Hupper', Hnose'.
    change (length (b :: shapes) =? 0)%nat with false. cbv iota.
    set (f := fun s : State => _).
    exists f. split; [reflexivity|]. split; [reflexivity|].
    unfold commit_view. rewrite commits_fired_on_state. cbn [state on_state].
    subst f. cbv beta. repeat split.
Qed.

Lemma malformed_cases (landmarks : list (option Point)) :
  malformed landmarks ->
  (landmark landmarks 291 = None \/ landmark landmarks 61 = None
   \/ landmark landmarks 14 = None \/ landmark landmarks 13 = None)
  \/ (exists leftCorner rightCorner upperLip lowerLip,
        landmark landmarks 61 = Some leftCorner
        /\ landmark landmarks 291 = Some rightCorner
        /\ landmark landmarks 13 = Some upperLip
        /\ landmark landmarks 14 = Some lowerLip
        /\ landmark landmarks 4 = None).
Proof.
  intros (i & Hin & Hnone).
  destruct (landmark landmarks 291) as [rightCorner|] eqn:Hright; [|auto].
  destruct (landmark landmarks 61) as [leftCorner|] eqn:Hleft; [|auto].
  destruct (landmark landmarks 14) as [lowerLip|] eqn:Hlower; [|auto].
  destruct (landmark landmarks 13) as [upperLip|] eqn:Hupper; [|auto 6].
  right. exists leftCorner, rightCorner, upperLip, lowerLip.
  repeat (split; [reflexivity|]).
  repeat (apply elem_of_cons in Hin as [->|Hin]; [congruence|]).
  apply elem_of_nil in Hin. destruct Hin.
Qed.

Lemma browScore_updateSuggestion (now : Z) (c : CommitClock) (w : World) :
  browScore (state (updateSuggestion now c w)) = browScore (state w).
Proof. exact (f_equal sg_browScore (signals_updateSuggestion now c w)). Qed.

Lemma eyeOpenScore_updateSuggestion (now : Z) (c : CommitClock) (w : World) :
  eyeOpenScore (state (updateSuggestion now c w)) = eyeOpenScore (state w).
Proof. exact (f_equal sg_eyeOpenScore (signals_updateSuggestion now c w)). Qed.

Lemma currentEmotion_updateSuggestion (now : Z) (c : CommitClock) (w : World) :
  currentEmotion (state (updateSuggestion now c w)) = currentEmotion (state w).
Proof. exact (f_equal sg_currentEmotion (signals_updateSuggestion now c w)). Qed.

Lemma trackNose_brow_eye (fc : FrameClock) (noseTip : Point) (s : State) :
  browScore (trackNose fc noseTip s) = browScore s
  /\ eyeOpenScore (trackNose fc noseTip s) = eyeOpenScore s.
Proof. unfold trackNose. cbn zeta. repeat case_match; repeat split. Qed.

(** What a malformed sample does to the extractor, in every world. *)
Lemma processResults_malformed (fc : FrameClock) (r : FaceLandmarkerResult)
    (landmarks : list (option Point)) (others : list (list (option Point))) (w : World) :
  faceLandmarks r = Some (landmarks :: others) ->
  malformed landmarks ->
  snd (processResults fc (Some r) w) = Thrown
  /\ commit_view (fst (processResults fc (Some r) w)) = commit_view w
  /\ noseHistory (state (fst (processResults fc (Some r) w))) = noseHistory (state w)
  /\ headGesture (state (fst (processResults fc (Some r) w))) = headGesture (state w)
  /\ movementScore (state (fst (processResults fc (Some r) w))) = movementScore (state w).
Proof.
  intros Hface Hbad.
  destruct (malformed_cases landmarks Hbad)
    as [Hmouth|(leftCorner & rightCorner & upperLip & lowerLip
                & Hleft & Hright & Hupper & Hlower & Hnose)].
  - rewrite (processResults_incomplete fc r w landmarks others Hface Hmouth).
    repeat split.
  - destruct (processResults_without_nose fc r landmarks others leftCorner rightCorner
                upperLip lowerLip leftCorner w Hface Hleft Hright Hupper Hlower Hnose)
      as (f & -> & _ & Hview & Hhist & Hgesture & Hmove).
    cbn [fst snd state on_state]. auto.
Qed.

(** C4, as the code has it.  On a sample that lacks one of the landmarks
    read, [processResults] throws, the [catch] of [detectFace] swallows the
    error, and the frame runs no evaluation tick: candidate, lock, commits
    and log are as before, and so are the nose history, the gesture and the
    movement score.  When a mouth landmark is missing nothing has been
    written when the error is thrown: the world is as it was but for
    [lastVideoTime], the signals of the frame before stay.  When the nose
    tip alone is missing, the smile, mouth, brow, eye and emotion scores of
    this sample, those the sample gives with a nose tip, have been written
    before the error is thrown.  In neither case is the zero frame stored. *)
Theorem malformed_sample_is_swallowed (video : Video) (fc : FrameClock)
    (r : FaceLandmarkerResult) (landmarks : list (option Point))
    (rest : list (list (option Point))) (w : World) :
  faceLandmarks r = Some (landmarks :: rest) ->
  malformed landmarks ->
  let thrown := processResults fc (Some r) w in
  let w' := fst (detectFace video (Detected (Some r)) fc w) in
  snd thrown = Thrown
  /\ snd (detectFace video (Detected (Some r)) fc w) = Normal
  /\ (w' = w
      \/ w' = fst (processResults fc (Some r)
                     (on_state (set_lastVideoTime (currentTime video)) w)))
  /\ commit_view w' = commit_view w
  /\ noseHistory (state w') = noseHistory (state w)
  /\ headGesture (state w') = headGesture (state w)
  /\ movementScore (state w') = movementScore (state w)
  /\ ((exists i, i ∈ mouth_landmarks /\ landmark landmarks i = None) ->
      fst thrown = w
      /\ (w' = w \/ w' = on_state (set_lastVideoTime (currentTime video)) w))
  /\ ((forall i, i ∈ mouth_landmarks -> landmark landmarks i <> None) ->
      forall noseTip : Point,
        let complete := processResults fc (Some (with_nose noseTip r)) w in
        let s' := state (fst thrown) in
        snd complete = Normal
        /\ smileScore s' = smileScore (state (fst complete))
        /\ mouthOpenScore s' = mouthOpenScore (state (fst complete))
        /\ browScore s' = browScore (state (fst complete))
        /\ eyeOpenScore s' = eyeOpenScore (state (fst complete))
        /\ emotionScores s' = emotionScores (state (fst complete))
        /\ currentEmotion s' = currentEmotion (state (fst complete))).
Proof.
  intros Hface Hbad. cbn zeta.
  pose proof (processResults_malformed fc r landmarks rest w Hface Hbad) as Hhere.
  pose proof (processResults_malformed fc r landmarks rest
                (on_state (set_lastVideoTime (currentTime video)) w) Hface Hbad)
    as (_ & Hview & Hhist & Hgesture & Hmove).
  split; [apply Hhere|].
  assert (Hframe :
    snd (detectFace video (Detected (Some r)) fc w) = Normal
    /\ (fst (detectFace video (Detected (Some r)) fc w) = w
        \/ fst (detectFace video (Detected (Some r)) fc w)
           = fst (processResults fc (Some r)
                    (on_state (set_lastVideoTime (currentTime video)) w)))).
  { unfold detectFace, try_catch. repeat case_match; cbn [fst snd]; split; auto. }
  destruct Hframe as [Hnormal Hworld].
  split; [exact Hnormal|]. split; [exact Hworld|].
  assert (Hkept :
    commit_view (fst (detectFace video (Detected (Some r)) fc w)) = commit_view w
    /\ noseHistory (state (fst (detectFace video (Detected (Some r)) fc w)))
       = noseHistory (state w)
    /\ headGesture (state (fst (detectFace video (Detected (Some r)) fc w)))
       = headGesture (state w)
    /\ movementScore (state (fst (detectFace video (Detected (Some r)) fc w)))
       = movementScore (state w)).
  { destruct Hworld as [-> | ->]; [repeat split|].
    rewrite Hview, Hhist, Hgesture, Hmove. repeat split. }
  destruct Hkept as (Hk1 & Hk2 & Hk3 & Hk4).
  repeat (split; [assumption|]).
  split.
  - intros (i & Hin & Hnone).
    assert (Hmouth : landmark landmarks 291 = None \/ landmark landmarks 61 = None
                     \/ landmark landmarks 14 = None \/ landmark landmarks 13 = None).
    { unfold mouth_landmarks in Hin.
      repeat (apply elem_of_cons in Hin as [->|Hin]; [auto|]).
      apply elem_of_nil in Hin. destruct Hin. }
    split.
    + rewrite (processResults_incomplete fc r w landmarks rest Hface Hmouth). reflexivity.
    + destruct Hworld as [Hsame|Hprocessed]; [left; exact Hsame|right].
      rewrite Hprocessed.
      rewrite (processResults_incomplete fc r _ landmarks rest Hface Hmouth). reflexivity.
  - intros Hpresent noseTip.
    destruct (malformed_cases landmarks Hbad)
      as [Hmouth|(leftCorner & rightCorner & upperLip & lowerLip
                  & Hleft & Hright & Hupper & Hlower & Hnose)].
    { exfalso. unfold mouth_landmarks in Hpresent.
      destruct Hmouth as [H|[H|[H|H]]]; revert H; apply Hpresent;
        repeat constructor. }
    destruct (processResults_without_nose fc r landmarks rest leftCorner rightCorner
                upperLip lowerLip noseTip w Hface Hleft Hright Hupper Hlower Hnose)
      as (f & -> & -> & _).
    cbn [fst snd]. split; [reflexivity|].
    rewrite smileScore_updateSuggestion, mouthOpenScore_updateSuggestion,
      browScore_updateSuggestion, eyeOpenScore_updateSuggestion,
      emotionScores_updateSuggestion, currentEmotion_updateSuggestion.
    cbn [state on_state].
    destruct (trackNose_frame fc noseTip (f (state w))) as (-> & -> & -> & ->).
    destruct (trackNose_brow_eye fc noseTip (f (state w))) as (-> & ->).
    repeat split.
Qed.

(** A frame with every landmark but the nose tip, after the camera
    starts: the error is swallowed, and the smile of the sample is in the
    state although no nose sample was taken and no tick ran. *)
Lemma malformed_sample_is_swallowed_witness :
  let w' := fst (detectFace (video_at 0) (Detected (Some noseless))
                            (clock_at 100000) camera_on) in
  malformed (<[4%nat := None]> resting_mesh)
  /\ snd (detectFace (video_at 0) (Detected (Some noseless)) (clock_at 100000) camera_on)
     = Normal
  /\ commit_view w' = commit_view camera_on
  /\ noseHistory (state w') = [].
Proof.
  cbn zeta.
  assert (Hbad : malformed (<[4%nat := None]> resting_mesh)).
  { exists 4%nat. split; [repeat constructor | reflexivity]. }
  split; [exact Hbad|].
  destruct (malformed_sample_is_swallowed (video_at 0) (clock_at 100000) noseless
              (<[4%nat := None]> resting_mesh) [] camera_on eq_refl Hbad)
    as (_ & Hnormal & _ & Hview & Hhist & _).
  split; [exact Hnormal|]. split; [exact Hview|]. rewrite Hhist. reflexivity.
Defined.

(** C4, as stated, fails: the sample after a smiling frame is cut short,
    the error is swallowed, and the state still holds the smile of the frame
    before instead of the zero frame. *)
Lemma malformed_sample_keeps_stale_frame :
  let w1 := fst (detectFace (video_at 0) (Detected (Some smiling))
                            (clock_at 100000) camera_on) in
  let w2 := fst (detectFace (video_at 0.04) (Detected (Some truncated))
                            (clock_at 100040) w1) in
  malformed (take 5 resting_mesh)
  /\ faceLandmarks truncated = Some [take 5 resting_mesh]
  /\ (smileScore (state w2) == 1 # 2)%Q
  /\ ~ zero_frame (state w2).
Proof.
  cbn zeta. split; [|split; [reflexivity|split]].
  - exists 61%nat. split; [repeat constructor | reflexivity].
  - vm_compute. reflexivity.
  - intros (Hsmile & _). vm_compute in Hsmile. discriminate Hsmile.
Qed.

(** The same on the frame without a nose tip, taken as the first frame:
    the smile and the emotion of the sample are stored, the nose history is
    still empty, and the state is not the zero frame. *)
Lemma noseless_sample_is_half_written :
  let w' := fst (detectFace (video_at 0) (Detected (Some noseless))
                            (clock_at 100000) camera_on) in
  (smileScore (state w') == 1 # 2)%Q
  /\ currentEmotion (state w') = happy_e
  /\ noseHistory (state w') = []
  /\ currentSuggestion (state w') = None
  /\ ~ zero_frame (state w').
Proof.
  cbn zeta. repeat split; try (vm_compute; reflexivity).
  intros (Hsmile & _). vm_compute in Hsmile. discriminate Hsmile.
Qed.

Lemma commit_fields_feed (g : Signals) (s : State) :
  isLocked (feed g s) = isLocked s
  /\ lockEndTime (feed g s) = lockEndTime s
  /\ currentSuggestion (feed g s) = currentSuggestion s
  /\ suggestionStartTime (feed g s) = suggestionStartTime s
  /\ conversationLog (feed g s) = conversationLog s.
Proof. repeat split. Qed.

Lemma commit_fields_updateSignalTone (s : State) :
  isLocked (updateSignalTone s) = isLocked s
  /\ lockEndTime (updateSignalTone s) = lockEndTime s
  /\ currentSuggestion (updateSignalTone s) = currentSuggestion s
  /\ suggestionStartTime (updateSignalTone s) = suggestionStartTime s
  /\ conversationLog (updateSignalTone s) = conversationLog s
  /\ generateSuggestion (updateSignalTone s) = generateSuggestion s.
Proof. repeat split. Qed.

(** The three ways an evaluation goes on a non-null suggestion. *)
Lemma evaluateSuggestion_start (now : Z) (c : CommitClock) (sug : string) (w : World) :
  generateSuggestion (state w) = Some sug ->
  currentSuggestion (state w) <> Some sug ->
  evaluateSuggestion now c w
  = on_state (fun s => set_suggestionStartTime (Some now)
                         (set_currentSuggestion (Some sug) s))
             (on_state updateSignalTone w).
Proof.
  intros Hgen Hother. unfold evaluateSuggestion.
  rewrite Hgen, (generateSuggestion_truthy _ _ Hgen).
  rewrite bool_decide_eq_true_2; [reflexivity|].
  intros Heq. apply Hother. symmetry. exact Heq.
Qed.

Lemma evaluateSuggestion_wait (now : Z) (c : CommitClock) (sug : string) (w : World) :
  generateSuggestion (state w) = Some sug ->
  currentSuggestion (state w) = Some sug ->
  now - num_of (suggestionStartTime (state w)) < CONFIG.STABILITY_TIME ->
  evaluateSuggestion now c w = on_state updateSignalTone w.
Proof.
  intros Hgen Hsame Hearly. unfold evaluateSuggestion.
  rewrite Hgen, (generateSuggestion_truthy _ _ Hgen).
  rewrite bool_decide_eq_false_2.
  - cbn [state on_state].
    replace (suggestionStartTime (updateSignalTone (state w)))
      with (suggestionStartTime (state w)) by reflexivity.
    rewrite (proj2 (Z.leb_gt _ _) Hearly). reflexivity.
  - intros Hne. apply Hne. symmetry. exact Hsame.
Qed.

Lemma evaluateSuggestion_commit (now : Z) (c : CommitClock) (sug : string) (w : World) :
  generateSuggestion (state w) = Some sug ->
  currentSuggestion (state w) = Some sug ->
  CONFIG.STABILITY_TIME <= now - num_of (suggestionStartTime (state w)) ->
  evaluateSuggestion now c w
  = on_state (fun s => set_suggestionStartTime None (set_currentSuggestion None s))
             (commitMessage c sug "signal" (on_state updateSignalTone w)).
Proof.
  intros Hgen Hsame Hdue. unfold evaluateSuggestion.
  rewrite Hgen, (generateSuggestion_truthy _ _ Hgen).
  rewrite bool_decide_eq_false_2.
  - cbn [state on_state].
    replace (suggestionStartTime (updateSignalTone (state w)))
      with (suggestionStartTime (state w)) by reflexivity.
    rewrite (proj2 (Z.leb_le _ _) Hdue). reflexivity.
  - intros Hne. apply Hne. symmetry. exact Hsame.
Qed.

Lemma evaluateSuggestion_none (now : Z) (c : CommitClock) (w : World) :
  generateSuggestion (state w) = None ->
  evaluateSuggestion now c w
  = on_state (fun s => set_suggestionStartTime None (set_currentSuggestion None s))
             (on_state updateSignalTone w).
Proof. intros Hgen. unfold evaluateSuggestion. rewrite Hgen. reflexivity. Qed.

(** The lock check. *)
Lemma updateSuggestion_frozen (now : Z) (c : CommitClock) (w : World) :
  isLocked (state w) = true ->
  now < num_of (lockEndTime (state w)) ->
  updateSuggestion now c w = w.
Proof.
  intros Hlocked Hrunning. unfold updateSuggestion.
  rewrite Hlocked, (proj2 (Z.ltb_lt _ _) Hrunning). reflexivity.
Qed.

Lemma updateSuggestion_expired (now : Z) (c : CommitClock) (w : World) :
  isLocked (state w) = true ->
  num_of (lockEndTime (state w)) <= now ->
  updateSuggestion now c w
  = evaluateSuggestion now c (on_state (set_isLocked false) w).
Proof.
  intros Hlocked Hout. unfold updateSuggestion.
  rewrite Hlocked, (proj2 (Z.ltb_ge _ _) Hout). reflexivity.
Qed.

Lemma updateSuggestion_unlocked (now : Z) (c : CommitClock) (w : World) :
  isLocked (state w) = false ->
  updateSuggestion now c w = evaluateSuggestion now c w.
Proof. intros Hfree. unfold updateSuggestion. rewrite Hfree. reflexivity. Qed.

(** ** Runs of ticks *)

Lemma generateSuggestion_unlock_feed (g : Signals) (s : State) :
  generateSuggestion (set_isLocked false (feed g s)) = suggestion_of g.
Proof. reflexivity. Qed.

(** A tick that finds no lock in force and another candidate starts the
    stability clock. *)
Lemma tick_start (sug : string) (tk : Tick) (w : World) :
  suggestion_of (tick_signals tk) = Some sug ->
  (isLocked (state w) = true -> num_of (lockEndTime (state w)) <= tick_now tk) ->
  currentSuggestion (state w) <> Some sug ->
  stabilizing sug (tick_now tk) (tick tk w)
  /\ commits_fired (tick tk w) = commits_fired w.
Proof.
  intros Hyields Hfree Hother. unfold tick.
  set (fed := on_state (feed (tick_signals tk)) w).
  assert (Hgen : generateSuggestion (state fed) = Some sug).
  { rewrite <- Hyields. apply generateSuggestion_feed. }
  destruct (isLocked (state w)) eqn:Hlocked.
  - rewrite updateSuggestion_expired; [| exact Hlocked | apply Hfree; reflexivity].
    rewrite (evaluateSuggestion_start _ _ sug).
    + split; [|reflexivity]. unfold stabilizing. cbn [state on_state]. repeat split.
    + rewrite <- Hyields. apply generateSuggestion_unlock_feed.
    + exact Hother.
  - rewrite updateSuggestion_unlocked by exact Hlocked.
    rewrite (evaluateSuggestion_start _ _ sug); [| exact Hgen | exact Hother].
    split; [|reflexivity]. unfold stabilizing. cbn [state on_state].
    repeat split. exact Hlocked.
Qed.

Lemma tick_start_keeps_log (sug : string) (tk : Tick) (w : World) :
  suggestion_of (tick_signals tk) = Some sug ->
  (isLocked (state w) = true -> num_of (lockEndTime (state w)) <= tick_now tk) ->
  currentSuggestion (state w) <> Some sug ->
  currentPatient (state (tick tk w)) = currentPatient (state w)
  /\ conversationLog (state (tick tk w)) = conversationLog (state w).
Proof.
  intros Hyields Hfree Hother. unfold tick.
  set (fed := on_state (feed (tick_signals tk)) w).
  assert (Hgen : generateSuggestion (state fed) = Some sug).
  { rewrite <- Hyields. apply generateSuggestion_feed. }
  destruct (isLocked (state w)) eqn:Hlocked.
  - rewrite updateSuggestion_expired; [| exact Hlocked | apply Hfree; reflexivity].
    rewrite (evaluateSuggestion_start _ _ sug).
    + split; reflexivity.
    + rewrite <- Hyields. apply generateSuggestion_unlock_feed.
    + exact Hother.
  - rewrite updateSuggestion_unlocked by exact Hlocked.
    rewrite (evaluateSuggestion_start _ _ sug); [| exact Hgen | exact Hother].
    split; reflexivity.
Qed.

(** While the candidate is younger than the stability time, a tick that
    yields it again waits. *)
Lemma tick_wait (sug : string) (since : Z) (tk : Tick) (w : World) :
  suggestion_of (tick_signals tk) = Some sug ->
  stabilizing sug since w ->
  tick_now tk - since < CONFIG.STABILITY_TIME ->
  stabilizing sug since (tick tk w)
  /\ commits_fired (tick tk w) = commits_fired w.
Proof.
  intros Hyields (Hfree & Hcand & Hsince) Hearly. unfold tick.
  set (fed := on_state (feed (tick_signals tk)) w).
  rewrite updateSuggestion_unlocked by exact Hfree.
  rewrite (evaluateSuggestion_wait _ _ sug).
  - split; [|reflexivity]. unfold stabilizing. cbn [state on_state].
    repeat split; assumption.
  - rewrite <- Hyields. apply generateSuggestion_feed.
  - exact Hcand.
  - change (suggestionStartTime (state fed)) with (suggestionStartTime (state w)).
    rewrite Hsince. exact Hearly.
Qed.

(** Feeding signals and setting the tone leave the commit system, the log
    and the patient alone. *)
Lemma kept_by_feed (g : Signals) (s : State) :
  isLocked (feed g s) = isLocked s
  /\ lockEndTime (feed g s) = lockEndTime s
  /\ currentSuggestion (feed g s) = currentSuggestion s
  /\ suggestionStartTime (feed g s) = suggestionStartTime s
  /\ conversationLog (feed g s) = conversationLog s
  /\ currentPatient (feed g s) = currentPatient s.
Proof. repeat split. Qed.

Lemma kept_by_updateSignalTone (s : State) :
  isLocked (updateSignalTone s) = isLocked s
  /\ lockEndTime (updateSignalTone s) = lockEndTime s
  /\ currentSuggestion (updateSignalTone s) = currentSuggestion s
  /\ suggestionStartTime (updateSignalTone s) = suggestionStartTime s
  /\ conversationLog (updateSignalTone s) = conversationLog s
  /\ currentPatient (updateSignalTone s) = currentPatient s.
Proof. repeat split. Qed.

Lemma tick_wait_keeps_log (sug : string) (since : Z) (tk : Tick) (w : World) :
  suggestion_of (tick_signals tk) = Some sug ->
  stabilizing sug since w ->
  tick_now tk - since < CONFIG.STABILITY_TIME ->
  currentPatient (state (tick tk w)) = currentPatient (state w)
  /\ conversationLog (state (tick tk w)) = conversationLog (state w).
Proof.
  intros Hyields (Hfree & Hcand & Hsince) Hearly. unfold tick.
  rewrite updateSuggestion_unlocked by exact Hfree.
  rewrite (evaluateSuggestion_wait _ _ sug).
  - cbn [state on_state].
    destruct (kept_by_updateSignalTone (feed (tick_signals tk) (state w)))
      as (_ & _ & _ & _ & -> & ->).
    destruct (kept_by_feed (tick_signals tk) (state w)) as (_ & _ & _ & _ & -> & ->).
    split; reflexivity.
  - rewrite <- Hyields. apply generateSuggestion_feed.
  - exact Hcand.
  - cbn [state on_state].
    destruct (kept_by_feed (tick_signals tk) (state w)) as (_ & _ & _ & -> & _).
    rewrite Hsince. exact Hearly.
Qed.

(** Once the candidate is as old as the stability time, the tick that
    yields it again commits it: one commit, the candidate cleared, the lock
    set from the time the commit reads. *)
Lemma tick_commits (sug : string) (since : Z) (tk : Tick) (w : World) :
  suggestion_of (tick_signals tk) = Some sug ->
  stabilizing sug since w ->
  CONFIG.STABILITY_TIME <= tick_now tk - since ->
  commit_view (tick tk w)
  = (None, None, true, Some (commit_now (tick_commit tk) + CONFIG.LOCK_TIME),
     S (commits_fired w),
     take CONFIG.MAX_LOG_ITEMS
       ({| entry_id := log_now (commit_log (tick_commit tk)); entry_message := sug;
           entry_type := "signal";
           entry_timestamp := log_iso (commit_log (tick_commit tk));
           entry_patient := currentPatient (state w) |} :: conversationLog (state w))).
Proof.
  intros Hyields (Hfree & Hcand & Hsince) Hdue. unfold tick.
  set (fed := on_state (feed (tick_signals tk)) w).
  rewrite updateSuggestion_unlocked by exact Hfree.
  rewrite (evaluateSuggestion_commit _ _ sug).
  - set (w1 := on_state updateSignalTone fed).
    destruct (commitMessage_state (tick_commit tk) sug "signal" w1)
      as (Hlock & Hend & _ & _ & _ & _ & Hlog).
    unfold commit_view. cbn [state on_state].
    rewrite commits_fired_on_state, commits_fired_commitMessage.
    set (s1 := state (commitMessage (tick_commit tk) sug "signal" w1)) in *.
    cbn [currentSuggestion suggestionStartTime isLocked lockEndTime conversationLog
         set_suggestionStartTime set_currentSuggestion].
    rewrite Hlock, Hend, Hlog.
    subst w1 fed. cbn [state on_state].
    change (commits_fired (on_state updateSignalTone (on_state (feed (tick_signals tk)) w)))
      with (commits_fired w).
    replace (currentPatient (updateSignalTone (feed (tick_signals tk) (state w))))
      with (currentPatient (state w)) by reflexivity.
    replace (conversationLog (updateSignalTone (feed (tick_signals tk) (state w))))
      with (conversationLog (state w)) by reflexivity.
    reflexivity.
  - rewrite <- Hyields. apply generateSuggestion_feed.
  - exact Hcand.
  - change (suggestionStartTime (state fed)) with (suggestionStartTime (state w)).
    rewrite Hsince. exact Hdue.
Qed.

(** While the lock runs, a tick only stores the signals. *)
Lemma tick_frozen (tk : Tick) (w : World) :
  isLocked (state w) = true ->
  tick_now tk < num_of (lockEndTime (state w)) ->
  tick tk w = on_state (feed (tick_signals tk)) w.
Proof.
  intros Hlocked Hrunning. unfold tick. apply updateSuggestion_frozen; assumption.
Qed.

Lemma commit_view_frozen (tk : Tick) (until : Z) (w : World) :
  isLocked (state w) = true ->
  lockEndTime (state w) = Some until ->
  tick_now tk < until ->
  commit_view (tick tk w) = commit_view w
  /\ isLocked (state (tick tk w)) = true
  /\ lockEndTime (state (tick tk w)) = Some until.
Proof.
  intros Hlocked Hend Hnow.
  rewrite (tick_frozen tk w Hlocked) by (rewrite Hend; exact Hnow).
  split; [reflexivity|]. split; [exact Hlocked | exact Hend].
Qed.

Lemma commit_view_lock (w : World) cand since locked until fired log :
  commit_view w = (cand, since, locked, until, fired, log) ->
  isLocked (state w) = locked /\ lockEndTime (state w) = until.
Proof. unfold commit_view. intros [= _ _ -> -> _ _]. split; reflexivity. Qed.

Lemma fold_left_step {A B} (step : A -> B -> A) (x : B) (l : list B) (a : A) :
  fold_left step (x :: l) a = fold_left step l (step a x).
Proof. reflexivity. Qed.

Lemma run_cons (tk : Tick) (ticks : list Tick) (w : World) :
  run (tk :: ticks) w = run ticks (tick tk w).
Proof. exact (fold_left_step (fun w tk => tick tk w) tk ticks w). Qed.

Lemma run_frozen (ticks : list Tick) (until : Z) (w : World) :
  isLocked (state w) = true ->
  lockEndTime (state w) = Some until ->
  Forall (fun tk => tick_now tk < until) ticks ->
  commit_view (run ticks w) = commit_view w.
Proof.
  revert w. induction ticks as [|tk ticks IH]; intros w Hlocked Hend Hall.
  - reflexivity.
  - rewrite run_cons. apply Forall_cons in Hall as [Hnow Hrest].
    destruct (commit_view_frozen tk until w Hlocked Hend Hnow) as (Hview & Hlocked' & Hend').
    rewrite <- Hview. apply IH; assumption.
Qed.

Lemma run_app (ticks more : list Tick) (w : World) :
  run (ticks ++ more) w = run more (run ticks w).
Proof. exact (fold_left_app (fun w tk => tick tk w) ticks more w). Qed.

(** While the candidate is younger than the stability time, a run that
    yields it again waits. *)
Lemma run_waiting (sug : string) (since : Z) (ticks : list Tick) (w : World) :
  stabilizing sug since w ->
  Forall (fun tk => suggestion_of (tick_signals tk) = Some sug) ticks ->
  Forall (fun tk => tick_now tk - since < CONFIG.STABILITY_TIME) ticks ->
  stabilizing sug since (run ticks w)
  /\ commits_fired (run ticks w) = commits_fired w
  /\ currentPatient (state (run ticks w)) = currentPatient (state w)
  /\ conversationLog (state (run ticks w)) = conversationLog (state w).
Proof.
  revert w. induction ticks as [|tk ticks IH]; intros w Hstab Hyield Hearly.
  - repeat split; apply Hstab.
  - apply Forall_cons in Hyield as [Hy Hyield].
    apply Forall_cons in Hearly as [He Hearly].
    rewrite run_cons.
    destruct (tick_wait sug since tk w Hy Hstab He) as [Hstab' Hcount].
    destruct (tick_wait_keeps_log sug since tk w Hy Hstab He) as [Hpat Hlog].
    destruct (IH (tick tk w) Hstab' Hyield Hearly) as (H1 & H2 & H3 & H4).
    rewrite H2, H3, H4, Hcount, Hpat, Hlog. repeat split; apply H1.
Qed.

Lemma commit_view_all (w : World) cand since locked until fired log :
  commit_view w = (cand, since, locked, until, fired, log) ->
  currentSuggestion (state w) = cand /\ suggestionStartTime (state w) = since
  /\ isLocked (state w) = locked /\ lockEndTime (state w) = until
  /\ commits_fired w = fired /\ conversationLog (state w) = log.
Proof. unfold commit_view. intros [= -> -> -> -> -> ->]. repeat split. Qed.

(** C1, as the code has it.  A run of ticks that all yield the same
    suggestion [sug], begun when no lock is in force and the candidate is not
    [sug]: the ticks younger than 800ms wait, the first tick [tc] 800ms or
    more after the start commits, and no tick after it commits while it
    falls before the end of the lock that commit set.  The commit clears the
    candidate and its start time, locks the machine until the time the
    commit read plus 4000ms, and logs [sug] as a signal. *)
Theorem sustained_suggestion_commits_once
    (sug : string) (t0 : Tick) (before : list Tick) (tc : Tick) (after : list Tick)
    (w : World) :
  (isLocked (state w) = true -> num_of (lockEndTime (state w)) <= tick_now t0) ->
  currentSuggestion (state w) <> Some sug ->
  Forall (fun tk => suggestion_of (tick_signals tk) = Some sug)
         (t0 :: before ++ tc :: after) ->
  Forall (fun tk => tick_now tk - tick_now t0 < CONFIG.STABILITY_TIME) before ->
  CONFIG.STABILITY_TIME <= tick_now tc - tick_now t0 ->
  Forall (fun tk => tick_now tk < commit_now (tick_commit tc) + CONFIG.LOCK_TIME) after ->
  let waited := run (t0 :: before) w in
  let w' := run (t0 :: before ++ tc :: after) w in
  stabilizing sug (tick_now t0) waited
  /\ commits_fired waited = commits_fired w
  /\ commits_fired (tick tc waited) = S (commits_fired w)
  /\ commits_fired w' = S (commits_fired w)
  /\ currentSuggestion (state w') = None
  /\ suggestionStartTime (state w') = None
  /\ isLocked (state w') = true
  /\ lockEndTime (state w') = Some (commit_now (tick_commit tc) + CONFIG.LOCK_TIME)
  /\ head (conversationLog (state w'))
     = Some {| entry_id := log_now (commit_log (tick_commit tc));
               entry_message := sug; entry_type := "signal";
               entry_timestamp := log_iso (commit_log (tick_commit tc));
               entry_patient := currentPatient (state w) |}.
Proof.
  intros Hfree Hother Hyield Hearly Hdue Hwindow waited w'. subst waited w'.
  apply Forall_cons in Hyield as [Hy0 Hyield].
  apply Forall_app in Hyield as [Hybefore Hyield].
  apply Forall_cons in Hyield as [Hyc Hyafter].
  destruct (tick_start sug t0 w Hy0 Hfree Hother) as [Hstab Hcount].
  destruct (tick_start_keeps_log sug t0 w Hy0 Hfree Hother) as [Hpat Hlog].
  destruct (run_waiting sug (tick_now t0) before (tick t0 w) Hstab Hybefore Hearly)
    as (Hstab' & Hcount' & Hpat' & Hlog').
  rewrite !run_cons, run_app, run_cons.
  set (waited := run before (tick t0 w)) in *.
  pose proof (tick_commits sug (tick_now t0) tc waited Hyc Hstab' Hdue) as Hview.
  destruct (commit_view_lock _ _ _ _ _ _ _ Hview) as [Hlocked Hend].
  pose proof (run_frozen after (commit_now (tick_commit tc) + CONFIG.LOCK_TIME)
                (tick tc waited) Hlocked Hend Hwindow) as Hfrozen.
  rewrite Hview in Hfrozen.
  destruct (commit_view_all _ _ _ _ _ _ _ Hview) as (_ & _ & _ & _ & Hfired & _).
  destruct (commit_view_all _ _ _ _ _ _ _ Hfrozen)
    as (Hcand & Hsince & Hlocked' & Hend' & Hfired' & Hlogged).
  rewrite Hcand, Hsince, Hlocked', Hend', Hfired, Hfired', Hlogged,
    Hcount', Hcount, Hpat', Hpat.
  split; [exact Hstab'|]. repeat (split; [reflexivity|]). reflexivity.
Qed.

Lemma evaluateSuggestion_commit_view (now : Z) (c : CommitClock) (sug : string)
    (w : World) :
  generateSuggestion (state w) = Some sug ->
  currentSuggestion (state w) = Some sug ->
  CONFIG.STABILITY_TIME <= now - num_of (suggestionStartTime (state w)) ->
  commit_view (evaluateSuggestion now c w)
  = (None, None, true, Some (commit_now c + CONFIG.LOCK_TIME), S (commits_fired w),
     take CONFIG.MAX_LOG_ITEMS
       ({| entry_id := log_now (commit_log c); entry_message := sug;
           entry_type := "signal"; entry_timestamp := log_iso (commit_log c);
           entry_patient := currentPatient (state w) |} :: conversationLog (state w))).
Proof.
  intros Hgen Hcand Hdue.
  rewrite (evaluateSuggestion_commit now c sug w Hgen Hcand Hdue).
  set (w1 := on_state updateSignalTone w).
  destruct (commitMessage_state c sug "signal" w1)
    as (Hlock & Hend & _ & _ & _ & _ & Hlog).
  unfold commit_view. cbn [state on_state].
  rewrite commits_fired_on_state, commits_fired_commitMessage.
  set (s1 := state (commitMessage c sug "signal" w1)) in *.
  cbn [currentSuggestion suggestionStartTime isLocked lockEndTime conversationLog
       set_suggestionStartTime set_currentSuggestion].
  rewrite Hlock, Hend, Hlog.
  subst w1. cbn [state on_state].
  change (commits_fired (on_state updateSignalTone w)) with (commits_fired w).
  replace (currentPatient (updateSignalTone (state w)))
    with (currentPatient (state w)) by reflexivity.
  replace (conversationLog (updateSignalTone (state w)))
    with (conversationLog (state w)) by reflexivity.
  reflexivity.
Qed.

(** C2.  A tick that finds the lock running returns at once, whatever
    signals it is fed: the world with the signals stays as it is, so the rule
    engine is not consulted, the candidate is untouched and no commit fires.
    A tick that finds the lock run out lifts the lock and acts on what the
    rule engine yields at that same tick: no suggestion clears the
    candidate; a suggestion other than the candidate becomes the candidate,
    stamped with the time of the tick; the candidate itself waits while
    younger than 800ms and is committed once it is that old, which locks the
    machine anew. *)
Theorem locked_tick (now : Z) (c : CommitClock) (w : World) :
  isLocked (state w) = true ->
  (now < num_of (lockEndTime (state w)) ->
     forall g : Signals,
       let fed := on_state (feed g) w in
       updateSuggestion now c fed = fed
       /\ commits_fired (updateSuggestion now c fed) = commits_fired w
       /\ currentSuggestion (state (updateSuggestion now c fed))
          = currentSuggestion (state w))
  /\ (num_of (lockEndTime (state w)) <= now ->
     let w' := updateSuggestion now c w in
     w' = evaluateSuggestion now c (on_state (set_isLocked false) w)
     /\ (generateSuggestion (state w) = None ->
         isLocked (state w') = false
         /\ currentSuggestion (state w') = None
         /\ suggestionStartTime (state w') = None
         /\ commits_fired w' = commits_fired w)
     /\ (forall sug, generateSuggestion (state w) = Some sug ->
         currentSuggestion (state w) <> Some sug ->
         stabilizing sug now w' /\ commits_fired w' = commits_fired w)
     /\ (forall sug, generateSuggestion (state w) = Some sug ->
         currentSuggestion (state w) = Some sug ->
         now - num_of (suggestionStartTime (state w)) < CONFIG.STABILITY_TIME ->
         isLocked (state w') = false
         /\ currentSuggestion (state w') = Some sug
         /\ suggestionStartTime (state w') = suggestionStartTime (state w)
         /\ commits_fired w' = commits_fired w)
     /\ (forall sug, generateSuggestion (state w) = Some sug ->
         currentSuggestion (state w) = Some sug ->
         CONFIG.STABILITY_TIME <= now - num_of (suggestionStartTime (state w)) ->
         commit_view w'
         = (None, None, true, Some (commit_now c + CONFIG.LOCK_TIME),
            S (commits_fired w),
            take CONFIG.MAX_LOG_ITEMS
              ({| entry_id := log_now (commit_log c); entry_message := sug;
                  entry_type := "signal"; entry_timestamp := log_iso (commit_log c);
                  entry_patient := currentPatient (state w) |}
               :: conversationLog (state w))))).
Proof.
  intros Hlocked. split.
  - intros Hrunning g fed.
    assert (Hsame : updateSuggestion now c fed = fed).
    { apply updateSuggestion_frozen; [exact Hlocked | exact Hrunning]. }
    rewrite Hsame. repeat split.
  - intros Hout. cbn zeta.
    rewrite (updateSuggestion_expired now c w Hlocked Hout).
    set (u := on_state (set_isLocked false) w).
    assert (Hgen : generateSuggestion (state u) = generateSuggestion (state w))
      by reflexivity.
    assert (Hcand : currentSuggestion (state u) = currentSuggestion (state w))
      by reflexivity.
    assert (Hsince : suggestionStartTime (state u) = suggestionStartTime (state w))
      by reflexivity.
    split; [reflexivity|]. split; [|split; [|split]].
    + intros Hnone. rewrite evaluateSuggestion_none by (rewrite Hgen; exact Hnone).
      repeat split.
    + intros sug Hyields Hother.
      rewrite (evaluateSuggestion_start now c sug u);
        [| rewrite Hgen; exact Hyields | rewrite Hcand; exact Hother].
      split; [|reflexivity]. unfold stabilizing. cbn [state on_state]. repeat split.
    + intros sug Hyields Hsame Hearly.
      rewrite (evaluateSuggestion_wait now c sug u);
        [| rewrite Hgen; exact Hyields | rewrite Hcand; exact Hsame
         | rewrite Hsince; exact Hearly].
      cbn [state on_state]. repeat split. exact Hsame.
    + intros sug Hyields Hsame Hdue.
      rewrite (evaluateSuggestion_commit_view now c sug u);
        [| rewrite Hgen; exact Hyields | rewrite Hcand; exact Hsame
         | rewrite Hsince; exact Hdue].
      reflexivity.
Qed.

(** After a commit at 100000 a smile is fed: at 103999 the lock still runs
    and the tick returns at once; at 104000 the lock is lifted and the smile
    becomes the candidate, stamped 104000. *)
Lemma locked_tick_witness :
  let w := commitMessage (frame_commit (clock_at 100000)) "Yes" "signal" camera_on in
  let fed := on_state (feed smile_signals) w in
  isLocked (state w) = true
  /\ updateSuggestion 103999 (frame_commit (clock_at 103999)) fed = fed
  /\ stabilizing "Feeling happy" 104000
       (updateSuggestion 104000 (frame_commit (clock_at 104000)) fed).
Proof.
  cbn zeta.
  set (w := commitMessage (frame_commit (clock_at 100000)) "Yes" "signal" camera_on).
  assert (Hlocked : isLocked (state w) = true) by reflexivity.
  split; [exact Hlocked|].
  split.
  - destruct (locked_tick 103999 (frame_commit (clock_at 103999)) w Hlocked)
      as [Hfrozen _].
    apply (Hfrozen ltac:(vm_compute; reflexivity) smile_signals).
  - assert (Hfed : isLocked (state (on_state (feed smile_signals) w)) = true)
      by reflexivity.
    destruct (locked_tick 104000 (frame_commit (clock_at 104000))
                (on_state (feed smile_signals) w) Hfed) as [_ Hexpired].
    destruct (Hexpired ltac:(vm_compute; discriminate)) as (_ & _ & Hstart & _).
    apply (Hstart "Feeling happy").
    + vm_compute. reflexivity.
    + intros Hcand. vm_compute in Hcand. discriminate Hcand.
Defined.

(** A run of ticks every 400ms from 100000 on a steady smile, the run
    before the commit being [100000; 100400] and the ticks after it falling
    within the lock. *)
Lemma sustained_suggestion_commits_once_witness :
  let t0 := tick_at smile_signals 100000 in
  let before := [tick_at smile_signals 100400] in
  let tc := tick_at smile_signals 100800 in
  let after := List.map (tick_at smile_signals) [101200; 104700] in
  isLocked (state camera_on) = false
  /\ currentSuggestion (state camera_on) <> Some "Feeling happy"
  /\ commits_fired (run (t0 :: before ++ tc :: after) camera_on) = 1%nat
  /\ isLocked (state (run (t0 :: before ++ tc :: after) camera_on)) = true.
Proof.
  cbn zeta.
  assert (Hother : currentSuggestion (state camera_on) <> Some "Feeling happy")
    by discriminate.
  split; [reflexivity|]. split; [exact Hother|].
  destruct (sustained_suggestion_commits_once "Feeling happy"
              (tick_at smile_signals 100000)
              [tick_at smile_signals 100400]
              (tick_at smile_signals 100800)
              (List.map (tick_at smile_signals) [101200; 104700])
              camera_on)
    as (_ & _ & _ & Hfired & _ & _ & Hlocked & _).
  - discriminate.
  - exact Hother.
  - repeat constructor.
  - repeat constructor.
  - vm_compute. discriminate.
  - repeat constructor.
  - split; [exact Hfired | exact Hlocked].
Defined.

(** C1, as stated, fails on a run that outlasts the lock: ticks every
    400ms from 100000 to 105600 all yield the same suggestion with no lock in
    force at the start; the candidate is committed at 100800, the lock runs
    out at 104800, the suggestion becomes the candidate again there and is
    committed a second time at 105600. *)
Lemma sustained_run_commits_twice :
  let ticks := List.map (fun i : nat => tick_at smile_signals (100000 + 400 * Z.of_nat i))
                        (seq 0 15) in
  Forall (fun tk => suggestion_of (tick_signals tk) = Some "Feeling happy") ticks
  /\ isLocked (state camera_on) = false
  /\ currentSuggestion (state camera_on) = None
  /\ List.map tick_now ticks
     = [100000; 100400; 100800; 101200; 101600; 102000; 102400; 102800; 103200;
        103600; 104000; 104400; 104800; 105200; 105600]
  /\ commits_fired (run (take 3 ticks) camera_on) = 1%nat
  /\ commits_fired (run (take 14 ticks) camera_on) = 1%nat
  /\ commits_fired (run ticks camera_on) = 2%nat.
Proof.
  cbn zeta. split; [repeat constructor|].
  repeat split; vm_compute; reflexivity.
Qed.

(** * Further properties *)

(** ** Gesture tracker *)

Lemma direction_cases (d t : Q) :
  (0 <= t)%Q ->
  (direction d t = 1 /\ (t < d)%Q)
  \/ (direction d t = -1 /\ (d < - t)%Q)
  \/ (direction d t = 0 /\ (- t <= d <= t)%Q).
Proof.
  intros Ht. unfold direction, Qltb.
  destruct (Qgtb d t) eqn:Hup.
  - left. split; [reflexivity|]. apply Qgtb_spec. exact Hup.
  - destruct (Qgtb (- t) d) eqn:Hdown.
    + right; left. split; [reflexivity|]. apply Qgtb_spec. exact Hdown.
    + right; right. split; [reflexivity|].
      unfold Qgtb in Hup, Hdown. apply negb_false_iff in Hup, Hdown.
      apply Qle_bool_iff in Hup, Hdown. split; assumption.
Qed.

Lemma direction_one_way (sense : Z) (d t : Q) :
  (0 <= t)%Q -> sense = 1 \/ sense = -1 ->
  (- t <= inject_Z sense * d)%Q ->
  direction d t = 0 \/ direction d t = sense.
Proof.
  intros Ht Hsense Hd.
  destruct (direction_cases d t Ht) as [[-> Hup]|[[-> Hdown]|[-> _]]]; [| |auto].
  - destruct Hsense as [->| ->]; [auto|]. exfalso.
    change (inject_Z (-1)) with (-1 # 1)%Q in Hd. lra.
  - destruct Hsense as [->| ->]; [|auto]. exfalso.
    change (inject_Z 1) with (1 # 1)%Q in Hd. lra.
Qed.

Lemma gesture_loop_one_way (sx sy : Z) (prev : NoseSample) (rest : list NoseSample)
    (a : GestureAcc) :
  sx = 1 \/ sx = -1 -> sy = 1 \/ sy = -1 ->
  one_way sx sy prev rest ->
  (lastXDir a = 0 \/ lastXDir a = sx) -> (lastYDir a = 0 \/ lastYDir a = sy) ->
  xChanges (gesture_loop prev rest a) = xChanges a
  /\ yChanges (gesture_loop prev rest a) = yChanges a.
Proof.
  intros Hsx Hsy. revert prev a.
  induction rest as [|cur rest IH]; intros prev a Hway Hx Hy.
  - split; reflexivity.
  - destruct Hway as (Hwx & Hwy & Hrest). cbn [gesture_loop].
    assert (Hdx := direction_one_way sx (nx cur - nx prev) CONFIG.SHAKE_THRESHOLD
                     ltac:(discriminate) Hsx Hwx).
    assert (Hdy := direction_one_way sy (ny cur - ny prev) CONFIG.NOD_THRESHOLD
                     ltac:(discriminate) Hsy Hwy).
    destruct (IH cur (gesture_step prev cur a) Hrest) as [IHx IHy].
    + unfold gesture_step; cbn [lastXDir].
      destruct Hdx as [->| ->]; [exact Hx|]. destruct Hsx as [->| ->]; cbn; auto.
    + unfold gesture_step; cbn [lastYDir].
      destruct Hdy as [->| ->]; [exact Hy|]. destruct Hsy as [->| ->]; cbn; auto.
    + rewrite IHx, IHy. unfold gesture_step; cbn [xChanges yChanges].
      destruct Hdx as [->| ->], Hdy as [->| ->], Hx as [->| ->], Hy as [->| ->],
               Hsx as [->| ->], Hsy as [->| ->]; split; reflexivity.
Qed.

(** X1.  A head that drifts, however far, without turning back is still: when
    over the last ten samples no step goes against a fixed sense by more
    than the threshold on either axis, the gesture is [still]. *)
Theorem drift_is_still (sx sy : Z) (s : State) (p0 : NoseSample) (rest : list NoseSample) :
  sx = 1 \/ sx = -1 -> sy = 1 \/ sy = -1 ->
  slice_last CONFIG.GESTURE_FRAMES (noseHistory s) = p0 :: rest ->
  one_way sx sy p0 rest ->
  detectHeadGesture s = still.
Proof.
  intros Hsx Hsy Hwindow Hway. unfold detectHeadGesture.
  case_match; [reflexivity|]. rewrite Hwindow.
  destruct (gesture_loop_one_way sx sy p0 rest
              {| xChanges := 0; yChanges := 0; lastXDir := 0; lastYDir := 0 |}
              Hsx Hsy Hway (or_introl eq_refl) (or_introl eq_refl)) as [-> ->].
  reflexivity.
Qed.

Lemma drift_is_still_witness :
  detectHeadGesture (set_noseHistory (sliding 0.05) initial_state) = still.
Proof.
  apply (drift_is_still 1 1 _ {| nx := 0.5; ny := 0.1 + inject_Z 0 * 0.05; ntime := 100000 |}
           (tail (sliding 0.05))); [auto | auto | reflexivity |].
  vm_compute. repeat split; discriminate.
Defined.

Lemma gesture_loop_zigzag (up : bool) (prev : NoseSample) (rest : list NoseSample)
    (a : GestureAcc) :
  zigzag up prev rest ->
  lastYDir a = 0 \/ lastYDir a = (if up then -1 else 1) ->
  (yChanges a + length rest
   <= (if (lastYDir a =? 0)%Z then 1 else 0) + yChanges (gesture_loop prev rest a))%nat.
Proof.
  revert up prev a. induction rest as [|cur rest IH]; intros up prev a Hzig Hlast.
  - cbn. lia.
  - destruct Hzig as [Hstep Hrest]. cbn [gesture_loop length].
    assert (Hdir : direction (ny cur - ny prev) CONFIG.NOD_THRESHOLD
                   = if up then 1 else -1).
    { destruct (direction_cases (ny cur - ny prev) CONFIG.NOD_THRESHOLD
                  ltac:(discriminate)) as [[Hd Hlt]|[[Hd Hlt]|[Hd [Hlo Hhi]]]];
        destruct up; try exact Hd; exfalso; unfold CONFIG.NOD_THRESHOLD in *; lra. }
    assert (Hnext : lastYDir (gesture_step prev cur a) = if up then 1 else -1).
    { unfold gesture_step; cbn [lastYDir]. rewrite Hdir. destruct up; reflexivity. }
    assert (IH' := IH (negb up) cur (gesture_step prev cur a) Hrest
                      ltac:(right; rewrite Hnext; destruct up; reflexivity)).
    rewrite Hnext in IH'.
    assert (Hcount : yChanges (gesture_step prev cur a)
                     = if lastYDir a =? 0 then yChanges a else S (yChanges a)).
    { unfold gesture_step; cbn [yChanges]. rewrite Hdir.
      destruct Hlast as [->| ->]; destruct up; reflexivity. }
    rewrite Hcount in IH'.
    destruct (lastYDir a =? 0); destruct up; cbn in IH'; lia.
Qed.

(** X2.  A nod is seen whatever the head does sideways: when the last ten
    samples alternate vertically, each step beyond the nod threshold, the
    gesture is [nod]. *)
Theorem zigzag_is_nod (up : bool) (s : State) (p0 : NoseSample) (rest : list NoseSample) :
  (CONFIG.GESTURE_FRAMES <= length (noseHistory s))%nat ->
  slice_last CONFIG.GESTURE_FRAMES (noseHistory s) = p0 :: rest ->
  zigzag up p0 rest ->
  detectHeadGesture s = nod.
Proof.
  intros Hlen Hwindow Hzig. unfold detectHeadGesture.
  rewrite (proj2 (Nat.ltb_ge _ _) Hlen), Hwindow.
  assert (Hrest : length rest = 9%nat).
  { assert (Hten : length (slice_last CONFIG.GESTURE_FRAMES (noseHistory s)) = 10%nat).
    { unfold slice_last. rewrite length_drop. unfold CONFIG.GESTURE_FRAMES in *. lia. }
    rewrite Hwindow in Hten. cbn in Hten. lia. }
  pose proof (gesture_loop_zigzag up p0 rest
                {| xChanges := 0; yChanges := 0; lastXDir := 0; lastYDir := 0 |}
                Hzig (or_introl eq_refl)) as Hcount.
  cbn [yChanges lastYDir] in Hcount. rewrite Hrest in Hcount. cbn in Hcount.
  rewrite (proj2 (Nat.leb_le 2 _)) by lia. reflexivity.
Qed.

Lemma zigzag_is_nod_witness :
  detectHeadGesture (set_noseHistory (nodding 0.02) initial_state) = nod.
Proof.
  apply (zigzag_is_nod true _ {| nx := 0.5; ny := 0.4; ntime := 100000 + 40 * Z.of_nat 0 |}
           (tail (nodding 0.02))); [vm_compute; lia | reflexivity |].
  vm_compute. repeat split; reflexivity.
Defined.

(** ** Nose history *)

(** X3.  The history after a nose update is the old history with the new
    sample appended, less the samples not stamped after the cutoff reading
    minus 500ms, order kept; while fewer than ten samples remain the
    gesture and the movement score keep the values they had. *)
Theorem trackNose_window (fc : FrameClock) (noseTip : Point) (s : State) :
  let s' := trackNose fc noseTip s in
  let sample := {| nx := px noseTip; ny := py noseTip; ntime := push_now fc |} in
  noseHistory s'
  = List.filter (fun p => cutoff_now fc - 500 <? ntime p) (noseHistory s ++ [sample])
  /\ Forall (fun p => cutoff_now fc - 500 < ntime p) (noseHistory s')
  /\ ((length (noseHistory s') < CONFIG.GESTURE_FRAMES)%nat ->
      headGesture s' = headGesture s /\ movementScore s' = movementScore s).
Proof.
  cbn zeta. unfold trackNose.
  set (kept := List.filter _ _).
  assert (Hhist : forall b : bool,
            noseHistory (if b
              then match noseHistory (set_headGesture
                             (detectHeadGesture (set_noseHistory kept s))
                             (set_noseHistory kept s)),
                         last (noseHistory (set_headGesture
                             (detectHeadGesture (set_noseHistory kept s))
                             (set_noseHistory kept s))) with
                   | first :: _, Some lst =>
                     set_movementScore
                       (Qmin 1 ((Qabs (nx lst - nx first) + Qabs (ny lst - ny first)) * 5))
                       (set_headGesture (detectHeadGesture (set_noseHistory kept s))
                          (set_noseHistory kept s))
                   | _, _ => set_headGesture (detectHeadGesture (set_noseHistory kept s))
                               (set_noseHistory kept s)
                   end
              else set_noseHistory kept s) = kept).
  { intros []; [|reflexivity]. cbn [noseHistory set_headGesture set_noseHistory].
    destruct kept; [reflexivity|]. destruct (last _); reflexivity. }
  cbn [noseHistory set_noseHistory] in *.
  rewrite Hhist. split; [reflexivity|]. split.
  - subst kept. apply List.Forall_forall. intros p Hin.
    apply filter_In in Hin as [_ Hlate]. apply Z.ltb_lt. exact Hlate.
  - intros Hfew. rewrite (proj2 (Nat.leb_gt _ _) Hfew). split; reflexivity.
Qed.

Lemma trackNose_window_witness :
  let s' := trackNose (clock_at 100600) (pt 0.5 0.4)
                      (set_noseHistory (nodding 0.02) initial_state) in
  List.map ntime (noseHistory s') = [100120; 100160; 100200; 100240; 100280; 100320; 100360; 100600]
  /\ headGesture s' = still.
Proof.
  cbn zeta.
  destruct (trackNose_window (clock_at 100600) (pt 0.5 0.4)
              (set_noseHistory (nodding 0.02) initial_state)) as (Hhist & _ & Hfew).
  split.
  - rewrite Hhist. vm_compute. reflexivity.
  - destruct Hfew as [Hgesture _]; [rewrite Hhist; vm_compute; lia|].
    rewrite Hgesture. reflexivity.
Defined.

(** ** Ranges of the scores *)

(** Linear arithmetic over the rationals, halves and thirds written as
    factors. *)
Ltac qlra :=
  unfold Qdiv in *;
  change (/ 2)%Q with (1 # 2)%Q in *; change (/ 3)%Q with (1 # 3)%Q in *;
  lra.

Lemma in01_clamp01 (v : Q) : in01 (clamp01 v).
Proof.
  unfold in01, clamp01. split.
  - apply Q.le_max_l.
  - apply Q.max_lub; [discriminate | apply Q.le_min_l].
Qed.

Lemma in01_zero : in01 0.
Proof. split; discriminate. Qed.

Lemma in01_one : in01 1.
Proof. split; discriminate. Qed.

Lemma in01_min_one (v : Q) : (0 <= v)%Q -> in01 (Qmin 1 v).
Proof.
  intros Hv. split.
  - apply Q.min_glb; [discriminate | exact Hv].
  - apply Q.le_min_l.
Qed.

Lemma in01_max_zero (v : Q) : (v <= 1)%Q -> in01 (Qmax 0 v).
Proof.
  intros Hv. split.
  - apply Q.le_max_l.
  - apply Q.max_lub; [discriminate | exact Hv].
Qed.

Lemma in01_max (a b : Q) : in01 a -> in01 b -> in01 (Qmax a b).
Proof.
  intros [Ha0 Ha1] [Hb0 Hb1]. split.
  - apply Qle_trans with a; [exact Ha0 | apply Q.le_max_l].
  - apply Q.max_lub; assumption.
Qed.

Lemma in01_getBlendshape (shapes : list Category) (name : string) :
  Forall (fun b => in01 (score b)) shapes -> in01 (getBlendshape shapes name).
Proof.
  intros Hall. unfold getBlendshape.
  destruct (List.find _ shapes) as [shape|] eqn:Hfind; [|apply in01_zero].
  apply find_some in Hfind as [Hin _].
  rewrite List.Forall_forall in Hall. apply Hall. exact Hin.
Qed.

(** The movement score a nose update may write. *)
Lemma trackNose_movement (fc : FrameClock) (noseTip : Point) (s : State) :
  in01 (movementScore s) -> in01 (movementScore (trackNose fc noseTip s)).
Proof.
  intros Hbefore. unfold trackNose.
  case_match; [|exact Hbefore].
  repeat case_match; try exact Hbefore.
  cbn [movementScore set_movementScore]. apply in01_min_one.
  pose proof (Qabs_nonneg (nx n0 - nx n)). pose proof (Qabs_nonneg (ny n0 - ny n)).
  nra.
Qed.

Lemma movementScore_updateSuggestion (now : Z) (c : CommitClock) (w : World) :
  movementScore (state (updateSuggestion now c w)) = movementScore (state w).
Proof. exact (f_equal sg_movementScore (signals_updateSuggestion now c w)). Qed.

Lemma scalar_fields_signals (s1 s2 : State) :
  signals_of s1 = signals_of s2 -> scalar_fields s1 = scalar_fields s2.
Proof.
  intros Hsig. unfold scalar_fields.
  change (smileScore s1) with (sg_smileScore (signals_of s1)).
  change (mouthOpenScore s1) with (sg_mouthOpenScore (signals_of s1)).
  change (movementScore s1) with (sg_movementScore (signals_of s1)).
  change (emotionScores s1) with (sg_emotionScores (signals_of s1)).
  rewrite Hsig. reflexivity.
Qed.

Lemma in_range_iff (s : State) :
  Forall in01 (scalar_fields s)
  <-> in01 (smileScore s) /\ in01 (mouthOpenScore s) /\ in01 (movementScore s)
      /\ in01 (happy (emotionScores s)) /\ in01 (sad (emotionScores s))
      /\ in01 (surprised (emotionScores s)) /\ in01 (neutral (emotionScores s)).
Proof.
  unfold scalar_fields. rewrite !List.Forall_cons_iff. split.
  - intros (H1 & H2 & H3 & H4 & H5 & H6 & H7 & _). auto 10.
  - intros (H1 & H2 & H3 & H4 & H5 & H6 & H7). auto 10.
Qed.

Lemma scalar_fields_trackNose (fc : FrameClock) (noseTip : Point) (s : State) :
  Forall in01 (scalar_fields s) ->
  Forall in01 (scalar_fields (trackNose fc noseTip s)).
Proof.
  rewrite !in_range_iff. intros (H1 & H2 & H3 & H4 & H5 & H6 & H7).
  destruct (trackNose_frame fc noseTip s) as (-> & -> & -> & _).
  pose proof (trackNose_movement fc noseTip s H3). auto 10.
Qed.

Lemma scalar_fields_no_face (s : State) : Forall in01 (scalar_fields (no_face s)).
Proof.
  apply in_range_iff. unfold no_face. cbn.
  pose proof in01_zero. pose proof in01_one. auto 10.
Qed.

(** X4.  With blendshapes whose scores lie in [0,1], a processed sample
    leaves every scalar signal field in [0,1], whatever the landmarks are
    (well formed, malformed or absent), provided the fields were in range
    before. *)
Theorem blendshape_path_in_range (fc : FrameClock) (r : FaceLandmarkerResult) (w : World) :
  Forall in01 (scalar_fields (state w)) ->
  Forall (fun b => in01 (score b)) (blendshapes_of r) ->
  blendshapes_of r <> [] ->
  Forall in01 (scalar_fields (state (fst (processResults fc (Some r) w)))).
Proof.
  intros Hbefore Hshapes Hsome.
  destruct (faceLandmarks r) as [[|landmarks others]|] eqn:Hface;
    [rewrite processResults_no_face by auto; apply scalar_fields_no_face
    | | rewrite processResults_no_face by auto; apply scalar_fields_no_face].
  destruct (blendshapes_of r) as [|b shapes] eqn:Hb; [congruence|].
  destruct (landmark landmarks 291) as [rightCorner|] eqn:Hright;
    [|rewrite (processResults_incomplete fc r w landmarks others Hface); auto].
  destruct (landmark landmarks 61) as [leftCorner|] eqn:Hleft;
    [|rewrite (processResults_incomplete fc r w landmarks others Hface); auto].
  destruct (landmark landmarks 14) as [lowerLip|] eqn:Hlower;
    [|rewrite (processResults_incomplete fc r w landmarks others Hface); auto].
  destruct (landmark landmarks 13) as [upperLip|] eqn:Hupper;
    [|rewrite (processResults_incomplete fc r w landmarks others Hface); auto].
  unfold processResults. rewrite Hface, Hb, Hright, Hleft, Hlower, Hupper.
  change (length (b :: shapes) =? 0)%nat with false. cbv iota.
  set (all := b :: shapes) in *.
  set (w1 := on_state _ w).
  assert (Hmut : Forall in01 (scalar_fields (state w1))).
  { pose proof (in01_getBlendshape all "mouthSmileLeft" Hshapes) as [? ?].
    pose proof (in01_getBlendshape all "mouthSmileRight" Hshapes) as [? ?].
    pose proof (in01_getBlendshape all "mouthFrownLeft" Hshapes) as [? ?].
    pose proof (in01_getBlendshape all "mouthFrownRight" Hshapes) as [? ?].
    pose proof (in01_getBlendshape all "browDownLeft" Hshapes) as [? ?].
    pose proof (in01_getBlendshape all "browDownRight" Hshapes) as [? ?].
    pose proof (in01_getBlendshape all "browInnerUp" Hshapes) as [? ?].
    pose proof (in01_getBlendshape all "browOuterUpLeft" Hshapes) as [? ?].
    pose proof (in01_getBlendshape all "browOuterUpRight" Hshapes) as [? ?].
    pose proof (in01_getBlendshape all "eyeWideLeft" Hshapes) as [? ?].
    pose proof (in01_getBlendshape all "eyeWideRight" Hshapes) as [? ?].
    pose proof (in01_getBlendshape all "jawOpen" Hshapes) as Hjaw.
    assert (Hsmile : in01 (smileScore (state w1))).
    { apply in01_max; [split; qlra | apply in01_clamp01]. }
    apply in_range_iff in Hbefore as (_ & _ & Hmove & _).
    assert (Hhappy : in01 (happy (emotionScores (state w1)))).
    { apply in01_min_one. destruct Hsmile as [Hs0 _].
      change (0 <= smileScore (state w1) * 2)%Q. qlra. }
    assert (Hsad : in01 (sad (emotionScores (state w1)))).
    { apply in01_min_one. qlra. }
    assert (Hsurprised : in01 (surprised (emotionScores (state w1)))).
    { apply in01_min_one. cbn [browScore eyeOpenScore set_mouthOpenScore set_eyeOpenScore
        set_browScore set_emotionScores]. destruct Hjaw. qlra. }
    assert (Hneutral : in01 (neutral (emotionScores (state w1)))).
    { apply in01_max_zero.
      destruct Hhappy as [Hh _], Hsad as [Hs _], Hsurprised as [Hu _].
      change (1 - happy (emotionScores (state w1)) - sad (emotionScores (state w1))
              - surprised (emotionScores (state w1)) <= 1)%Q.
      qlra. }
    apply in_range_iff. auto 10. }
  destruct (landmark landmarks 4) as [noseTip|]; cbv zeta; cbn [fst]; [|exact Hmut].
  rewrite (scalar_fields_signals _ _ (signals_updateSuggestion _ _ _)).
  cbn [state on_state]. apply scalar_fields_trackNose. exact Hmut.
Qed.

Lemma blendshape_path_in_range_witness :
  Forall in01 (scalar_fields (state camera_on))
  /\ blendshapes_of smiling <> []
  /\ Forall in01 (scalar_fields
                    (state (fst (processResults (clock_at 100000) (Some smiling)
                                   camera_on)))).
Proof.
  assert (Hbefore : Forall in01 (scalar_fields (state camera_on))).
  { apply in_range_iff. vm_compute. repeat split; discriminate. }
  assert (Hsome : blendshapes_of smiling <> []) by discriminate.
  split; [exact Hbefore|]. split; [exact Hsome|].
  apply (blendshape_path_in_range (clock_at 100000) smiling camera_on Hbefore);
    [|exact Hsome].
  repeat constructor; vm_compute; discriminate.
Defined.

(** X5.  Without blendshapes a processed sample leaves the smile, the mouth
    opening, the movement and the happy, surprised and neutral scores in
    [0,1] and the sad score at or above 0, provided the fields were in range
    before. *)
Theorem fallback_path_ranges (fc : FrameClock) (r : FaceLandmarkerResult) (w : World) :
  Forall in01 (scalar_fields (state w)) ->
  blendshapes_of r = [] ->
  let s' := state (fst (processResults fc (Some r) w)) in
  in01 (smileScore s') /\ in01 (mouthOpenScore s') /\ in01 (movementScore s')
  /\ in01 (happy (emotionScores s')) /\ (0 <= sad (emotionScores s'))%Q
  /\ in01 (surprised (emotionScores s')) /\ in01 (neutral (emotionScores s')).
Proof.
  intros Hbefore Hnone. cbn zeta.
  assert (Hweaken : forall s, Forall in01 (scalar_fields s) ->
            in01 (smileScore s) /\ in01 (mouthOpenScore s) /\ in01 (movementScore s)
            /\ in01 (happy (emotionScores s)) /\ (0 <= sad (emotionScores s))%Q
            /\ in01 (surprised (emotionScores s)) /\ in01 (neutral (emotionScores s))).
  { intros s Hs. apply in_range_iff in Hs as (H1 & H2 & H3 & H4 & [H5 _] & H6 & H7).
    auto 10. }
  destruct (faceLandmarks r) as [[|landmarks others]|] eqn:Hface.
  - rewrite processResults_no_face by auto. cbn [fst state on_state].
    apply Hweaken, scalar_fields_no_face.
  - rewrite (processResults_fallback fc r w landmarks others Hface Hnone).
    unfold detectSmileFromLandmarks.
    destruct (landmark landmarks 291) as [rightCorner|]; [|apply Hweaken, Hbefore].
    destruct (landmark landmarks 61) as [leftCorner|]; [|apply Hweaken, Hbefore].
    destruct (landmark landmarks 14) as [lowerLip|]; [|apply Hweaken, Hbefore].
    destruct (landmark landmarks 13) as [upperLip|]; [|apply Hweaken, Hbefore].
    set (w1 := on_state _ w).
    apply in_range_iff in Hbefore as (_ & _ & Hmove & _).
    assert (Hsmile : in01 (smileScore (state w1))) by apply in01_clamp01.
    assert (Hmouth : in01 (mouthOpenScore (state w1))) by apply in01_clamp01.
    assert (Hhappy : in01 (happy (emotionScores (state w1)))) by apply in01_clamp01.
    assert (Hsad : (0 <= sad (emotionScores (state w1)))%Q) by apply Q.le_max_l.
    assert (Hsurprised : in01 (surprised (emotionScores (state w1)))).
    { destruct Hmouth as [Hm0 Hm1].
      change (in01 (mouthOpenScore (state w1) * 0.5)). split; lra. }
    assert (Hneutral : in01 (neutral (emotionScores (state w1)))).
    { apply in01_max_zero. destruct Hsmile as [Hs0 _].
      change (1 - smileScore (state w1) - sad (emotionScores (state w1)) <= 1)%Q. lra. }
    assert (Hmove1 : in01 (movementScore (state w1))) by exact Hmove.
    destruct (landmark landmarks 4) as [noseTip|]; cbn [fst]; [|auto 10].
    rewrite smileScore_updateSuggestion, mouthOpenScore_updateSuggestion,
      emotionScores_updateSuggestion, movementScore_updateSuggestion.
    cbn [state on_state].
    destruct (trackNose_frame fc noseTip (state w1)) as (-> & -> & -> & _).
    pose proof (trackNose_movement fc noseTip (state w1) Hmove1). auto 10.
  - rewrite processResults_no_face by auto. cbn [fst state on_state].
    apply Hweaken, scalar_fields_no_face.
Qed.

Lemma fallback_path_ranges_witness :
  Forall in01 (scalar_fields (state camera_on))
  /\ blendshapes_of wide_mouth = []
  /\ in01 (smileScore (state (fst (processResults (clock_at 100000) (Some wide_mouth)
                                     camera_on)))).
Proof.
  assert (Hbefore : Forall in01 (scalar_fields (state camera_on))).
  { apply in_range_iff. vm_compute. repeat split; discriminate. }
  split; [exact Hbefore|]. split; [reflexivity|].
  apply (fallback_path_ranges (clock_at 100000) wide_mouth camera_on Hbefore eq_refl).
Defined.

(** X6.  On the fallback path the sad score is ten times the depth of the
    mouth corners below the mouth centre, floored at 0; it stays within 1
    exactly when the corners lie no more than a tenth of the frame below the
    centre. *)
Theorem fallback_sad_bound (fc : FrameClock) (r : FaceLandmarkerResult) (w : World)
    (landmarks : list (option Point)) (others : list (list (option Point)))
    (leftCorner rightCorner upperLip lowerLip : Point) :
  faceLandmarks r = Some (landmarks :: others) ->
  blendshapes_of r = [] ->
  landmark landmarks 61 = Some leftCorner ->
  landmark landmarks 291 = Some rightCorner ->
  landmark landmarks 13 = Some upperLip ->
  landmark landmarks 14 = Some lowerLip ->
  let s' := state (fst (processResults fc (Some r) w)) in
  let lift := avgCornerLift leftCorner rightCorner upperLip lowerLip in
  sad (emotionScores s') = Qmax 0 (- lift * 10)
  /\ ((sad (emotionScores s') <= 1)%Q <-> (- (1 # 10) <= lift)%Q).
Proof.
  intros Hface Hnone Hleft Hright Hupper Hlower. cbn zeta.
  assert (Hsad : sad (emotionScores (state (fst (processResults fc (Some r) w))))
                 = Qmax 0 (- avgCornerLift leftCorner rightCorner upperLip lowerLip * 10)).
  { rewrite (processResults_fallback fc r w landmarks others Hface Hnone).
    unfold detectSmileFromLandmarks. rewrite Hleft, Hright, Hupper, Hlower.
    destruct (landmark landmarks 4) as [noseTip|]; cbn [fst]; [|reflexivity].
    rewrite emotionScores_updateSuggestion.
    set (w1 := on_state _ w). cbn [state on_state].
    destruct (trackNose_frame fc noseTip (state w1)) as (_ & _ & -> & _).
    reflexivity. }
  split; [exact Hsad|]. rewrite Hsad, Q.max_lub_iff.
  split.
  - intros [_ H]. lra.
  - intros H. split; [discriminate | lra].
Qed.

Lemma fallback_sad_bound_witness :
  (sad (emotionScores (state (fst (processResults (clock_at 100000) (Some drooping)
                                     camera_on)))) == 5 # 2)%Q.
Proof.
  destruct (fallback_sad_bound (clock_at 100000) drooping camera_on
              (mesh (pt 0.4 0.75) (pt 0.6 0.75) (pt 0.5 0.45) (pt 0.5 0.55) (pt 0.5 0.4)) []
              (pt 0.4 0.75) (pt 0.6 0.75) (pt 0.5 0.45) (pt 0.5 0.55)
              eq_refl eq_refl eq_refl eq_refl eq_refl eq_refl) as [-> _].
  vm_compute. reflexivity.
Defined.

(** ** What one evaluation does *)

(** Lifting a lock that has run out changes the lock flag only. *)
Lemma unlock_keeps (w : World) :
  let w' := on_state (set_isLocked false) w in
  generateSuggestion (state w') = generateSuggestion (state w)
  /\ currentSuggestion (state w') = currentSuggestion (state w)
  /\ suggestionStartTime (state w') = suggestionStartTime (state w)
  /\ lockEndTime (state w') = lockEndTime (state w)
  /\ conversationLog (state w') = conversationLog (state w)
  /\ currentPatient (state w') = currentPatient (state w)
  /\ commits_fired w' = commits_fired w
  /\ spoken w' = spoken w
  /\ isLocked (state w') = false.
Proof. repeat split. Qed.

(** An evaluation without commit: what it leaves. *)
Lemma evaluateSuggestion_outcome (now : Z) (c : CommitClock) (w : World) :
  let w' := evaluateSuggestion now c w in
  (commits_fired w' = commits_fired w
   /\ spoken w' = spoken w
   /\ conversationLog (state w') = conversationLog (state w)
   /\ isLocked (state w') = isLocked (state w)
   /\ lockEndTime (state w') = lockEndTime (state w)
   /\ ((generateSuggestion (state w) = None
        /\ currentSuggestion (state w') = None /\ suggestionStartTime (state w') = None)
       \/ (generateSuggestion (state w) <> None
           /\ generateSuggestion (state w) <> currentSuggestion (state w)
           /\ currentSuggestion (state w') = generateSuggestion (state w)
           /\ suggestionStartTime (state w') = Some now)
       \/ (generateSuggestion (state w) = currentSuggestion (state w)
           /\ now - num_of (suggestionStartTime (state w)) < CONFIG.STABILITY_TIME
           /\ currentSuggestion (state w') = currentSuggestion (state w)
           /\ suggestionStartTime (state w') = suggestionStartTime (state w))))
  \/ (exists sug,
        generateSuggestion (state w) = Some sug
        /\ currentSuggestion (state w) = Some sug
        /\ CONFIG.STABILITY_TIME <= now - num_of (suggestionStartTime (state w))
        /\ w' = on_state (fun s => set_suggestionStartTime None (set_currentSuggestion None s))
                  (commitMessage c sug "signal" (on_state updateSignalTone w))).
Proof.
  cbn zeta.
  destruct (generateSuggestion (state w)) as [sug|] eqn:Hgen.
  - destruct (decide (currentSuggestion (state w) = Some sug)) as [Hsame|Hother].
    + destruct (Z_lt_le_dec (now - num_of (suggestionStartTime (state w)))
                  CONFIG.STABILITY_TIME) as [Hearly|Hdue].
      * left. rewrite (evaluateSuggestion_wait now c sug w Hgen Hsame Hearly).
        repeat (split; [reflexivity|]). right; right.
        split; [symmetry; exact Hsame|]. split; [exact Hearly|]. split; reflexivity.
      * right. exists sug. repeat (split; [assumption || reflexivity|]).
        apply evaluateSuggestion_commit; assumption.
    + left. rewrite (evaluateSuggestion_start now c sug w Hgen Hother).
      repeat (split; [reflexivity|]). right; left.
      split; [discriminate|]. split; [congruence|]. split; reflexivity.
  - left. rewrite (evaluateSuggestion_none now c w Hgen).
    repeat (split; [reflexivity|]). left. repeat split.
Qed.

(** What a tick does, lock check included. *)
Lemma updateSuggestion_outcome (now : Z) (c : CommitClock) (w : World) :
  let w' := updateSuggestion now c w in
  (isLocked (state w) = true /\ now < num_of (lockEndTime (state w)) /\ w' = w)
  \/ ((isLocked (state w) = true -> num_of (lockEndTime (state w)) <= now)
      /\ commits_fired w' = commits_fired w
      /\ spoken w' = spoken w
      /\ conversationLog (state w') = conversationLog (state w)
      /\ isLocked (state w') = false
      /\ lockEndTime (state w') = lockEndTime (state w)
      /\ ((generateSuggestion (state w) = None
           /\ currentSuggestion (state w') = None /\ suggestionStartTime (state w') = None)
          \/ (generateSuggestion (state w) <> None
              /\ generateSuggestion (state w) <> currentSuggestion (state w)
              /\ currentSuggestion (state w') = generateSuggestion (state w)
              /\ suggestionStartTime (state w') = Some now)
          \/ (generateSuggestion (state w) = currentSuggestion (state w)
              /\ now - num_of (suggestionStartTime (state w)) < CONFIG.STABILITY_TIME
              /\ currentSuggestion (state w') = currentSuggestion (state w)
              /\ suggestionStartTime (state w') = suggestionStartTime (state w))))
  \/ ((isLocked (state w) = true -> num_of (lockEndTime (state w)) <= now)
      /\ exists sug,
        generateSuggestion (state w) = Some sug
        /\ currentSuggestion (state w) = Some sug
        /\ CONFIG.STABILITY_TIME <= now - num_of (suggestionStartTime (state w))
        /\ commit_view w'
           = (None, None, true, Some (commit_now c + CONFIG.LOCK_TIME),
              S (commits_fired w),
              take CONFIG.MAX_LOG_ITEMS
                ({| entry_id := log_now (commit_log c); entry_message := sug;
                    entry_type := "signal"; entry_timestamp := log_iso (commit_log c);
                    entry_patient := currentPatient (state w) |}
                 :: conversationLog (state w)))).
Proof.
  cbn zeta.
  assert (Hcommit : forall w0 sug,
            commit_view (on_state (fun s => set_suggestionStartTime None
                                              (set_currentSuggestion None s))
                           (commitMessage c sug "signal" (on_state updateSignalTone w0)))
            = (None, None, true, Some (commit_now c + CONFIG.LOCK_TIME),
               S (commits_fired w0),
               take CONFIG.MAX_LOG_ITEMS
                 ({| entry_id := log_now (commit_log c); entry_message := sug;
                     entry_type := "signal"; entry_timestamp := log_iso (commit_log c);
                     entry_patient := currentPatient (state w0) |}
                  :: conversationLog (state w0)))).
  { intros w0 sug. set (w1 := on_state updateSignalTone w0).
    destruct (commitMessage_state c sug "signal" w1)
      as (Hlock & Hend & _ & _ & _ & _ & Hlog).
    unfold commit_view. cbn [state on_state].
    rewrite commits_fired_on_state, commits_fired_commitMessage.
    set (s1 := state (commitMessage c sug "signal" w1)) in *.
    cbn [currentSuggestion suggestionStartTime isLocked lockEndTime conversationLog
         set_suggestionStartTime set_currentSuggestion].
    rewrite Hlock, Hend, Hlog. reflexivity. }
  destruct (isLocked (state w)) eqn:Hlocked.
  - destruct (Z_lt_le_dec now (num_of (lockEndTime (state w)))) as [Hrunning|Hout].
    + left. split; [reflexivity|]. split; [exact Hrunning|].
      apply updateSuggestion_frozen; assumption.
    + right. rewrite (updateSuggestion_expired now c w Hlocked Hout).
      destruct (unlock_keeps w) as (Hg & Hc & Hs & He & Hl & Hp & Hf & Hsp & Hu).
      destruct (evaluateSuggestion_outcome now c (on_state (set_isLocked false) w))
        as [(H1 & H2 & H3 & H4 & H5 & H6)|(sug & H1 & H2 & H3 & H4)].
      * left. rewrite Hg, Hc, Hs in H6. rewrite Hf in H1. rewrite Hsp in H2.
        rewrite Hl in H3. rewrite Hu in H4. rewrite He in H5.
        split; [intros _; exact Hout|]. auto 10.
      * right. split; [intros _; exact Hout|]. exists sug.
        rewrite Hg in H1. rewrite Hc in H2. rewrite Hs in H3.
        repeat (split; [assumption|]). rewrite H4, Hcommit, Hf, Hp, Hl. reflexivity.
  - right. rewrite (updateSuggestion_unlocked now c w Hlocked).
    destruct (evaluateSuggestion_outcome now c w)
      as [(H1 & H2 & H3 & H4 & H5 & H6)|(sug & H1 & H2 & H3 & H4)].
    + left. rewrite Hlocked in H4. split; [discriminate|]. auto 10.
    + right. split; [discriminate|]. exists sug.
      repeat (split; [assumption|]). rewrite H4, Hcommit. reflexivity.
Qed.

(** X7.  A tick commits only a candidate that has aged: whenever a tick
    fires a commit, no lock was in force, the rule engine yielded the very
    suggestion the machine already held, held since at least 800ms, and the
    commit is of that suggestion, logged as a signal.  So a suggestion never
    commits on the tick it first appears. *)
Theorem commit_needs_aged_candidate (now : Z) (c : CommitClock) (w : World) :
  commits_fired (updateSuggestion now c w) <> commits_fired w ->
  exists sug,
    generateSuggestion (state w) = Some sug
    /\ currentSuggestion (state w) = Some sug
    /\ CONFIG.STABILITY_TIME <= now - num_of (suggestionStartTime (state w))
    /\ (isLocked (state w) = true -> num_of (lockEndTime (state w)) <= now)
    /\ commits_fired (updateSuggestion now c w) = S (commits_fired w)
    /\ head (conversationLog (state (updateSuggestion now c w)))
       = Some {| entry_id := log_now (commit_log c); entry_message := sug;
                 entry_type := "signal"; entry_timestamp := log_iso (commit_log c);
                 entry_patient := currentPatient (state w) |}.
Proof.
  intros Hfired.
  destruct (updateSuggestion_outcome now c w)
    as [(_ & _ & Hsame)|[(_ & Hcount & _)|(Hfree & sug & Hgen & Hcand & Hdue & Hview)]].
  - rewrite Hsame in Hfired. congruence.
  - congruence.
  - exists sug.
    destruct (commit_view_all _ _ _ _ _ _ _ Hview) as (_ & _ & _ & _ & Hcount & Hlog).
    rewrite Hcount, Hlog. repeat (split; [assumption || reflexivity|]). reflexivity.
Qed.

(** X8.  A suggestion other than the candidate restarts the stability
    clock: when no lock is in force and the rule engine yields something
    other than the candidate held, however old that candidate is, the tick
    commits nothing, takes the new suggestion as candidate and stamps it
    with the time of the tick; a null suggestion clears candidate and
    stamp. *)
Theorem other_suggestion_restarts_clock (now : Z) (c : CommitClock) (w : World) :
  (isLocked (state w) = true -> num_of (lockEndTime (state w)) <= now) ->
  generateSuggestion (state w) <> currentSuggestion (state w) ->
  let w' := updateSuggestion now c w in
  currentSuggestion (state w') = generateSuggestion (state w)
  /\ suggestionStartTime (state w')
     = match generateSuggestion (state w) with Some _ => Some now | None => None end
  /\ isLocked (state w') = false
  /\ commits_fired w' = commits_fired w.
Proof.
  intros Hfree Hother. cbn zeta.
  destruct (updateSuggestion_outcome now c w)
    as [(Hlocked & Hrunning & _)
       |[(_ & Hcount & _ & _ & Hunlocked & _ & Hcases)
        |(_ & sug & Hgen & Hcand & _)]].
  - specialize (Hfree Hlocked). lia.
  - destruct Hcases as [(Hnone & Hc & Hs)|[(Hsome & _ & Hc & Hs)|(Hsame & _)]].
    + rewrite Hnone, Hc, Hs. auto.
    + rewrite Hc, Hs.
      destruct (generateSuggestion (state w)) as [sug|] eqn:Hgen; [auto|congruence].
    + contradiction.
  - exfalso. apply Hother. congruence.
Qed.

Lemma commit_needs_aged_candidate_witness :
  let w := tick (tick_at smile_signals 100000) camera_on in
  let w' := updateSuggestion 100800 (frame_commit (clock_at 100800)) w in
  commits_fired w' <> commits_fired w
  /\ currentSuggestion (state w) = Some "Feeling happy"
  /\ commits_fired w' = 1%nat.
Proof.
  cbn zeta.
  assert (Hfired : commits_fired (updateSuggestion 100800 (frame_commit (clock_at 100800))
                                    (tick (tick_at smile_signals 100000) camera_on))
                   <> commits_fired (tick (tick_at smile_signals 100000) camera_on))
    by (vm_compute; discriminate).
  split; [exact Hfired|].
  destruct (commit_needs_aged_candidate 100800 (frame_commit (clock_at 100800))
              (tick (tick_at smile_signals 100000) camera_on) Hfired)
    as (sug & _ & _ & _ & _ & Hcount & _).
  split; [reflexivity | exact Hcount].
Defined.

Lemma other_suggestion_restarts_clock_witness :
  let w := on_state (feed smile_signals)
                    (on_state (fun s => set_suggestionStartTime (Some 1)
                                          (set_currentSuggestion (Some "Yes") s))
                              camera_on) in
  let w' := updateSuggestion 100000 (frame_commit (clock_at 100000)) w in
  generateSuggestion (state w) <> currentSuggestion (state w)
  /\ currentSuggestion (state w') = Some "Feeling happy"
  /\ suggestionStartTime (state w') = Some 100000
  /\ commits_fired w' = 0%nat.
Proof.
  cbn zeta.
  set (w := on_state (feed smile_signals)
              (on_state (fun s => set_suggestionStartTime (Some 1)
                                    (set_currentSuggestion (Some "Yes") s))
                        camera_on)).
  assert (Hother : generateSuggestion (state w) <> currentSuggestion (state w))
    by (vm_compute; discriminate).
  split; [exact Hother|].
  destruct (other_suggestion_restarts_clock 100000 (frame_commit (clock_at 100000)) w
              ltac:(vm_compute; discriminate) Hother)
    as (Hcand & Hsince & _ & Hcount).
  split; [exact Hcand|]. split; [exact Hsince | exact Hcount].
Defined.

(** ** Spacing of automatic commits *)

(** After an automatic commit the machine is locked without candidate;
    from there, and from the states that follow before the next commit is
    possible. *)
Lemma spaced_step (until : Z) (tk : Tick) (w : World) :
  tick_now tk < until + CONFIG.STABILITY_TIME ->
  (isLocked (state w) = true /\ lockEndTime (state w) = Some until
   /\ currentSuggestion (state w) = None)
  \/ (isLocked (state w) = false
      /\ (currentSuggestion (state w) = None
          \/ exists since, suggestionStartTime (state w) = Some since /\ until <= since)
      /\ until <= tick_now tk) ->
  commits_fired (tick tk w) = commits_fired w
  /\ ((isLocked (state (tick tk w)) = true /\ lockEndTime (state (tick tk w)) = Some until
       /\ currentSuggestion (state (tick tk w)) = None)
      \/ (isLocked (state (tick tk w)) = false
          /\ (currentSuggestion (state (tick tk w)) = None
              \/ exists since, suggestionStartTime (state (tick tk w)) = Some since
                               /\ until <= since)
          /\ until <= tick_now tk)).
Proof.
  intros Hsoon Hinv. unfold tick.
  set (fed := on_state (feed (tick_signals tk)) w).
  assert (Hfed : isLocked (state fed) = isLocked (state w)
                 /\ lockEndTime (state fed) = lockEndTime (state w)
                 /\ currentSuggestion (state fed) = currentSuggestion (state w)
                 /\ suggestionStartTime (state fed) = suggestionStartTime (state w)
                 /\ commits_fired fed = commits_fired w) by (repeat split).
  destruct Hfed as (Hl & He & Hc & Hs & Hf). rewrite <- Hl, <- He, <- Hc, <- Hs, <- Hf in *.
  clearbody fed. clear Hl He Hc Hs Hf.
  destruct (updateSuggestion_outcome (tick_now tk) (tick_commit tk) fed)
    as [(Hlocked & Hrunning & ->)
       |[(Hfree & Hcount & _ & _ & Hunlocked & Hend & Hcases)
        |(Hfree & sug & Hgen & Hcand & Hdue & _)]].
  - split; [reflexivity|]. destruct Hinv as [Hinv|(Hno & _)]; [left; exact Hinv|congruence].
  - split; [exact Hcount|]. right. split; [exact Hunlocked|].
    assert (Hlate : until <= tick_now tk).
    { destruct Hinv as [(Hlocked & Huntil & _)|(_ & _ & Hlate)]; [|exact Hlate].
      specialize (Hfree Hlocked). rewrite Huntil in Hfree. exact Hfree. }
    split; [|exact Hlate].
    destruct Hcases as [(_ & Hc & _)|[(_ & _ & _ & Hs)|(_ & _ & Hc & Hs)]].
    + left. exact Hc.
    + right. exists (tick_now tk). split; [exact Hs | exact Hlate].
    + rewrite Hc, Hs.
      destruct Hinv as [(_ & _ & Hnone)|(_ & Hcand & _)]; [left; exact Hnone | exact Hcand].
  - exfalso.
    destruct Hinv as [(_ & _ & Hnone)|(_ & [Hnone|(since & Hsince & Hlate)] & _)];
      try congruence.
    rewrite Hsince in Hdue. change (num_of (Some since)) with since in Hdue. lia.
Qed.

(** X9.  Automatic commits are spaced: after a commit made by a tick, whose
    lock ends at [until], no tick earlier than [until + 800ms] commits,
    whatever signals arrive, as long as the ticks come in the order of
    their clock readings. *)
Theorem automatic_commits_are_spaced (until : Z) (ticks : list Tick) (w : World) :
  isLocked (state w) = true ->
  lockEndTime (state w) = Some until ->
  currentSuggestion (state w) = None ->
  (exists from, chronological from ticks) ->
  Forall (fun tk => tick_now tk < until + CONFIG.STABILITY_TIME) ticks ->
  commits_fired (run ticks w) = commits_fired w.
Proof.
  intros Hlocked Huntil Hnone [from Horder] Hsoon.
  assert (Hgen : forall ticks from w,
            chronological from ticks ->
            Forall (fun tk => tick_now tk < until + CONFIG.STABILITY_TIME) ticks ->
            (isLocked (state w) = true /\ lockEndTime (state w) = Some until
             /\ currentSuggestion (state w) = None)
            \/ (isLocked (state w) = false
                /\ (currentSuggestion (state w) = None
                    \/ exists since, suggestionStartTime (state w) = Some since
                                     /\ until <= since)
                /\ until <= from) ->
            commits_fired (run ticks w) = commits_fired w).
  { clear. intros ticks. induction ticks as [|tk ticks IH]; intros from w Horder Hsoon Hinv.
    - reflexivity.
    - destruct Horder as [Hfrom Horder]. apply Forall_cons in Hsoon as [Hnow Hsoon].
      rewrite run_cons.
      destruct (spaced_step until tk w Hnow) as [Hcount Hinv'].
      { destruct Hinv as [Hinv|(H1 & H2 & H3)]; [left; exact Hinv|].
        right. split; [exact H1|]. split; [exact H2|]. lia. }
      rewrite (IH (tick_now tk) (tick tk w) Horder Hsoon Hinv'). exact Hcount. }
  apply (Hgen ticks from w Horder Hsoon). left. auto.
Qed.

Lemma automatic_commits_are_spaced_witness :
  isLocked (state after_smile_commit) = true
  /\ lockEndTime (state after_smile_commit) = Some 104800
  /\ commits_fired (run (List.map (tick_at smile_signals) [104000; 104800; 105599])
                        after_smile_commit) = 1%nat.
Proof.
  split; [reflexivity|]. split; [reflexivity|].
  rewrite (automatic_commits_are_spaced 104800
             (List.map (tick_at smile_signals) [104000; 104800; 105599])
             after_smile_commit eq_refl eq_refl eq_refl).
  - reflexivity.
  - exists 0. vm_compute. repeat split; discriminate.
  - repeat constructor; vm_compute; reflexivity.
Defined.

(** ** Frames as ticks *)

Lemma feed_own_signals (w : World) : on_state (feed (signals_of (state w))) w = w.
Proof. destruct w as [s ls nv ef]. destruct s. reflexivity. Qed.

(** A state that differs from [s] in signal fields only is [s] fed its
    signals. *)
Lemma feed_back (s s' : State) :
  currentPatient s' = currentPatient s ->
  cameraRunning s' = cameraRunning s ->
  faceLandmarker s' = faceLandmarker s ->
  lastVideoTime s' = lastVideoTime s ->
  micRunning s' = micRunning s ->
  currentSuggestion s' = currentSuggestion s ->
  suggestionStartTime s' = suggestionStartTime s ->
  isLocked s' = isLocked s ->
  lockEndTime s' = lockEndTime s ->
  lastTTSTime s' = lastTTSTime s ->
  lastTTSMessage s' = lastTTSMessage s ->
  signalTone s' = signalTone s ->
  conversationLog s' = conversationLog s ->
  soundEnabled s' = soundEnabled s ->
  s' = feed (signals_of s') s.
Proof.
  destruct s, s'. cbn. intros. subst. reflexivity.
Qed.

Lemma on_state_as_feed (f : State -> State) (w : World) :
  f (state w) = feed (signals_of (f (state w))) (state w) ->
  on_state f w = on_state (feed (signals_of (f (state w)))) w.
Proof. intros H. unfold on_state. rewrite <- H. reflexivity. Qed.

Lemma trackNose_as_feed (fc : FrameClock) (noseTip : Point) (s : State) :
  trackNose fc noseTip s = feed (signals_of (trackNose fc noseTip s)) s.
Proof.
  unfold trackNose. case_match; [|destruct s; reflexivity].
  repeat case_match; destruct s; reflexivity.
Qed.

Lemma feed_feed (g1 g2 : Signals) (s : State) : feed g2 (feed g1 s) = feed g2 s.
Proof. reflexivity. Qed.

Lemma on_state_trackNose_as_feed (fc : FrameClock) (noseTip : Point)
    (f : State -> State) (w : World) :
  f (state w) = feed (signals_of (f (state w))) (state w) ->
  on_state (trackNose fc noseTip) (on_state f w)
  = on_state (feed (signals_of (trackNose fc noseTip (f (state w))))) w.
Proof.
  intros Hf. unfold on_state at 1 2. cbn [state localStorage navigator_vibrate effects].
  rewrite (trackNose_as_feed fc noseTip (f (state w))).
  rewrite Hf at 2. rewrite feed_feed.
  rewrite <- (trackNose_as_feed fc noseTip (f (state w))). reflexivity.
Qed.

(** What [processResults] does to the world: signal fields are rewritten,
    and then [updateSuggestion] runs or does not. *)
Lemma processResults_writes_signals (fc : FrameClock)
    (results : option FaceLandmarkerResult) (w : World) :
  exists g : Signals,
    fst (processResults fc results w) = on_state (feed g) w
    \/ fst (processResults fc results w)
       = updateSuggestion (suggest_now fc) (frame_commit fc) (on_state (feed g) w).
Proof.
  assert (Hnone : exists g : Signals, on_state no_face w = on_state (feed g) w).
  { exists (signals_of (no_face (state w))). apply on_state_as_feed. reflexivity. }
  assert (Hthrown : exists g : Signals, w = on_state (feed g) w).
  { exists (signals_of (state w)). symmetry. apply feed_own_signals. }
  destruct results as [r|]; [|destruct Hnone as [g Hg]; exists g; left; exact Hg].
  destruct (faceLandmarks r) as [[|landmarks others]|] eqn:Hface;
    [rewrite processResults_no_face by auto;
     destruct Hnone as [g Hg]; exists g; left; exact Hg
    | 
    | rewrite processResults_no_face by auto;
      destruct Hnone as [g Hg]; exists g; left; exact Hg].
  destruct (landmark landmarks 291) as [rightCorner|] eqn:Hright;
    [|rewrite (processResults_incomplete fc r w landmarks others Hface) by auto;
      destruct Hthrown as [g Hg]; exists g; left; exact Hg].
  destruct (landmark landmarks 61) as [leftCorner|] eqn:Hleft;
    [|rewrite (processResults_incomplete fc r w landmarks others Hface) by auto;
      destruct Hthrown as [g Hg]; exists g; left; exact Hg].
  destruct (landmark landmarks 14) as [lowerLip|] eqn:Hlower;
    [|rewrite (processResults_incomplete fc r w landmarks others Hface) by auto;
      destruct Hthrown as [g Hg]; exists g; left; exact Hg].
  destruct (landmark landmarks 13) as [upperLip|] eqn:Hupper;
    [|rewrite (processResults_incomplete fc r w landmarks others Hface) by auto;
      destruct Hthrown as [g Hg]; exists g; left; exact Hg].
  destruct (blendshapes_of r) as [|b shapes] eqn:Hb.
  - rewrite (processResults_fallback fc r w landmarks others Hface Hb).
    unfold detectSmileFromLandmarks. rewrite Hright, Hleft, Hlower, Hupper.
    set (f := fun s : State => _).
    destruct (landmark landmarks 4) as [noseTip|]; cbv zeta; cbn [fst].
    + eexists. right.
      rewrite (on_state_trackNose_as_feed fc noseTip f w); [reflexivity|].
      subst f. cbv beta. apply feed_back; reflexivity.
    + eexists. left. apply on_state_as_feed. subst f. cbv beta.
      apply feed_back; reflexivity.
  - unfold processResults. rewrite Hface, Hb, Hright, Hleft, Hlower, Hupper.
    change (length (b :: shapes) =? 0)%nat with false. cbv iota.
    set (f := fun s : State => _).
    destruct (landmark landmarks 4) as [noseTip|]; cbv zeta; cbn [fst].
    + eexists. right.
      rewrite (on_state_trackNose_as_feed fc noseTip f w); [reflexivity|].
      subst f. cbv beta. apply feed_back; reflexivity.
    + eexists. left. apply on_state_as_feed. subst f. cbv beta.
      apply feed_back; reflexivity.
Qed.

(** X10.  A processed sample is an evaluation tick or a write of signals: for
    every sample, [processResults] either rewrites signal fields only (no
    face, or an error thrown) or rewrites signal fields and then runs
    [updateSuggestion] with the frame's clock readings. *)
Theorem processResults_is_tick (fc : FrameClock) (results : option FaceLandmarkerResult)
    (w : World) :
  exists g : Signals,
    fst (processResults fc results w) = on_state (feed g) w
    \/ fst (processResults fc results w)
       = tick {| tick_signals := g; tick_now := suggest_now fc;
                 tick_commit := frame_commit fc |} w.
Proof.
  destruct (processResults_writes_signals fc results w) as (g & Hg).
  exists g. exact Hg.
Qed.

(** ** What the commit system leaves alone *)

Lemma commitMessage_keeps (c : CommitClock) (message type : string) (w : World) :
  let s' := state (commitMessage c message type w) in
  currentPatient s' = currentPatient (state w)
  /\ cameraRunning s' = cameraRunning (state w)
  /\ faceLandmarker s' = faceLandmarker (state w)
  /\ lastVideoTime s' = lastVideoTime (state w)
  /\ micRunning s' = micRunning (state w)
  /\ signalTone s' = signalTone (state w).
Proof.
  destruct (soundEnabled (state w)) eqn:Hsound;
    [destruct (speech_due_dec (commit_now c) message (state w)) as [Hdue|Hnot]|].
  - destruct (commitMessage_speaking c message type w Hsound Hdue) as [-> _].
    repeat split.
  - destruct (commitMessage_silent c message type w (or_intror Hnot)) as [-> _].
    repeat split.
  - destruct (commitMessage_silent c message type w (or_introl Hsound)) as [-> _].
    repeat split.
Qed.




(** ** The frame loop *)



(** An undecoded frame is not consumed: offered with [readyState] 1 and
    then, at the same [currentTime], with [readyState] 4, it is processed by
    the second call. *)
Lemma undecoded_frame_is_processed_later :
  let early := {| readyState := 1; currentTime := 0.04 |} in
  let w1 := fst (detectFace early (Detected (Some smiling)) (clock_at 100000) camera_on) in
  let w2 := fst (detectFace (video_at 0.04) (Detected (Some smiling))
                            (clock_at 100040) w1) in
  currentSuggestion (state w1) = None
  /\ currentSuggestion (state w2) = Some "Feeling happy"
  /\ (smileScore (state w2) == 1 # 2)%Q.
Proof. cbn zeta. repeat split; vm_compute; reflexivity. Qed.

(** ** Candidates that outlive their signals *)

Lemma process_all_cons (fr : FrameClock * option FaceLandmarkerResult)
    (frames : list (FrameClock * option FaceLandmarkerResult)) (w : World) :
  process_all (fr :: frames) w
  = process_all frames (fst (processResults (fst fr) (snd fr) w)).
Proof.
  exact (fold_left_step (fun w fr => fst (processResults (fst fr) (snd fr) w))
           fr frames w).
Qed.

Lemma processResults_faceless (fc : FrameClock) (results : option FaceLandmarkerResult)
    (w : World) :
  faceless results -> processResults fc results w = (on_state no_face w, Normal).
Proof.
  destruct results as [r|]; [|reflexivity].
  intros Hno. apply processResults_no_face. exact Hno.
Qed.

(** X12.  Frames without a face zero the signals but do not tick the
    machine: a candidate that is stabilising stays, with its stamp, through
    any number of them, nothing is committed, and the first tick that yields
    the candidate again 800ms or more after the stamp commits it at once. *)
Theorem face_lost_keeps_candidate (sug : string) (since : Z)
    (frames : list (FrameClock * option FaceLandmarkerResult)) (w : World) :
  Forall (fun fr => faceless (snd fr)) frames ->
  stabilizing sug since w ->
  let w' := process_all frames w in
  stabilizing sug since w'
  /\ commits_fired w' = commits_fired w
  /\ (frames <> [] -> zero_frame (state w'))
  /\ forall tk : Tick,
       suggestion_of (tick_signals tk) = Some sug ->
       CONFIG.STABILITY_TIME <= tick_now tk - since ->
       commits_fired (tick tk w') = S (commits_fired w).
Proof.
  intros Hall Hstab. cbn zeta.
  assert (Hgen : stabilizing sug since (process_all frames w)
                 /\ commits_fired (process_all frames w) = commits_fired w
                 /\ (frames <> [] -> zero_frame (state (process_all frames w)))).
  { revert w Hstab. induction frames as [|[fc results] frames IH]; intros w Hstab.
    - split; [exact Hstab|]. split; [reflexivity|]. congruence.
    - apply Forall_cons in Hall as [Hno Hall]. cbn [snd] in Hno.
      rewrite process_all_cons. cbn [fst snd].
      rewrite (processResults_faceless fc results w Hno). cbn [fst].
      assert (Hstab' : stabilizing sug since (on_state no_face w)).
      { destruct Hstab as (H1 & H2 & H3). repeat split; assumption. }
      destruct (IH Hall (on_state no_face w) Hstab') as (IH1 & IH2 & IH3).
      split; [exact IH1|]. split; [exact IH2|]. intros _.
      destruct frames as [|fr frames']; [|apply IH3; discriminate].
      unfold process_all. cbn [fold_left]. unfold zero_frame, no_face. cbn.
      repeat split; reflexivity. }
  destruct Hgen as (Hstab' & Hcount & Hzero).
  repeat (split; [assumption|]).
  intros tk Hyields Hdue.
  pose proof (tick_commits sug since tk (process_all frames w) Hyields Hstab' Hdue) as Hview.
  destruct (commit_view_all _ _ _ _ _ _ _ Hview) as (_ & _ & _ & _ & Hfired & _).
  rewrite Hfired, Hcount. reflexivity.
Qed.

(** X13.  A button commit in the middle of a stabilisation keeps the
    candidate and its stamp; once the lock of the button commit has run out,
    the first tick that yields the candidate again commits it at once, so two
    commits have fired. *)
Theorem button_commit_defers_candidate (sug : string) (since : Z) (c : CommitClock)
    (message type : string) (tk : Tick) (w : World) :
  stabilizing sug since w ->
  since <= commit_now c ->
  suggestion_of (tick_signals tk) = Some sug ->
  commit_now c + CONFIG.LOCK_TIME <= tick_now tk ->
  let w1 := commitMessage c message type w in
  currentSuggestion (state w1) = Some sug
  /\ suggestionStartTime (state w1) = Some since
  /\ commits_fired (tick tk w1) = S (S (commits_fired w))
  /\ head (conversationLog (state (tick tk w1)))
     = Some {| entry_id := log_now (commit_log (tick_commit tk)); entry_message := sug;
               entry_type := "signal";
               entry_timestamp := log_iso (commit_log (tick_commit tk));
               entry_patient := currentPatient (state w) |}.
Proof.
  intros (Hfree & Hcand & Hsince) Hpast Hyields Hlate. cbn zeta.
  destruct (commitMessage_state c message type w)
    as (Hlock & Hend & Hc1 & Hs1 & _ & _ & _).
  destruct (commitMessage_keeps c message type w) as (Hpat & _).
  pose proof (commits_fired_commitMessage c message type w) as Hfired1.
  set (w1 := commitMessage c message type w) in *.
  rewrite Hc1, Hs1. split; [exact Hcand|]. split; [exact Hsince|].
  unfold tick.
  set (fed := on_state (feed (tick_signals tk)) w1).
  assert (Hfed : isLocked (state fed) = isLocked (state w1)
                 /\ lockEndTime (state fed) = lockEndTime (state w1)
                 /\ currentSuggestion (state fed) = currentSuggestion (state w1)
                 /\ suggestionStartTime (state fed) = suggestionStartTime (state w1)
                 /\ commits_fired fed = commits_fired w1
                 /\ currentPatient (state fed) = currentPatient (state w1)
                 /\ generateSuggestion (state fed) = suggestion_of (tick_signals tk))
    by (repeat split).
  destruct Hfed as (Hl & He & Hc & Hs & Hf & Hp & Hg).
  clearbody fed.
  destruct (updateSuggestion_outcome (tick_now tk) (tick_commit tk) fed)
    as [(_ & Hrunning & _)
       |[(_ & _ & _ & _ & _ & _ & Hcases)|(_ & sug' & Hgen & _ & _ & Hview)]].
  - exfalso. rewrite He, Hend in Hrunning. cbn in Hrunning. lia.
  - exfalso. rewrite Hg, Hyields, Hc, Hc1, Hcand, Hs, Hs1, Hsince in Hcases.
    destruct Hcases as [(H & _)|[(_ & H & _)|(_ & H & _)]];
      [discriminate H | congruence |].
    change (num_of (Some since)) with since in H.
    unfold CONFIG.LOCK_TIME, CONFIG.STABILITY_TIME in *. lia.
  - rewrite Hg, Hyields in Hgen. injection Hgen as <-.
    destruct (commit_view_all _ _ _ _ _ _ _ Hview) as (_ & _ & _ & _ & -> & ->).
    rewrite Hf, Hfired1, Hp, Hpat. split; reflexivity.
Qed.

Lemma smile_started_stabilizing : stabilizing "Feeling happy" 100000 smile_started.
Proof. repeat split. Qed.

Lemma face_lost_keeps_candidate_witness :
  stabilizing "Feeling happy" 100000 smile_started
  /\ Forall (fun fr => faceless (snd fr)) two_blank_frames
  /\ commits_fired (tick (tick_at smile_signals 100900)
                         (process_all two_blank_frames smile_started)) = 1%nat.
Proof.
  assert (Hblank : Forall (fun fr => faceless (snd fr)) two_blank_frames).
  { constructor; [exact I|]. constructor; [right; reflexivity|]. constructor. }
  split; [exact smile_started_stabilizing|]. split; [exact Hblank|].
  destruct (face_lost_keeps_candidate "Feeling happy" 100000 two_blank_frames
              smile_started Hblank smile_started_stabilizing) as (_ & _ & _ & Hcommit).
  apply (Hcommit (tick_at smile_signals 100900)); [reflexivity|].
  vm_compute. discriminate.
Defined.

Lemma button_commit_defers_candidate_witness :
  let w1 := commitMessage (frame_commit (clock_at 100300)) "Feeling tired" "mood"
                          smile_started in
  stabilizing "Feeling happy" 100000 smile_started
  /\ currentSuggestion (state w1) = Some "Feeling happy"
  /\ commits_fired (tick (tick_at smile_signals 104300) w1) = 2%nat.
Proof.
  cbn zeta. split; [exact smile_started_stabilizing|].
  destruct (button_commit_defers_candidate "Feeling happy" 100000
              (frame_commit (clock_at 100300)) "Feeling tired" "mood"
              (tick_at smile_signals 104300) smile_started
              smile_started_stabilizing
              ltac:(vm_compute; discriminate) eq_refl ltac:(vm_compute; discriminate))
    as (Hcand & _ & Hfired & _).
  split; [exact Hcand | exact Hfired].
Defined.

(** ** Microphone *)

Lemma byte_total_bounds (dataArray : list Byte.byte) (start : Z) :
  start <= fold_left (fun a b => a + Z.of_N (Byte.to_N b)) dataArray start
        <= start + 255 * Z.of_nat (length dataArray).
Proof.
  revert start. induction dataArray as [|b rest IH]; intros start.
  - cbn. lia.
  - cbn [fold_left length]. specialize (IH (start + Z.of_N (Byte.to_N b))).
    pose proof (Byte.to_N_bounded b). lia.
Qed.

(** X14.  A microphone poll leaves the sound level in [0,1]: the level is
    the mean of the bytes of the analyser divided by 255, and it is left as it
    was when the microphone is not running. *)
Theorem monitorMic_level_in_range (dataArray : list Byte.byte) (s : State) :
  dataArray <> [] ->
  in01 (soundLevel s) ->
  in01 (soundLevel (monitorMic dataArray s))
  /\ (micRunning s = false -> monitorMic dataArray s = s).
Proof.
  intros Hsome Hbefore. unfold monitorMic.
  destruct (micRunning s); cbn [negb]; [|split; [exact Hbefore | reflexivity]].
  split; [|discriminate].
  cbn [soundLevel set_soundLevel].
  pose proof (byte_total_bounds dataArray 0) as [Hlow Hhigh].
  set (total := fold_left _ dataArray 0) in *.
  assert (Hlen : (0 < Z.of_nat (length dataArray))).
  { destruct dataArray; [congruence | cbn; lia]. }
  set (n := Z.of_nat (length dataArray)) in *.
  assert (Hn : (0 < inject_Z n)%Q).
  { change 0%Q with (inject_Z 0). rewrite <- Zlt_Qlt. exact Hlen. }
  split.
  - apply Qle_shift_div_l; [reflexivity|]. apply Qle_shift_div_l; [exact Hn|].
    assert (H : (inject_Z 0 <= inject_Z total)%Q) by (rewrite <- Zle_Qle; exact Hlow).
    change (inject_Z 0) with 0%Q in H. lra.
  - apply Qle_shift_div_r; [reflexivity|]. apply Qle_shift_div_r; [exact Hn|].
    assert (H : (inject_Z total <= inject_Z (255 * n))%Q) by (rewrite <- Zle_Qle; lia).
    rewrite inject_Z_mult in H. change (inject_Z 255) with 255%Q in H. lra.
Qed.

Lemma monitorMic_level_in_range_witness :
  let s := set_micRunning true initial_state in
  let data := [Byte.xff; Byte.x00; Byte.xff; Byte.x00] in
  in01 (soundLevel (monitorMic data s))
  /\ (soundLevel (monitorMic data s) == 1 # 2)%Q.
Proof.
  cbn zeta. split.
  - apply monitorMic_level_in_range; [discriminate | split; discriminate].
  - vm_compute. reflexivity.
Defined.

(** ** Rule engine and sound *)

(** X15.  The two distress suggestions need sound: with a sound level at or
    below 0.4 the rule engine never answers "Needs attention" or "Needs a
    break"; in particular not after [stopMic]. *)
Theorem needs_require_sound (s : State) :
  ((soundLevel s <= 0.4)%Q ->
   generateSuggestion s <> Some "Needs attention"
   /\ generateSuggestion s <> Some "Needs a break")
  /\ generateSuggestion (stopMic s) <> Some "Needs attention"
  /\ generateSuggestion (stopMic s) <> Some "Needs a break".
Proof.
  assert (Hquiet : forall s0, (soundLevel s0 <= 0.4)%Q ->
            generateSuggestion s0 <> Some "Needs attention"
            /\ generateSuggestion s0 <> Some "Needs a break").
  { intros s0 Hlow. unfold generateSuggestion.
    assert (Hno : Qgtb (soundLevel s0) CONFIG.SOUND_SPIKE_THRESHOLD = false).
    { unfold Qgtb. apply negb_false_iff, Qle_bool_iff. exact Hlow. }
    rewrite Hno, !andb_false_r.
    repeat case_match; split; discriminate. }
  split; [apply Hquiet|]. apply Hquiet. cbn. discriminate.
Qed.

Lemma needs_require_sound_witness :
  let s := set_soundLevel 0.4 (set_movementScore 1 (set_mouthOpenScore 1 initial_state)) in
  (soundLevel s <= 0.4)%Q /\ generateSuggestion s <> Some "Needs attention".
Proof.
  cbn zeta. split; [discriminate|].
  destruct (needs_require_sound
              (set_soundLevel 0.4 (set_movementScore 1 (set_mouthOpenScore 1 initial_state))))
    as [Hquiet _].
  apply Hquiet. discriminate.
Defined.

(** ** Emotion distribution *)

Lemma residual_sum (x : Q) : (x + Qmax 0 (1 - x) == Qmax 1 x)%Q.
Proof.
  destruct (Qlt_le_dec x 1) as [Hlt|Hge].
  - rewrite (Q.max_r 0 (1 - x)) by lra. rewrite (Q.max_l 1 x) by lra. ring.
  - rewrite (Q.max_l 0 (1 - x)) by lra. rewrite (Q.max_r 1 x) by lra. ring.
Qed.

(** X16.  On the path with blendshapes the four emotion scores add up to 1
    when happy, sad and surprised together stay within 1, and to their own
    sum, above 1, otherwise: neutral is the rest to 1, floored at 0. *)
Theorem emotion_scores_sum (fc : FrameClock) (r : FaceLandmarkerResult) (w : World)
    (landmarks : list (option Point)) (others : list (list (option Point)))
    (leftCorner rightCorner upperLip lowerLip : Point) :
  faceLandmarks r = Some (landmarks :: others) ->
  blendshapes_of r <> [] ->
  landmark landmarks 61 = Some leftCorner ->
  landmark landmarks 291 = Some rightCorner ->
  landmark landmarks 13 = Some upperLip ->
  landmark landmarks 14 = Some lowerLip ->
  let e := emotionScores (state (fst (processResults fc (Some r) w))) in
  (happy e + sad e + surprised e + neutral e
   == Qmax 1 (happy e + sad e + surprised e))%Q.
Proof.
  intros Hface Hsome Hleft Hright Hupper Hlower. cbn zeta.
  destruct (blendshapes_of r) as [|b shapes] eqn:Hb; [congruence|].
  remember (fst (processResults fc (Some r) w)) as w' eqn:Hw'.
  unfold processResults in Hw'. rewrite Hface, Hb, Hright, Hleft, Hlower, Hupper in Hw'.
  change (length (b :: shapes) =? 0)%nat with false in Hw'. cbv iota in Hw'.
  set (f := fun s : State => _) in Hw'.
  assert (Hres : forall s, neutral (emotionScores (f s))
                           = Qmax 0 (1 - happy (emotionScores (f s))
                                     - sad (emotionScores (f s))
                                     - surprised (emotionScores (f s)))) by reflexivity.
  clearbody f.
  assert (He : emotionScores (state w') = emotionScores (f (state w))).
  { rewrite Hw'. destruct (landmark landmarks 4) as [noseTip|]; cbv zeta; cbn [fst].
    - rewrite emotionScores_updateSuggestion. cbn [state on_state].
      destruct (trackNose_frame fc noseTip (f (state w))) as (_ & _ & -> & _).
      reflexivity.
    - reflexivity. }
  rewrite He, Hres.
  rewrite <- (residual_sum (happy (emotionScores (f (state w)))
                            + sad (emotionScores (f (state w)))
                            + surprised (emotionScores (f (state w))))).
  apply Qplus_comp; [reflexivity|].
  apply Q.max_compat; [reflexivity|]. ring.
Qed.

Lemma emotion_scores_sum_witness :
  let e := emotionScores (state (fst (processResults (clock_at 100000) (Some smiling)
                                        camera_on))) in
  (happy e + sad e + surprised e + neutral e == 1)%Q.
Proof.
  cbn zeta.
  rewrite (emotion_scores_sum (clock_at 100000) smiling camera_on resting_mesh []
             (pt 0.4 0.5) (pt 0.6 0.5) (pt 0.5 0.45) (pt 0.5 0.55)
             eq_refl ltac:(discriminate) eq_refl eq_refl eq_refl eq_refl).
  vm_compute. reflexivity.
Defined.

(** ** Muted commits *)

(** X17.  With the sound switch off a commit speaks nothing and leaves the
    speech bookkeeping alone, and still locks, counts and logs. *)
Theorem muted_commit (c : CommitClock) (message type : string) (w : World) :
  soundEnabled (state w) = false ->
  let w' := commitMessage c message type w in
  spoken w' = spoken w
  /\ lastTTSTime (state w') = lastTTSTime (state w)
  /\ lastTTSMessage (state w') = lastTTSMessage (state w)
  /\ isLocked (state w') = true
  /\ commits_fired w' = S (commits_fired w)
  /\ head (conversationLog (state w'))
     = Some {| entry_id := log_now (commit_log c); entry_message := message;
               entry_type := type; entry_timestamp := log_iso (commit_log c);
               entry_patient := currentPatient (state w) |}.
Proof.
  intros Hmuted. cbn zeta.
  destruct (commitMessage_silent c message type w (or_introl Hmuted)) as [Hstate Hspoken].
  rewrite Hspoken, commits_fired_commitMessage, Hstate. repeat split.
Qed.

Lemma muted_commit_witness :
  let w := on_state (set_soundEnabled false) camera_on in
  soundEnabled (state w) = false
  /\ spoken (commitMessage (frame_commit (clock_at 100000)) "Needs Water" "need" w) = [].
Proof.
  cbn zeta. split; [reflexivity|].
  destruct (muted_commit (frame_commit (clock_at 100000)) "Needs Water" "need"
              (on_state (set_soundEnabled false) camera_on) eq_refl) as [Hspoken _].
  exact Hspoken.
Defined.

(** ** Persistence of the log *)

Lemma append_inj_r (pre a b : string) : (pre ++ a = pre ++ b)%string -> a = b.
Proof.
  induction pre as [|ch pre IH]; cbn; [auto|]. intros [= H]. apply IH. exact H.
Qed.

Lemma patient_key_is_no_log_key (name : string) :
  (CONFIG.STORAGE_PREFIX ++ "currentPatient")%string
  <> (CONFIG.STORAGE_PREFIX ++ "log_" ++ name)%string.
Proof. intros H. apply append_inj_r in H. discriminate H. Qed.

Lemma state_loadPatientLog (w : World) :
  state (loadPatientLog w)
  = set_conversationLog
      (match localStorage w !! log_key (state w) with
       | Some (StoredLog l) => l
       | _ => []
       end) (state w).
Proof. reflexivity. Qed.

(** X18.  Saving and loading are inverse on logs within the bound: loading
    after saving brings back the last 50 entries of the log saved, so the
    whole state when the log holds at most 50; and loading under a key that
    was never saved gives the empty log. *)
Theorem save_load_round_trip (w : World) :
  conversationLog (state (loadPatientLog (savePatientLog w)))
  = slice_last CONFIG.MAX_LOG_ITEMS (conversationLog (state w))
  /\ ((length (conversationLog (state w)) <= CONFIG.MAX_LOG_ITEMS)%nat ->
      state (loadPatientLog (savePatientLog w)) = state w)
  /\ (localStorage w !! log_key (state w) = None ->
      conversationLog (state (loadPatientLog w)) = []).
Proof.
  assert (Hload : conversationLog (state (loadPatientLog (savePatientLog w)))
                  = slice_last CONFIG.MAX_LOG_ITEMS (conversationLog (state w))).
  { rewrite state_loadPatientLog. unfold savePatientLog, setItem.
    cbn [state localStorage conversationLog set_conversationLog].
    rewrite lookup_insert_eq. reflexivity. }
  split; [exact Hload|]. split.
  - intros Hlen. rewrite state_loadPatientLog. unfold savePatientLog, setItem.
    cbn [state localStorage]. rewrite lookup_insert_eq. unfold slice_last.
    replace (length (conversationLog (state w)) - CONFIG.MAX_LOG_ITEMS)%nat with 0%nat by lia.
    destruct (state w); reflexivity.
  - intros Hnone. rewrite state_loadPatientLog, Hnone. reflexivity.
Qed.

Lemma save_load_round_trip_witness :
  let w := insert_all fifty_one initial_world in
  (length (conversationLog (state w)) <= CONFIG.MAX_LOG_ITEMS)%nat
  /\ state (loadPatientLog (savePatientLog w)) = state w.
Proof.
  cbn zeta.
  assert (Hlen : (length (conversationLog (state (insert_all fifty_one initial_world)))
                  <= CONFIG.MAX_LOG_ITEMS)%nat) by (vm_compute; lia).
  split; [exact Hlen|].
  destruct (save_load_round_trip (insert_all fifty_one initial_world)) as (_ & Hback & _).
  apply Hback. exact Hlen.
Defined.

Lemma state_startSession (name : string) (w : World) :
  state (startSession name w)
  = set_conversationLog
      (match localStorage w !! (CONFIG.STORAGE_PREFIX ++ "log_" ++ name)%string with
       | Some (StoredLog l) => l
       | _ => []
       end) (set_currentPatient (Some name) (state w)).
Proof.
  unfold startSession. rewrite state_loadPatientLog. unfold setItem.
  cbn [state localStorage on_state].
  change (log_key (set_currentPatient (Some name) (state w)))
    with (CONFIG.STORAGE_PREFIX ++ "log_" ++ name)%string.
  rewrite lookup_insert_ne by apply patient_key_is_no_log_key. reflexivity.
Qed.

Lemma localStorage_startSession (name : string) (w : World) :
  localStorage (startSession name w)
  = <[(CONFIG.STORAGE_PREFIX ++ "currentPatient")%string := StoredText name]>
      (localStorage w).
Proof. reflexivity. Qed.

(** X19.  Each patient has a log of their own: an entry logged in the session
    of [p] is stored under the key of [p] and leaves the stored log of every
    other patient as it was; and after a switch to another patient and back
    the session of [p] shows the log it had. *)
Theorem sessions_keep_their_logs (p q : string) (c : LogClock) (message type : string)
    (w : World) :
  currentPatient (state w) = Some p ->
  let w1 := addToLog c message type w in
  (q <> p ->
   localStorage w1 !! (CONFIG.STORAGE_PREFIX ++ "log_" ++ q)%string
   = localStorage w !! (CONFIG.STORAGE_PREFIX ++ "log_" ++ q)%string)
  /\ conversationLog (state (startSession p (startSession q w1)))
     = conversationLog (state w1)
  /\ currentPatient (state (startSession p (startSession q w1))) = Some p.
Proof.
  intros Hp. cbn zeta.
  assert (Hkey : log_key (state (addToLog c message type w))
                 = (CONFIG.STORAGE_PREFIX ++ "log_" ++ p)%string).
  { unfold log_key. rewrite currentPatient_addToLog, Hp. reflexivity. }
  split; [|split].
  - intros Hother. unfold addToLog, savePatientLog, setItem. cbn [localStorage state on_state].
    apply lookup_insert_ne.
    unfold log_key. cbn [currentPatient set_conversationLog]. rewrite Hp. cbn [patient_str default].
    intros Heq. apply Hother. symmetry.
    apply (append_inj_r "log_"), (append_inj_r CONFIG.STORAGE_PREFIX). exact Heq.
  - rewrite state_startSession, localStorage_startSession.
    rewrite lookup_insert_ne by apply patient_key_is_no_log_key.
    pose proof (persisted_addToLog c message type w) as Hstored.
    unfold persisted_log in Hstored. rewrite Hkey in Hstored. rewrite Hstored.
    reflexivity.
  - rewrite state_startSession. reflexivity.
Qed.

Lemma sessions_keep_their_logs_witness :
  let w := startSession "Nathaniel" initial_world in
  let w1 := addToLog {| log_now := 100000; log_iso := "" |} "Needs Water" "need" w in
  currentPatient (state w) = Some "Nathaniel"
  /\ List.map entry_message
       (conversationLog (state (startSession "Nathaniel" (startSession "Ada" w1))))
     = ["Needs Water"].
Proof.
  cbn zeta. split; [reflexivity|].
  destruct (sessions_keep_their_logs "Nathaniel" "Ada"
              {| log_now := 100000; log_iso := "" |} "Needs Water" "need"
              (startSession "Nathaniel" initial_world) eq_refl) as (_ & -> & _).
  reflexivity.
Defined.

(** ** What every reachable state satisfies *)

Lemma storage_bounded_insert_log (key : string) (entries : list LogEntry) (w : World) :
  (length entries <= CONFIG.MAX_LOG_ITEMS)%nat ->
  storage_bounded w ->
  storage_bounded (setItem key (StoredLog entries) w).
Proof.
  intros Hlen Hw key' entries' Hlookup. unfold setItem in Hlookup. cbn [localStorage] in Hlookup.
  destruct (decide (key = key')) as [->|Hne].
  - rewrite lookup_insert_eq in Hlookup. injection Hlookup as <-. exact Hlen.
  - rewrite lookup_insert_ne in Hlookup by exact Hne. exact (Hw key' entries' Hlookup).
Qed.

Lemma storage_bounded_insert_text (key text : string) (w : World) :
  storage_bounded w -> storage_bounded (setItem key (StoredText text) w).
Proof.
  intros Hw key' entries' Hlookup. unfold setItem in Hlookup. cbn [localStorage] in Hlookup.
  destruct (decide (key = key')) as [->|Hne].
  - rewrite lookup_insert_eq in Hlookup. discriminate Hlookup.
  - rewrite lookup_insert_ne in Hlookup by exact Hne. exact (Hw key' entries' Hlookup).
Qed.

Lemma slice_last_length {A} (n : nat) (l : list A) : (length (slice_last n l) <= n)%nat.
Proof. unfold slice_last. rewrite length_drop. lia. Qed.

Lemma storage_bounded_same (w w' : World) :
  localStorage w' = localStorage w -> storage_bounded w -> storage_bounded w'.
Proof. intros Heq Hw key entries. rewrite Heq. apply Hw. Qed.

Lemma localStorage_vibrate (ms : Z) (w : World) :
  localStorage (vibrate ms w) = localStorage w.
Proof. unfold vibrate. destruct (navigator_vibrate w); reflexivity. Qed.

Lemma localStorage_speakOnCommit (now : Z) (message : string) (w : World) :
  localStorage (speakOnCommit now message w) = localStorage w.
Proof. unfold speakOnCommit. repeat case_match; reflexivity. Qed.

Lemma storage_bounded_savePatientLog (w : World) :
  storage_bounded w -> storage_bounded (savePatientLog w).
Proof.
  intros Hw. unfold savePatientLog.
  apply storage_bounded_insert_log; [apply slice_last_length | exact Hw].
Qed.

Lemma storage_bounded_commitMessage (c : CommitClock) (message type : string) (w : World) :
  storage_bounded w -> storage_bounded (commitMessage c message type w).
Proof.
  intros Hw. unfold commitMessage, addToLog.
  apply storage_bounded_savePatientLog.
  eapply storage_bounded_same; [|exact Hw].
  cbn [localStorage on_state].
  rewrite localStorage_vibrate, localStorage_speakOnCommit.
  cbn [localStorage emit]. rewrite localStorage_vibrate. reflexivity.
Qed.

Lemma storage_bounded_updateSuggestion (now : Z) (c : CommitClock) (w : World) :
  storage_bounded w -> storage_bounded (updateSuggestion now c w).
Proof.
  intros Hw.
  assert (Heval : forall w0, storage_bounded w0 ->
                             storage_bounded (evaluateSuggestion now c w0)).
  { intros w0 Hw0. unfold evaluateSuggestion.
    destruct (truthy (generateSuggestion (state w0))) as [message|];
      [|exact Hw0].
    case_bool_decide; [exact Hw0|]. case_match; [|exact Hw0].
    apply (storage_bounded_same (commitMessage c message "signal"
                                   (on_state updateSignalTone w0)));
      [reflexivity|].
    apply storage_bounded_commitMessage. exact Hw0. }
  unfold updateSuggestion. case_match; [exact Hw|].
  destruct (isLocked (state w)); apply Heval; exact Hw.
Qed.

Lemma well_formed_updateSuggestion (now : Z) (c : CommitClock) (w : World) :
  well_formed (state w) -> well_formed (state (updateSuggestion now c w)).
Proof.
  intros (Hpair & Hlock & Hlen).
  destruct (updateSuggestion_outcome now c w)
    as [(_ & _ & ->)
       |[(_ & _ & _ & Hlog & Hunlocked & _ & Hcases)|(_ & sug & _ & _ & _ & Hview)]].
  - repeat split; assumption || apply Hpair.
  - unfold well_formed. rewrite Hlog, Hunlocked.
    split; [|split; [discriminate | exact Hlen]].
    destruct Hcases as [(_ & -> & ->)|[(Hsome & _ & -> & ->)|(_ & _ & -> & ->)]].
    + tauto.
    + split; [contradiction | discriminate].
    + exact Hpair.
  - destruct (commit_view_all _ _ _ _ _ _ _ Hview) as (Hc & Hs & Hl & He & _ & Hlog).
    unfold well_formed. rewrite Hc, Hs, Hl, He, Hlog.
    split; [tauto|]. split; [discriminate | apply firstn_le_length].
Qed.

Lemma well_formed_commitMessage (c : CommitClock) (message type : string) (w : World) :
  well_formed (state w) -> well_formed (state (commitMessage c message type w)).
Proof.
  intros (Hpair & _ & _).
  destruct (commitMessage_state c message type w) as (Hl & He & Hc & Hs & _ & _ & Hlog).
  unfold well_formed. rewrite Hl, He, Hc, Hs, Hlog.
  split; [exact Hpair|]. split; [discriminate | apply firstn_le_length].
Qed.

(** Writes that leave candidate, stamp, lock and log alone. *)
Lemma well_formed_kept (s s' : State) :
  currentSuggestion s' = currentSuggestion s ->
  suggestionStartTime s' = suggestionStartTime s ->
  isLocked s' = isLocked s ->
  lockEndTime s' = lockEndTime s ->
  conversationLog s' = conversationLog s ->
  well_formed s -> well_formed s'.
Proof. unfold well_formed. intros -> -> -> -> ->. auto. Qed.

Lemma invariant_processResults (fc : FrameClock) (results : option FaceLandmarkerResult)
    (w : World) :
  well_formed (state w) /\ storage_bounded w ->
  well_formed (state (fst (processResults fc results w)))
  /\ storage_bounded (fst (processResults fc results w)).
Proof.
  intros [Hwf Hsb].
  assert (Hfed : forall g, well_formed (state (on_state (feed g) w))
                           /\ storage_bounded (on_state (feed g) w)).
  { intros g. split.
    - apply (well_formed_kept (state w)); try reflexivity. exact Hwf.
    - exact Hsb. }
  destruct (processResults_writes_signals fc results w) as (g & [->| ->]).
  - apply Hfed.
  - destruct (Hfed g) as [Hwf' Hsb'].
    split; [apply well_formed_updateSuggestion | apply storage_bounded_updateSuggestion];
      assumption.
Qed.

Lemma invariant_handle (e : event) (w : World) :
  well_formed (state w) /\ storage_bounded w ->
  well_formed (state (handle e w)) /\ storage_bounded (handle e w).
Proof.
  intros [Hwf Hsb].
  assert (Hkept : forall f : State -> State,
            (forall s, currentSuggestion (f s) = currentSuggestion s
                       /\ suggestionStartTime (f s) = suggestionStartTime s
                       /\ isLocked (f s) = isLocked s
                       /\ lockEndTime (f s) = lockEndTime s
                       /\ conversationLog (f s) = conversationLog s) ->
            well_formed (state (on_state f w)) /\ storage_bounded (on_state f w)).
  { intros f Hf. split; [|exact Hsb]. cbn [state on_state].
    destruct (Hf (state w)) as (H1 & H2 & H3 & H4 & H5).
    apply (well_formed_kept (state w)); assumption. }
  destruct e as [video d fc|c message type|enabled|dataArray| | | | | |name|confirmed];
    cbn [handle].
  - unfold detectFace, try_catch. repeat case_match; cbn [fst]; try (split; assumption).
    all: try apply invariant_processResults.
    all: apply Hkept; intros s; repeat split.
  - split; [apply well_formed_commitMessage | apply storage_bounded_commitMessage];
      assumption.
  - apply Hkept. intros s. repeat split.
  - apply Hkept. intros s. unfold monitorMic. case_match; repeat split.
  - apply Hkept. intros s. repeat split.
  - apply Hkept. intros s. repeat split.
  - apply Hkept. intros s. repeat split.
  - apply Hkept. intros s. repeat split.
  - apply Hkept. intros s. repeat split.
  - split.
    + rewrite state_startSession. destruct Hwf as (Hpair & Hlock & _).
      unfold well_formed. cbn [currentSuggestion suggestionStartTime isLocked lockEndTime
        conversationLog set_conversationLog set_currentPatient].
      split; [exact Hpair|]. split; [exact Hlock|].
      destruct (localStorage w !! _) as [[text|entries]|] eqn:Hstored; cbn; try lia.
      exact (Hsb _ _ Hstored).
    + unfold startSession, loadPatientLog.
      apply (storage_bounded_same
               (setItem (CONFIG.STORAGE_PREFIX ++ "currentPatient")%string
                        (StoredText name) w)); [reflexivity|].
      apply storage_bounded_insert_text. exact Hsb.
  - unfold clearLog. destruct confirmed; [|split; assumption]. split.
    + apply (well_formed_kept (set_conversationLog [] (state w))); try reflexivity.
      destruct Hwf as (Hpair & Hlock & _). unfold well_formed. cbn. 
      split; [exact Hpair|]. split; [exact Hlock | lia].
    + apply storage_bounded_savePatientLog. exact Hsb.
Qed.

(** X20.  In every state the events can reach from the start the candidate
    and its stamp are null together, a lock in force has an end time, the
    log holds at most 50 entries, and so does every log in [localStorage]. *)
Theorem reachable_states_well_formed (events : list event) :
  well_formed (state (handle_all events initial_world))
  /\ storage_bounded (handle_all events initial_world).
Proof.
  assert (Hstart : well_formed (state initial_world) /\ storage_bounded initial_world).
  { split.
    - unfold well_formed. cbn. split; [tauto|]. split; [discriminate | lia].
    - intros key entries Hlookup. unfold initial_world in Hlookup.
      cbn [localStorage] in Hlookup. rewrite lookup_empty in Hlookup. discriminate. }
  unfold handle_all. revert Hstart. generalize initial_world.
  induction events as [|e events IH]; intros w Hw.
  - exact Hw.
  - rewrite fold_left_step. apply IH. apply invariant_handle. exact Hw.
Qed.
